(** * DharmaGuard surveillance core: the trade pattern detection engine

    A shallow embedding of [TradePatternDetector]
    (core-engine/include/surveillance/trade_pattern_detector.hpp and
    core-engine/src/surveillance/trade_pattern_detector.cpp) and the
    properties of its submit path, context store, detector fan-out,
    statistics and registry.

    Conventions.
    - [uint64_t] values are [N] with the wrap-around of [fetch_add] written
      out ([wrap64]); [std::chrono] time points and durations are tick counts
      in [Z] (signed, nanoseconds for [system_clock], minutes for
      [lookback_window]); signed overflow is undefined behaviour in C++ and
      lies outside the model.
    - [double] is [spec_float] (IEEE 754 values with NaN, infinities and
      signed zeros) with the comparisons of the Standard Library.
    - [std::string] is [string]; the concurrent maps are [gmap string _].
    - [spdlog] output is a list of records carried in the engine state, so
      that the effect of a call that only logs is visible.
    - Clock readings are arguments of the operations that take them.
    - The worker is modelled one trade at a time; the fan-out over the
      enabled detectors runs in the order of the registry listing. The
      accesses to the peak counter are also modelled under arbitrary
      interleaving of several workers ([PeakUpdate]).
    - In the engine state a detector registered under a name is owned by
      that entry; detectors shared between names are the subject of
      [Shared]. *)

From Stdlib Require Import ZArith NArith Lia SpecFloat.
From stdpp Require Import base numbers option list sorting strings pretty gmap
  fin_maps.

Local Open Scope Z_scope.

(** ** Scalars *)

Module Scalar.

(** [uint64_t]: values are reduced modulo 2^64. *)
Definition two64 : N := (2 ^ 64)%N.
Definition wrap64 (n : N) : N := (n mod two64)%N.

(** Conversion of a signed 64-bit count to [uint64_t], as the usual
    arithmetic conversions do when an [int64_t] meets a [uint64_t]. *)
Definition to_u64 (z : Z) : N := Z.to_N (z mod 2 ^ 64).

(** The literal [0.0]. *)
Definition zero_double : spec_float := S754_zero false.

(** [a > b] and [a <= b] on doubles; both are false when an operand is
    NaN. *)
Definition double_gt (a b : spec_float) : bool := SFltb b a.
Definition double_le (a b : spec_float) : bool := SFleb a b.

(** Number of [system_clock] ticks (nanoseconds) in one minute, the
    factor applied when a [std::chrono::minutes] is subtracted from a
    [system_clock::time_point]. *)
Definition ticks_per_minute : Z := 60 * 1000000000.

End Scalar.
Export Scalar.

Arguments wrap64 : simpl never.
Arguments to_u64 : simpl never.
Arguments two64 : simpl never.
Arguments ticks_per_minute : simpl never.

(** ** Trade data (trade_pattern_detector.hpp, [struct TradeData]) *)

Inductive TradeType := BUY | SELL | SHORT_SELL | COVER.
Inductive MarketSegment := EQUITY | FUTURES | OPTIONS | COMMODITY | CURRENCY.

Record TradeData := {
  trade_id : string;
  instrument_symbol : string;
  account_id : string;
  client_id : string;
  trade_type : TradeType;
  segment : MarketSegment;
  quantity : N;
  price : spec_float;
  value : spec_float;
  exchange : string;
  timestamp : Z;
  order_id : string;
  trader_id : string;
  is_own_account : bool;
  brokerage : spec_float;
  taxes : spec_float;
  instrument_id_hash : N;
  account_id_hash : N;
  client_id_hash : N
}.

(** [std::string::empty]. *)
Definition empty (s : string) : bool :=
  match s with EmptyString => true | String _ _ => false end.

(** [TradeData::is_valid]. *)
Definition is_valid (t : TradeData) : bool :=
  negb (empty (trade_id t)) &&
  negb (empty (instrument_symbol t)) &&
  (0 <? quantity t)%N &&
  double_gt (price t) zero_double &&
  double_gt (value t) zero_double.

(** ** Historical context (trade_pattern_detector.hpp,
    [struct HistoricalContext]) *)

Record HistoricalContext := {
  lookback_window : Z;                 (* std::chrono::minutes, a count of minutes *)
  recent_trades : list TradeData;
  avg_volume : spec_float;
  avg_price : spec_float;
  price_volatility : spec_float;
  bid_price : spec_float;
  ask_price : spec_float;
  bid_quantity : N;
  ask_quantity : N;
  account_recent_trades : list TradeData;
  account_total_volume : spec_float;
  related_accounts : list string;
  related_instruments : list string
}.

(** The default member initialisers: [HistoricalContext context;]. *)
Definition default_context : HistoricalContext := {|
  lookback_window := 5;
  recent_trades := [];
  avg_volume := zero_double;
  avg_price := zero_double;
  price_volatility := zero_double;
  bid_price := zero_double;
  ask_price := zero_double;
  bid_quantity := 0%N;
  ask_quantity := 0%N;
  account_recent_trades := [];
  account_total_volume := zero_double;
  related_accounts := [];
  related_instruments := []
|}.

Definition set_recent_trades (l : list TradeData) (c : HistoricalContext)
  : HistoricalContext := {|
  lookback_window := lookback_window c;
  recent_trades := l;
  avg_volume := avg_volume c;
  avg_price := avg_price c;
  price_volatility := price_volatility c;
  bid_price := bid_price c;
  ask_price := ask_price c;
  bid_quantity := bid_quantity c;
  ask_quantity := ask_quantity c;
  account_recent_trades := account_recent_trades c;
  account_total_volume := account_total_volume c;
  related_accounts := related_accounts c;
  related_instruments := related_instruments c
|}.

(** ** Alerts *)

Inductive AlertSeverity := LOW | MEDIUM | HIGH | CRITICAL.

(** Modelled from the spec: [struct SurveillanceAlert]
    (surveillance_alert.hpp is not part of the sources at hand). The
    fields are those the data model lists; the engine itself only reads
    [title]. *)
Record SurveillanceAlert := {
  alert_type : string;
  title : string;
  description : string;
  severity : AlertSeverity;
  pattern_name : string;
  alert_trade_id : string;
  alert_timestamp : Z;
  evidence : list (string * string)
}.

(** ** Detector interface (trade_pattern_detector.hpp,
    [class IPatternDetector]) *)

(** What a call of [detect_pattern] can do: return an optional alert,
    throw an exception derived from [std::exception] (with its [what()]),
    or throw anything else. *)
Inductive DetectOutcome :=
| Returned (alert_opt : option SurveillanceAlert)
| ThrewStd (what : string)
| ThrewOther.

(** The pure virtual members. The configuration type [PatternConfig]
    (pattern_config.hpp) is opaque to the engine and is a parameter. *)
Class IPatternDetector (PatternConfig D : Type) := {
  detect_pattern : D -> TradeData -> HistoricalContext -> DetectOutcome;
  update_config : PatternConfig -> D -> D;
  get_name : D -> string;
  is_enabled : D -> bool;
  set_enabled : bool -> D -> D
}.

(** ** Memory pool *)

(** Modelled from the spec: [class MemoryPool] is only forward-declared in
    the sources at hand. A pre-sized slab of trade slots: [allocate] hands
    out a free slot or nothing when exhausted, [deallocate] returns a slot;
    the free slots form a stack. *)
Record MemoryPool := {
  pool_free : list N;
  pool_slots : gmap N TradeData
}.

(** The handles [first], [first + 1], ... of [count] slots. *)
Fixpoint slots_from (first : N) (count : nat) : list N :=
  match count with
  | O => []
  | S count => first :: slots_from (N.succ first) count
  end.

Definition new_pool (capacity : nat) : MemoryPool :=
  {| pool_free := slots_from 0 capacity; pool_slots := ∅ |}.

Definition allocate (p : MemoryPool) : option (N * MemoryPool) :=
  match pool_free p with
  | [] => None
  | s :: rest => Some (s, {| pool_free := rest; pool_slots := pool_slots p |})
  end.

Definition deallocate (s : N) (p : MemoryPool) : MemoryPool :=
  {| pool_free := s :: pool_free p; pool_slots := pool_slots p |}.

(** [*pooled_trade = trade]. *)
Definition slot_write (s : N) (t : TradeData) (p : MemoryPool) : MemoryPool :=
  {| pool_free := pool_free p; pool_slots := <[s := t]> (pool_slots p) |}.

(** A slot that was never written holds a value-initialised trade. *)
Definition blank_trade : TradeData := {|
  trade_id := ""; instrument_symbol := ""; account_id := ""; client_id := "";
  trade_type := BUY; segment := EQUITY; quantity := 0%N;
  price := zero_double; value := zero_double; exchange := ""; timestamp := 0;
  order_id := ""; trader_id := ""; is_own_account := false;
  brokerage := zero_double; taxes := zero_double;
  instrument_id_hash := 0%N; account_id_hash := 0%N; client_id_hash := 0%N
|}.

(** [*trade]. *)
Definition slot_read (s : N) (p : MemoryPool) : TradeData :=
  default blank_trade (pool_slots p !! s).

(** ** Ingress queue *)

(** Modelled from the spec: the bounded queue of slot handles behind
    [boost::lockfree::queue<TradeData*>]; [push] fails when the queue is
    full, [pop] when it is empty. *)
Record TradeQueue := {
  queue_capacity : nat;
  queue_items : list N
}.

Definition new_queue (capacity : nat) : TradeQueue :=
  {| queue_capacity := capacity; queue_items := [] |}.

Definition push (s : N) (q : TradeQueue) : option TradeQueue :=
  if decide (length (queue_items q) < queue_capacity q)%nat
  then Some {| queue_capacity := queue_capacity q;
               queue_items := queue_items q ++ [s] |}
  else None.

Definition pop (q : TradeQueue) : option (N * TradeQueue) :=
  match queue_items q with
  | [] => None
  | s :: rest => Some (s, {| queue_capacity := queue_capacity q;
                             queue_items := rest |})
  end.

Definition read_available (q : TradeQueue) : N := N.of_nat (length (queue_items q)).

(** ** Logging *)

Inductive LogLevel := lvl_debug | lvl_info | lvl_warn | lvl_error.

Definition LogRecord : Type := LogLevel * string.

(** ** Statistics (trade_pattern_detector.hpp, [struct ProcessingStats]) *)

Record ProcessingStats := {
  total_trades_processed : N;
  total_alerts_generated : N;
  queue_size : N;
  avg_processing_time_ns : N;
  peak_processing_time_ns : N;
  throughput_trades_per_second : spec_float;
  cpu_utilization_percent : spec_float;
  memory_usage_bytes : N;
  last_updated : Z;
  pattern_alerts_count : gmap string N;
  pattern_processing_time_ns : gmap string N
}.

(** The default member initialisers of [ProcessingStats]. *)
Definition default_stats : ProcessingStats := {|
  total_trades_processed := 0;
  total_alerts_generated := 0;
  queue_size := 0;
  avg_processing_time_ns := 0;
  peak_processing_time_ns := 0;
  throughput_trades_per_second := zero_double;
  cpu_utilization_percent := zero_double;
  memory_usage_bytes := 0;
  last_updated := 0;
  pattern_alerts_count := ∅;
  pattern_processing_time_ns := ∅
|}.

(** [static_cast<double>] of an integer: rounding to the nearest binary64
    value. *)
Definition double_of_Z (z : Z) : spec_float := binary_normalize 53 1024 z 0 false.

(** Division of doubles. *)
Definition double_div (a b : spec_float) : spec_float := SFdiv 53 1024 a b.

(** ** The engine ([class TradePatternDetector] with its
    [TradeProcessorImpl]) *)

(** [std::remove_if] followed by [erase]: the elements satisfying [pred]
    are dropped, the others keep their relative order. *)
Definition remove_if {A} (pred : A -> bool) (l : list A) : list A :=
  List.filter (fun x => negb (pred x)) l.

(** [trade.instrument_symbol + "_" + trade.account_id]. *)
Definition context_key (trade : TradeData) : string :=
  instrument_symbol trade +:+ "_" +:+ account_id trade.

(** The context found in the cache for the trade's key, or a fresh one
    (lines 341-347). *)
Definition stored_context (trade : TradeData)
    (cache : gmap string HistoricalContext) : HistoricalContext :=
  default default_context (cache !! context_key trade).

(** [trade.timestamp - context.lookback_window]: the minutes are converted
    to clock ticks. *)
Definition cutoff_time (trade : TradeData) (context : HistoricalContext) : Z :=
  timestamp trade - lookback_window context * ticks_per_minute.

(** The local variable [context] of [process_trade_internal] once the
    window has been pruned, i.e. the value stored in the cache and handed
    to every detector (lines 341-359). *)
Definition updated_context (trade : TradeData)
    (cache : gmap string HistoricalContext) : HistoricalContext :=
  let context := stored_context trade cache in
  let context := set_recent_trades (recent_trades context ++ [trade]) context in
  let cutoff := cutoff_time trade context in
  set_recent_trades
    (remove_if (fun t => timestamp t <? cutoff) (recent_trades context))
    context.

Section Engine.

Context {PatternConfig D : Type} `{!IPatternDetector PatternConfig D}.

(** The data members that the modelled member functions read or write.
    [memory_pool_] and [context_cache_] are those of the implementation
    object [impl_]; [peak_processing_time_ns_] is the counter the worker
    updates (declared in [TradeProcessorImpl]); threads and the alert
    callback are not represented. *)
Record TradePatternDetector := {
  num_threads_ : nat;
  running_ : bool;
  shutdown_requested_ : bool;
  memory_pool_ : MemoryPool;
  trade_queue_ : TradeQueue;
  context_cache_ : gmap string HistoricalContext;
  detectors_ : gmap string D;
  statistics_ : ProcessingStats;
  alert_queue_ : list SurveillanceAlert;
  last_stats_update_ : Z;
  trades_processed_ : N;
  alerts_generated_ : N;
  processing_time_ns_ : N;
  peak_processing_time_ns_ : N;
  spdlog : list LogRecord
}.

Definition set_running_ (b : bool) (e : TradePatternDetector) :=
  {| num_threads_ := num_threads_ e; running_ := b;
     shutdown_requested_ := shutdown_requested_ e;
     memory_pool_ := memory_pool_ e; trade_queue_ := trade_queue_ e;
     context_cache_ := context_cache_ e; detectors_ := detectors_ e;
     statistics_ := statistics_ e; alert_queue_ := alert_queue_ e;
     last_stats_update_ := last_stats_update_ e;
     trades_processed_ := trades_processed_ e;
     alerts_generated_ := alerts_generated_ e;
     processing_time_ns_ := processing_time_ns_ e;
     peak_processing_time_ns_ := peak_processing_time_ns_ e;
     spdlog := spdlog e |}.

Definition set_shutdown_requested_ (b : bool) (e : TradePatternDetector) :=
  {| num_threads_ := num_threads_ e; running_ := running_ e;
     shutdown_requested_ := b;
     memory_pool_ := memory_pool_ e; trade_queue_ := trade_queue_ e;
     context_cache_ := context_cache_ e; detectors_ := detectors_ e;
     statistics_ := statistics_ e; alert_queue_ := alert_queue_ e;
     last_stats_update_ := last_stats_update_ e;
     trades_processed_ := trades_processed_ e;
     alerts_generated_ := alerts_generated_ e;
     processing_time_ns_ := processing_time_ns_ e;
     peak_processing_time_ns_ := peak_processing_time_ns_ e;
     spdlog := spdlog e |}.

Definition set_memory_pool_ (p : MemoryPool) (e : TradePatternDetector) :=
  {| num_threads_ := num_threads_ e; running_ := running_ e;
     shutdown_requested_ := shutdown_requested_ e;
     memory_pool_ := p; trade_queue_ := trade_queue_ e;
     context_cache_ := context_cache_ e; detectors_ := detectors_ e;
     statistics_ := statistics_ e; alert_queue_ := alert_queue_ e;
     last_stats_update_ := last_stats_update_ e;
     trades_processed_ := trades_processed_ e;
     alerts_generated_ := alerts_generated_ e;
     processing_time_ns_ := processing_time_ns_ e;
     peak_processing_time_ns_ := peak_processing_time_ns_ e;
     spdlog := spdlog e |}.

Definition set_trade_queue_ (q : TradeQueue) (e : TradePatternDetector) :=
  {| num_threads_ := num_threads_ e; running_ := running_ e;
     shutdown_requested_ := shutdown_requested_ e;
     memory_pool_ := memory_pool_ e; trade_queue_ := q;
     context_cache_ := context_cache_ e; detectors_ := detectors_ e;
     statistics_ := statistics_ e; alert_queue_ := alert_queue_ e;
     last_stats_update_ := last_stats_update_ e;
     trades_processed_ := trades_processed_ e;
     alerts_generated_ := alerts_generated_ e;
     processing_time_ns_ := processing_time_ns_ e;
     peak_processing_time_ns_ := peak_processing_time_ns_ e;
     spdlog := spdlog e |}.

Definition set_context_cache_ (c : gmap string HistoricalContext)
    (e : TradePatternDetector) :=
  {| num_threads_ := num_threads_ e; running_ := running_ e;
     shutdown_requested_ := shutdown_requested_ e;
     memory_pool_ := memory_pool_ e; trade_queue_ := trade_queue_ e;
     context_cache_ := c; detectors_ := detectors_ e;
     statistics_ := statistics_ e; alert_queue_ := alert_queue_ e;
     last_stats_update_ := last_stats_update_ e;
     trades_processed_ := trades_processed_ e;
     alerts_generated_ := alerts_generated_ e;
     processing_time_ns_ := processing_time_ns_ e;
     peak_processing_time_ns_ := peak_processing_time_ns_ e;
     spdlog := spdlog e |}.

Definition set_detectors_ (d : gmap string D) (e : TradePatternDetector) :=
  {| num_threads_ := num_threads_ e; running_ := running_ e;
     shutdown_requested_ := shutdown_requested_ e;
     memory_pool_ := memory_pool_ e; trade_queue_ := trade_queue_ e;
     context_cache_ := context_cache_ e; detectors_ := d;
     statistics_ := statistics_ e; alert_queue_ := alert_queue_ e;
     last_stats_update_ := last_stats_update_ e;
     trades_processed_ := trades_processed_ e;
     alerts_generated_ := alerts_generated_ e;
     processing_time_ns_ := processing_time_ns_ e;
     peak_processing_time_ns_ := peak_processing_time_ns_ e;
     spdlog := spdlog e |}.

Definition set_alert_queue_ (a : list SurveillanceAlert)
    (e : TradePatternDetector) :=
  {| num_threads_ := num_threads_ e; running_ := running_ e;
     shutdown_requested_ := shutdown_requested_ e;
     memory_pool_ := memory_pool_ e; trade_queue_ := trade_queue_ e;
     context_cache_ := context_cache_ e; detectors_ := detectors_ e;
     statistics_ := statistics_ e; alert_queue_ := a;
     last_stats_update_ := last_stats_update_ e;
     trades_processed_ := trades_processed_ e;
     alerts_generated_ := alerts_generated_ e;
     processing_time_ns_ := processing_time_ns_ e;
     peak_processing_time_ns_ := peak_processing_time_ns_ e;
     spdlog := spdlog e |}.

Definition set_trades_processed_ (n : N) (e : TradePatternDetector) :=
  {| num_threads_ := num_threads_ e; running_ := running_ e;
     shutdown_requested_ := shutdown_requested_ e;
     memory_pool_ := memory_pool_ e; trade_queue_ := trade_queue_ e;
     context_cache_ := context_cache_ e; detectors_ := detectors_ e;
     statistics_ := statistics_ e; alert_queue_ := alert_queue_ e;
     last_stats_update_ := last_stats_update_ e;
     trades_processed_ := n;
     alerts_generated_ := alerts_generated_ e;
     processing_time_ns_ := processing_time_ns_ e;
     peak_processing_time_ns_ := peak_processing_time_ns_ e;
     spdlog := spdlog e |}.

Definition set_alerts_generated_ (n : N) (e : TradePatternDetector) :=
  {| num_threads_ := num_threads_ e; running_ := running_ e;
     shutdown_requested_ := shutdown_requested_ e;
     memory_pool_ := memory_pool_ e; trade_queue_ := trade_queue_ e;
     context_cache_ := context_cache_ e; detectors_ := detectors_ e;
     statistics_ := statistics_ e; alert_queue_ := alert_queue_ e;
     last_stats_update_ := last_stats_update_ e;
     trades_processed_ := trades_processed_ e;
     alerts_generated_ := n;
     processing_time_ns_ := processing_time_ns_ e;
     peak_processing_time_ns_ := peak_processing_time_ns_ e;
     spdlog := spdlog e |}.

Definition set_processing_time_ns_ (n : N) (e : TradePatternDetector) :=
  {| num_threads_ := num_threads_ e; running_ := running_ e;
     shutdown_requested_ := shutdown_requested_ e;
     memory_pool_ := memory_pool_ e; trade_queue_ := trade_queue_ e;
     context_cache_ := context_cache_ e; detectors_ := detectors_ e;
     statistics_ := statistics_ e; alert_queue_ := alert_queue_ e;
     last_stats_update_ := last_stats_update_ e;
     trades_processed_ := trades_processed_ e;
     alerts_generated_ := alerts_generated_ e;
     processing_time_ns_ := n;
     peak_processing_time_ns_ := peak_processing_time_ns_ e;
     spdlog := spdlog e |}.

Definition set_peak_processing_time_ns_ (n : N) (e : TradePatternDetector) :=
  {| num_threads_ := num_threads_ e; running_ := running_ e;
     shutdown_requested_ := shutdown_requested_ e;
     memory_pool_ := memory_pool_ e; trade_queue_ := trade_queue_ e;
     context_cache_ := context_cache_ e; detectors_ := detectors_ e;
     statistics_ := statistics_ e; alert_queue_ := alert_queue_ e;
     last_stats_update_ := last_stats_update_ e;
     trades_processed_ := trades_processed_ e;
     alerts_generated_ := alerts_generated_ e;
     processing_time_ns_ := processing_time_ns_ e;
     peak_processing_time_ns_ := n;
     spdlog := spdlog e |}.

(** One [spdlog::<level>(...)] call. *)
Definition log (lvl : LogLevel) (msg : string) (e : TradePatternDetector) :=
  {| num_threads_ := num_threads_ e; running_ := running_ e;
     shutdown_requested_ := shutdown_requested_ e;
     memory_pool_ := memory_pool_ e; trade_queue_ := trade_queue_ e;
     context_cache_ := context_cache_ e; detectors_ := detectors_ e;
     statistics_ := statistics_ e; alert_queue_ := alert_queue_ e;
     last_stats_update_ := last_stats_update_ e;
     trades_processed_ := trades_processed_ e;
     alerts_generated_ := alerts_generated_ e;
     processing_time_ns_ := processing_time_ns_ e;
     peak_processing_time_ns_ := peak_processing_time_ns_ e;
     spdlog := spdlog e ++ [(lvl, msg)] |}.

(** The constructor. [pool_capacity] is the size handed to
    [MemoryPool]; [hr_now] is the reading of
    [high_resolution_clock::now()]. *)
Definition construct (pool_capacity : nat) (hr_now : Z)
    (num_threads queue_size : nat) : TradePatternDetector :=
  {| num_threads_ := num_threads; running_ := false;
     shutdown_requested_ := false;
     memory_pool_ := new_pool pool_capacity;
     trade_queue_ := new_queue queue_size;
     context_cache_ := ∅; detectors_ := ∅;
     statistics_ := default_stats; alert_queue_ := [];
     last_stats_update_ := hr_now;
     trades_processed_ := 0; alerts_generated_ := 0;
     processing_time_ns_ := 0; peak_processing_time_ns_ := 0;
     spdlog := [(lvl_info,
                 "TradePatternDetector initialized with " +:+ pretty num_threads
                 +:+ " threads, queue size: " +:+ pretty queue_size)] |}.

(** [TradePatternDetector::TradePatternDetector]: the pool holds
    1000000 trades. *)
Definition new_engine (hr_now : Z) (num_threads queue_size : nat)
  : TradePatternDetector :=
  construct (N.to_nat 1000000) hr_now num_threads queue_size.

(** [TradePatternDetector::start], without the threads it spawns. *)
Definition start (e : TradePatternDetector) : bool * TradePatternDetector :=
  if running_ e then
    (false, log lvl_warn "TradePatternDetector is already running" e)
  else
    let e := set_shutdown_requested_ false e in
    let e := set_running_ true e in
    (true, log lvl_info ("TradePatternDetector started with "
                         +:+ pretty (num_threads_ e) +:+ " worker threads") e).

(** [TradePatternDetector::validate_trade_data]; [now] is the reading of
    [system_clock::now()]. *)
Definition validate_trade_data (now : Z) (trade : TradeData)
    (e : TradePatternDetector) : bool * TradePatternDetector :=
  if negb (is_valid trade) then (false, e)
  else if now <? timestamp trade then
    (false, log lvl_warn ("Trade timestamp is in the future: " +:+ trade_id trade) e)
  else if double_le (price trade) zero_double || (quantity trade =? 0)%N then
    (false, log lvl_warn ("Invalid price or quantity: " +:+ trade_id trade) e)
  else (true, e).

(** [TradePatternDetector::process_trade], the submit operation. *)
Definition process_trade (now : Z) (trade : TradeData)
    (e : TradePatternDetector) : bool * TradePatternDetector :=
  if negb (running_ e) then (false, e)
  else
    let '(ok, e) := validate_trade_data now trade e in
    if negb ok then
      (false, log lvl_warn ("Invalid trade data received: " +:+ trade_id trade) e)
    else
      match allocate (memory_pool_ e) with
      | None =>
          (false, log lvl_error
                    ("Memory pool exhausted, dropping trade: " +:+ trade_id trade) e)
      | Some (pooled_trade, pool) =>
          let e := set_memory_pool_ (slot_write pooled_trade trade pool) e in
          match push pooled_trade (trade_queue_ e) with
          | None =>
              let e := set_memory_pool_
                         (deallocate pooled_trade (memory_pool_ e)) e in
              (false, log lvl_warn
                        ("Trade queue full, dropping trade: " +:+ trade_id trade) e)
          | Some q => (true, set_trade_queue_ q e)
          end
      end.

(** [TradePatternDetector::register_pattern_detector]. *)
Definition register_pattern_detector (pattern_name : string) (detector : D)
    (e : TradePatternDetector) : TradePatternDetector :=
  let e := set_detectors_ (<[pattern_name := detector]> (detectors_ e)) e in
  log lvl_info ("Registered pattern detector: " +:+ pattern_name) e.

(** [TradePatternDetector::get_statistics]; [hr_now] and [sys_now] are the
    readings of the two clocks. The duration is truncated to whole
    seconds by [duration_cast]. *)
Definition get_statistics (hr_now sys_now : Z) (e : TradePatternDetector)
  : ProcessingStats :=
  let stats := statistics_ e in
  let total := trades_processed_ e in
  let duration := (hr_now - last_stats_update_ e) ÷ 1000000000 in
  {| total_trades_processed := total;
     total_alerts_generated := alerts_generated_ e;
     queue_size := read_available (trade_queue_ e);
     avg_processing_time_ns := avg_processing_time_ns stats;
     peak_processing_time_ns := peak_processing_time_ns stats;
     throughput_trades_per_second :=
       if 0 <? duration
       then double_div (double_of_Z (Z.of_N total)) (double_of_Z duration)
       else throughput_trades_per_second stats;
     cpu_utilization_percent := cpu_utilization_percent stats;
     memory_usage_bytes := memory_usage_bytes stats;
     last_updated := sys_now;
     pattern_alerts_count := pattern_alerts_count stats;
     pattern_processing_time_ns := pattern_processing_time_ns stats |}.

(** [TradePatternDetector::toggle_pattern]. *)
Definition toggle_pattern (pattern_name : string) (enabled : bool)
    (e : TradePatternDetector) : TradePatternDetector :=
  match detectors_ e !! pattern_name with
  | Some detector =>
      let e := set_detectors_
                 (<[pattern_name := set_enabled enabled detector]> (detectors_ e)) e in
      log lvl_info ("Pattern " +:+ pattern_name +:+ " "
                    +:+ (if enabled then "enabled" else "disabled")) e
  | None => log lvl_warn ("Pattern not found: " +:+ pattern_name) e
  end.

(** [TradePatternDetector::update_pattern_config]. *)
Definition update_pattern_config (pattern_name : string)
    (config : PatternConfig) (e : TradePatternDetector) : TradePatternDetector :=
  match detectors_ e !! pattern_name with
  | Some detector =>
      let e := set_detectors_
                 (<[pattern_name := update_config config detector]> (detectors_ e)) e in
      log lvl_info ("Updated configuration for pattern: " +:+ pattern_name) e
  | None => log lvl_warn ("Pattern not found: " +:+ pattern_name) e
  end.

(** The vector [enabled_detectors] of [process_trade_internal]. *)
Definition enabled_detectors (e : TradePatternDetector) : list (string * D) :=
  List.filter (fun nd => is_enabled (snd nd)) (map_to_list (detectors_ e)).

(** The body of the [parallel_for] over [enabled_detectors], run in index
    order. An exception that is not a [std::exception] is not caught; it
    leaves [process_trade_internal] and the worker thread, which ends the
    process: the result is [None]. *)
Fixpoint run_detectors (trade : TradeData) (context : HistoricalContext)
    (ds : list (string * D)) (e : TradePatternDetector)
  : option TradePatternDetector :=
  match ds with
  | [] => Some e
  | (name, detector) :: rest =>
      match detect_pattern detector trade context with
      | Returned (Some alert) =>
          let e := set_alert_queue_ (alert_queue_ e ++ [alert]) e in
          let e := set_alerts_generated_ (wrap64 (alerts_generated_ e + 1)) e in
          let e := log lvl_info ("Alert generated by " +:+ name +:+ ": "
                                 +:+ title alert +:+ " for trade "
                                 +:+ trade_id trade) e in
          run_detectors trade context rest e
      | Returned None => run_detectors trade context rest e
      | ThrewStd what =>
          let e := log lvl_error ("Error in pattern detector " +:+ name
                                  +:+ ": " +:+ what) e in
          run_detectors trade context rest e
      | ThrewOther => None
      end
  end.

(** [TradePatternDetector::process_trade_internal]. *)
Definition process_trade_internal (trade : TradeData)
    (e : TradePatternDetector) : option TradePatternDetector :=
  let context := updated_context trade (context_cache_ e) in
  let e := set_context_cache_
             (<[context_key trade := context]> (context_cache_ e)) e in
  run_detectors trade context (enabled_detectors e) e.

(** The peak update of the worker when no other thread interferes: the
    compare-and-swap succeeds at once. (The interleaved version is
    [PeakUpdate] below.) *)
Definition update_peak (processing_time : Z) (e : TradePatternDetector)
  : TradePatternDetector :=
  let current_peak := peak_processing_time_ns_ e in
  if (current_peak <? to_u64 processing_time)%N
  then set_peak_processing_time_ns_ (to_u64 processing_time) e
  else e.

(** One turn of the loop of [TradePatternDetector::worker_thread_func];
    [processing_time] is [end_time - start_time] as the clock measured
    it. With an empty queue the worker yields. *)
Definition worker_iteration (processing_time : Z) (e : TradePatternDetector)
  : option TradePatternDetector :=
  match pop (trade_queue_ e) with
  | Some (trade, q) =>
      let e := set_trade_queue_ q e in
      e ← process_trade_internal (slot_read trade (memory_pool_ e)) e;
      let e := set_processing_time_ns_
                 (wrap64 (processing_time_ns_ e + to_u64 processing_time)) e in
      let e := update_peak processing_time e in
      let e := set_trades_processed_ (wrap64 (trades_processed_ e + 1)) e in
      Some (set_memory_pool_ (deallocate trade (memory_pool_ e)) e)
  | None => Some e
  end.

(** Several turns of the worker loop, one measured duration per turn. *)
Fixpoint worker_run (durations : list Z) (e : TradePatternDetector)
  : option TradePatternDetector :=
  match durations with
  | [] => Some e
  | d :: rest => e ← worker_iteration d e; worker_run rest e
  end.

(** Several submits in a row at clock reading [now]; the results are
    returned in order. *)
Fixpoint submit_all (now : Z) (trades : list TradeData)
    (e : TradePatternDetector) : list bool * TradePatternDetector :=
  match trades with
  | [] => ([], e)
  | t :: rest =>
      let '(ok, e) := process_trade now t e in
      let '(oks, e) := submit_all now rest e in
      (ok :: oks, e)
  end.

(** Every [uint64_t] counter the engine keeps. *)
Definition counters (e : TradePatternDetector) : list N :=
  [trades_processed_ e; alerts_generated_ e; processing_time_ns_ e;
   peak_processing_time_ns_ e].

End Engine.

Arguments TradePatternDetector : clear implicits.

(** ** The peak counter under interleaving

    The statements of [worker_thread_func] that touch
    [peak_processing_time_ns_], for any number of workers running at once.
    Each atomic access is one event; a schedule is a list of events. *)

Module PeakUpdate.

(** Where a worker stands between two trades. *)
Inductive Worker :=
| Idle
| Measured (processing_time : Z)
| Retrying (processing_time : Z) (current_peak : N).

Record State := {
  peak : N;                  (* peak_processing_time_ns_ *)
  workers : list Worker;
  samples : list Z           (* the durations of the trades processed so far *)
}.

Inductive Event :=
| Measure (i : nat) (processing_time : Z)
    (* worker i has computed processing_time *)
| Load (i : nat)
    (* uint64_t current_peak = peak_processing_time_ns_.load() *)
| Test (i : nat) (spurious : bool).
    (* the loop condition: processing_time > current_peak &&
       !compare_exchange_weak(current_peak, processing_time);
       [spurious] lets the weak exchange fail although the values agree *)

Definition in_int64 (z : Z) : bool := (- 2 ^ 63 <=? z) && (z <? 2 ^ 63).

Definition set_worker (i : nat) (w : Worker) (s : State) : State :=
  {| peak := peak s; workers := <[i := w]> (workers s); samples := samples s |}.

(** The worker is done with the trade: the duration counts as observed. *)
Definition finish (i : nat) (processing_time : Z) (s : State) : State :=
  {| peak := peak s; workers := <[i := Idle]> (workers s);
     samples := processing_time :: samples s |}.

(** One event; [None] when the worker is not at that statement. *)
Definition exec (ev : Event) (s : State) : option State :=
  match ev with
  | Measure i processing_time =>
      match workers s !! i with
      | Some Idle =>
          if in_int64 processing_time
          then Some (set_worker i (Measured processing_time) s)
          else None
      | _ => None
      end
  | Load i =>
      match workers s !! i with
      | Some (Measured processing_time) =>
          Some (set_worker i (Retrying processing_time (peak s)) s)
      | _ => None
      end
  | Test i spurious =>
      match workers s !! i with
      | Some (Retrying processing_time current_peak) =>
          if (current_peak <? to_u64 processing_time)%N then
            if (peak s =? current_peak)%N && negb spurious then
              (* the exchange succeeds and the loop ends *)
              Some (finish i processing_time
                      {| peak := to_u64 processing_time;
                         workers := workers s; samples := samples s |})
            else
              (* the exchange fails: current_peak is reloaded, retry *)
              Some (set_worker i (Retrying processing_time (peak s)) s)
          else Some (finish i processing_time s)
      | _ => None
      end
  end.

Fixpoint run (schedule : list Event) (s : State) : option State :=
  match schedule with
  | [] => Some s
  | ev :: rest => s ← exec ev s; run rest s
  end.

(** [n] workers, the counter at zero as [reset_statistics] leaves it. *)
Definition init (n : nat) : State :=
  {| peak := 0; workers := replicate n Idle; samples := [] |}.

(** What the schedules maintain: the counter dominates every observed
    duration and every value a worker has loaded. *)
Definition worker_ok (p : N) (w : Worker) : Prop :=
  match w with
  | Idle => True
  | Measured pt => in_int64 pt = true
  | Retrying pt cur => in_int64 pt = true /\ (cur <= p)%N
  end.

Definition consistent (s : State) : Prop :=
  Forall (worker_ok (peak s)) (workers s) /\
  Forall (fun d => in_int64 d = true /\ (to_u64 d <= peak s)%N) (samples s).

End PeakUpdate.

(** ** Fixtures: the detectors and trades of the end-to-end scenarios *)

Inductive TestKind :=
| null_detector | always_detector | throw_detector | alien_detector | probe_detector.

Record TestDetector := {
  kind : TestKind;
  enabled_flag : bool;
  installed_config : option nat
}.

Definition alert_X (trade : TradeData) : SurveillanceAlert := {|
  alert_type := "TEST"; title := "X"; description := ""; severity := LOW;
  pattern_name := "always_detector"; alert_trade_id := trade_id trade;
  alert_timestamp := timestamp trade; evidence := []
|}.

(** The alert of the probe: its evidence lists the trades of the context
    snapshot it was called with. *)
Definition alert_seen (trade : TradeData) (context : HistoricalContext)
  : SurveillanceAlert := {|
  alert_type := "PROBE"; title := "seen"; description := ""; severity := LOW;
  pattern_name := "probe_detector"; alert_trade_id := trade_id trade;
  alert_timestamp := timestamp trade;
  evidence := (fun t => (trade_id t, pretty (timestamp t))) <$> recent_trades context
|}.

#[export] Instance test_detector : IPatternDetector nat TestDetector := {|
  detect_pattern d trade context :=
    match kind d with
    | null_detector => Returned None
    | always_detector => Returned (Some (alert_X trade))
    | throw_detector => ThrewStd "boom"
    | alien_detector => ThrewOther
    | probe_detector => Returned (Some (alert_seen trade context))
    end;
  update_config c d :=
    {| kind := kind d; enabled_flag := enabled_flag d; installed_config := Some c |};
  get_name d :=
    match kind d with
    | null_detector => "null_detector"
    | always_detector => "always_detector"
    | throw_detector => "throw_detector"
    | alien_detector => "alien_detector"
    | probe_detector => "probe_detector"
    end;
  is_enabled d := enabled_flag d;
  set_enabled b d :=
    {| kind := kind d; enabled_flag := b; installed_config := installed_config d |}
|}.

Definition fixture (k : TestKind) : TestDetector :=
  {| kind := k; enabled_flag := true; installed_config := None |}.

(** A well-formed trade of 100 units at price 10, value 1000. *)
Definition sample_trade (id instrument account : string) (ts : Z) : TradeData := {|
  trade_id := id; instrument_symbol := instrument; account_id := account;
  client_id := "CL1"; trade_type := BUY; segment := EQUITY; quantity := 100%N;
  price := double_of_Z 10; value := double_of_Z 1000; exchange := "NSE";
  timestamp := ts; order_id := "O1"; trader_id := "TR1"; is_own_account := false;
  brokerage := zero_double; taxes := zero_double;
  instrument_id_hash := 0%N; account_id_hash := 0%N; client_id_hash := 0%N
|}.

Definition seconds (n : Z) : Z := n * 1000000000.

(** An engine as the constructor builds it (one worker, the given queue
    size), after [start]. *)
Definition started (queue_size : nat) : TradePatternDetector TestDetector :=
  snd (start (new_engine 0 1 queue_size)).

(** The same with a pool of [pool_capacity] slots, the set-up of scenario
    S4. *)
Definition started_with_pool (pool_capacity queue_size : nat)
  : TradePatternDetector TestDetector :=
  snd (start (construct pool_capacity 0 1 queue_size)).

(** A stored context with the given window (in minutes) and trades. *)
Definition context_with (window : Z) (trades : list TradeData) : HistoricalContext :=
  set_recent_trades trades
    {| lookback_window := window; recent_trades := [];
       avg_volume := zero_double; avg_price := zero_double;
       price_volatility := zero_double; bid_price := zero_double;
       ask_price := zero_double; bid_quantity := 0%N; ask_quantity := 0%N;
       account_recent_trades := []; account_total_volume := zero_double;
       related_accounts := []; related_instruments := [] |}.

(** ** The statements of the specification, in its own words *)

(** The validity invariant in the words of the data model: identifiers
    present, quantity, price and value positive, timestamp not after
    [now]. *)
Definition spec_is_valid (now : Z) (t : TradeData) : Prop :=
  trade_id t <> "" /\ instrument_symbol t <> "" /\ (0 < quantity t)%N /\
  double_gt (price t) zero_double = true /\
  double_gt (value t) zero_double = true /\
  timestamp t <= now.

(** Addition of doubles. *)
Definition double_add (a b : spec_float) : spec_float := SFadd 53 1024 a b.

(** The average price of a window of trades: the sum of the prices divided
    by their number. *)
Definition window_avg_price (l : list TradeData) : spec_float :=
  double_div (foldr (fun t acc => double_add (price t) acc) zero_double l)
             (double_of_Z (Z.of_nat (length l))).

(** The average volume of a window of trades. *)
Definition window_avg_volume (l : list TradeData) : spec_float :=
  double_div
    (foldr (fun t acc => double_add (double_of_Z (Z.of_N (quantity t))) acc)
           zero_double l)
    (double_of_Z (Z.of_nat (length l))).

(** The trade of a window with timestamp [ts] seconds. *)
Definition trade_at (id : string) (s : Z) : TradeData :=
  sample_trade id "INST1" "ACC1" (seconds s).

(** [process_trade_internal] on several trades in turn. *)
Fixpoint process_each {PatternConfig D} `{!IPatternDetector PatternConfig D}
    (trades : list TradeData) (e : TradePatternDetector D)
  : option (TradePatternDetector D) :=
  match trades with
  | [] => Some e
  | t :: rest => e ← process_trade_internal t e; process_each rest e
  end.

(** Scenario S3: the key (INST1, ACC1) configured with a window of one
    minute, and a probe registered. *)
Definition s3_engine : TradePatternDetector TestDetector :=
  set_context_cache_ {[ "INST1_ACC1" := context_with 1 [] ]}
    (register_pattern_detector "probe" (fixture probe_detector) (started 4)).

(** S3 after the trades at 0 s and 30 s, and after the trade at 90 s. *)
Definition s3_after_two : option (TradePatternDetector TestDetector) :=
  process_each [trade_at "T0" 0; trade_at "T30" 30] s3_engine.

Definition s3_after_three : option (TradePatternDetector TestDetector) :=
  e ← s3_after_two; process_trade_internal (trade_at "T90" 90) e.


(** Two trades whose (instrument, account) pairs differ and contain
    underscores. *)
Definition trade_AB_C : TradeData := sample_trade "T1" "A_B" "C" (seconds 1).
Definition trade_A_BC : TradeData := sample_trade "T2" "A" "B_C" (seconds 2).

(** Both processed by a fresh engine. *)
Definition collision_result : option (TradePatternDetector TestDetector) :=
  process_each [trade_AB_C; trade_A_BC] (started 4).

(** ** The fan-out, detector by detector *)

Section FanOut.

Context {PatternConfig D : Type} `{!IPatternDetector PatternConfig D}.

(** Several log records at once. *)
Definition log_all (records : list LogRecord) (e : TradePatternDetector D) :=
  {| num_threads_ := num_threads_ e; running_ := running_ e;
     shutdown_requested_ := shutdown_requested_ e;
     memory_pool_ := memory_pool_ e; trade_queue_ := trade_queue_ e;
     context_cache_ := context_cache_ e; detectors_ := detectors_ e;
     statistics_ := statistics_ e; alert_queue_ := alert_queue_ e;
     last_stats_update_ := last_stats_update_ e;
     trades_processed_ := trades_processed_ e;
     alerts_generated_ := alerts_generated_ e;
     processing_time_ns_ := processing_time_ns_ e;
     peak_processing_time_ns_ := peak_processing_time_ns_ e;
     spdlog := spdlog e ++ records |}.

(** The alert one detector contributes. *)
Definition outcome_alerts (o : DetectOutcome) : list SurveillanceAlert :=
  match o with
  | Returned (Some alert) => [alert]
  | _ => []
  end.

(** The log record one detector contributes. *)
Definition outcome_log (name : string) (trade : TradeData) (o : DetectOutcome)
  : list LogRecord :=
  match o with
  | Returned (Some alert) =>
      [(lvl_info, "Alert generated by " +:+ name +:+ ": " +:+ title alert
                  +:+ " for trade " +:+ trade_id trade)]
  | Returned None => []
  | ThrewStd what =>
      [(lvl_error, "Error in pattern detector " +:+ name +:+ ": " +:+ what)]
  | ThrewOther => []
  end.

Definition fan_out_alerts (trade : TradeData) (context : HistoricalContext)
    (ds : list (string * D)) : list SurveillanceAlert :=
  flat_map (fun nd => outcome_alerts (detect_pattern (snd nd) trade context)) ds.

Definition fan_out_log (trade : TradeData) (context : HistoricalContext)
    (ds : list (string * D)) : list LogRecord :=
  flat_map (fun nd => outcome_log (fst nd) trade
                        (detect_pattern (snd nd) trade context)) ds.

(** No detector of [ds] throws something that is not a
    [std::exception]. *)
Definition no_foreign (trade : TradeData) (context : HistoricalContext)
    (ds : list (string * D)) : Prop :=
  Forall (fun nd => detect_pattern (snd nd) trade context <> ThrewOther) ds.

End FanOut.

(** The error record of [throw_detector]. *)
Definition is_throw_error (r : LogRecord) : bool :=
  match fst r with
  | lvl_error => String.eqb (snd r) "Error in pattern detector throw_detector: boom"
  | _ => false
  end.

(** Scenario S6: a detector that always fails and one that always alerts. *)
Definition s6_engine : TradePatternDetector TestDetector :=
  snd (start
         (register_pattern_detector "always_detector" (fixture always_detector)
            (register_pattern_detector "throw_detector" (fixture throw_detector)
               (new_engine 0 1 8)))).

Definition s6_trades : list TradeData :=
  [trade_at "T1" 1; trade_at "T2" 2; trade_at "T3" 3; trade_at "T4" 4;
   trade_at "T5" 5].

(** S6 after the five submits, and after the worker has drained the
    queue. *)
Definition s6_submitted : list bool * TradePatternDetector TestDetector :=
  submit_all (seconds 100) s6_trades s6_engine.

Definition s6_result : option (TradePatternDetector TestDetector) :=
  worker_run [100; 200; 300; 400; 500] (snd s6_submitted).

(** An engine whose only detector always fails, with one trade queued. *)
Definition throwing_engine : TradePatternDetector TestDetector :=
  snd (process_trade (seconds 100) (trade_at "T1" 1)
         (snd (start
                 (register_pattern_detector "throw_detector" (fixture throw_detector)
                    (new_engine 0 1 8))))).

(** The worker processes that trade in 700 ns. *)
Definition throwing_result : option (TradePatternDetector TestDetector) :=
  worker_iteration 700 throwing_engine.

(** Scenario S4: pool and queue of 4, four trades accepted and none
    processed yet; the pool has no slot left. *)
Definition exhausted_engine : TradePatternDetector TestDetector :=
  snd (submit_all (seconds 100)
         [trade_at "T1" 1; trade_at "T2" 2; trade_at "T3" 3; trade_at "T4" 4]
         (started_with_pool 4 4)).

(** A queue of 2 filled by two accepted trades; the pool of the
    constructor has slots left. *)
Definition full_queue_engine : TradePatternDetector TestDetector :=
  snd (submit_all (seconds 100) [trade_at "T1" 1; trade_at "T2" 2] (started 2)).

(** The same with a pool of 4: slots 2 and 3 are free. *)
Definition full_queue_small : TradePatternDetector TestDetector :=
  snd (submit_all (seconds 100) [trade_at "T1" 1; trade_at "T2" 2]
         (started_with_pool 4 2)).

(** Two trades submitted and processed in 400 ns and 600 ns. *)
Definition two_processed : option (TradePatternDetector TestDetector) :=
  worker_run [400; 600]
    (snd (submit_all (seconds 100) [trade_at "T1" 1; trade_at "T2" 2]
            (snd (start
                    (register_pattern_detector "null" (fixture null_detector)
                       (new_engine 0 1 4)))))).

(** The average of the statistics in the words of the specification. *)
Definition spec_avg_processing_time_ns (total_processing_time_ns trades_processed : N)
  : N :=
  (total_processing_time_ns / N.max trades_processed 1)%N.

(** A registry holding two detectors, neither under the name "ghost". *)
Definition two_detectors : TradePatternDetector TestDetector :=
  register_pattern_detector "always_detector" (fixture always_detector)
    (register_pattern_detector "null_detector" (fixture null_detector)
       (new_engine 0 1 4)).

(** Three durations processed by two workers whose peak updates overlap:
    worker 1 loads the counter before worker 0 installs 900, so its first
    exchange fails and it retries. *)
Definition overlapping_schedule : list PeakUpdate.Event :=
  [PeakUpdate.Measure 0 900; PeakUpdate.Measure 1 1200;
   PeakUpdate.Load 0; PeakUpdate.Load 1;
   PeakUpdate.Test 0 false; PeakUpdate.Test 1 false; PeakUpdate.Test 1 true;
   PeakUpdate.Test 1 false].

Definition later_schedule : list PeakUpdate.Event :=
  [PeakUpdate.Measure 0 300; PeakUpdate.Load 0; PeakUpdate.Test 0 false].

(** ** The states the engine can be in

    The states built from the constructor by the public operations and the
    worker. *)
Inductive reachable {PatternConfig D} `{!IPatternDetector PatternConfig D}
  : TradePatternDetector D -> Prop :=
| reach_new hr_now num_threads queue_size :
    reachable (new_engine hr_now num_threads queue_size)
| reach_start e :
    reachable e -> reachable (snd (start e))
| reach_register name detector e :
    reachable e -> reachable (register_pattern_detector name detector e)
| reach_toggle name enabled e :
    reachable e -> reachable (toggle_pattern name enabled e)
| reach_update_config name config e :
    reachable e -> reachable (update_pattern_config name config e)
| reach_submit now trade e :
    reachable e -> reachable (snd (process_trade now trade e))
| reach_worker processing_time e e' :
    reachable e -> worker_iteration processing_time e = Some e' -> reachable e'.

(** In every cache the code can build, the window is the default of five
    minutes: [process_trade_internal] is the only writer and copies the
    field. *)
Definition default_windows (cache : gmap string HistoricalContext) : Prop :=
  forall k c, cache !! k = Some c -> lookback_window c = 5.

(** * Further operations and notions *)

(** ** Steps of the engine

    One public operation or one turn of the worker. *)
Inductive engine_step {PatternConfig D} `{!IPatternDetector PatternConfig D}
  : TradePatternDetector D -> TradePatternDetector D -> Prop :=
| step_start e :
    engine_step e (snd (start e))
| step_register name detector e :
    engine_step e (register_pattern_detector name detector e)
| step_toggle name enabled e :
    engine_step e (toggle_pattern name enabled e)
| step_update_config name config e :
    engine_step e (update_pattern_config name config e)
| step_submit now trade e :
    engine_step e (snd (process_trade now trade e))
| step_worker processing_time e e' :
    worker_iteration processing_time e = Some e' -> engine_step e e'.

(** The trades waiting in the queue: the contents of the slots whose
    handles are queued, in the order of the model's queue. *)
Definition queued_trades {D} (e : TradePatternDetector D) : list TradeData :=
  (fun slot => slot_read slot (memory_pool_ e)) <$> queue_items (trade_queue_ e).

(** The slots of the pool that are free or queued. *)
Definition slots_in_use_or_free {D} (e : TradePatternDetector D) : list N :=
  pool_free (memory_pool_ e) ++ queue_items (trade_queue_ e).

(** The room left in the queue. *)
Definition queue_room (q : TradeQueue) : nat :=
  queue_capacity q - length (queue_items q).

(** ** Batch submission *)

Section Batch.

Context {PatternConfig D : Type} `{!IPatternDetector PatternConfig D}.

(** The first loop of [process_trades_batch]: [validation_results[i] =
    validate_trade_data(trades[i])], taken in index order; [validate_now i]
    is the clock reading of the [i]-th call. The source runs the calls
    under [tbb::parallel_for] and stores the verdicts in a
    [std::vector<bool>], whose elements share machine words, so that a
    verdict stored concurrently can be lost; what is proved of the second
    loop below holds for every list of verdicts. *)
Fixpoint validate_each (validate_now : nat -> Z) (i : nat)
    (trades : list TradeData) (e : TradePatternDetector D)
  : list bool * TradePatternDetector D :=
  match trades with
  | [] => ([], e)
  | t :: rest =>
      let '(ok, e) := validate_trade_data (validate_now i) t e in
      let '(oks, e) := validate_each validate_now (S i) rest e in
      (ok :: oks, e)
  end.

(** The second loop: every trade marked valid is handed to
    [process_trade], and the accepted ones are counted. [submit_now i] is
    the clock reading inside the [i]-th [process_trade]. *)
Fixpoint queue_validated (submit_now : nat -> Z) (i : nat)
    (trades : list TradeData) (validation_results : list bool)
    (successful_count : N) (e : TradePatternDetector D)
  : N * TradePatternDetector D :=
  match trades, validation_results with
  | t :: rest, ok :: oks =>
      if ok then
        let '(queued, e) := process_trade (submit_now i) t e in
        queue_validated submit_now (S i) rest oks
          (if queued then successful_count + 1 else successful_count)%N e
      else queue_validated submit_now (S i) rest oks successful_count e
  | _, _ => (successful_count, e)
  end.

(** [TradePatternDetector::process_trades_batch]. The count cannot wrap:
    it is at most the length of the vector. *)
Definition process_trades_batch (validate_now submit_now : nat -> Z)
    (trades : list TradeData) (e : TradePatternDetector D)
  : N * TradePatternDetector D :=
  if negb (running_ e) then (0%N, e)
  else
    let '(validation_results, e) := validate_each validate_now 0 trades e in
    queue_validated submit_now 0 trades validation_results 0 e.

End Batch.

(** What validation decides, as a function of the clock reading. *)
Definition valid_at (now : Z) (t : TradeData) : bool :=
  is_valid t && negb (now <? timestamp t).

(** The trades of a batch that the second loop hands to [process_trade]
    and that pass its validation: the verdict of the first loop is true and
    the trade is valid at the clock reading of its submit. *)
Fixpoint batch_selected (submit_now : nat -> Z) (i : nat)
    (trades : list TradeData) (validation_results : list bool)
  : list TradeData :=
  match trades, validation_results with
  | t :: rest, ok :: oks =>
      if ok && valid_at (submit_now i) t
      then t :: batch_selected submit_now (S i) rest oks
      else batch_selected submit_now (S i) rest oks
  | _, _ => []
  end.

(** A window whose trades are in time order. *)
Definition in_time_order (l : list TradeData) : Prop :=
  StronglySorted (fun a b => timestamp a <= timestamp b) l.

(** ** The thread functions

    A thread function is a loop; the model runs it for a given number of
    turns. It ends by leaving the loop, is still in the loop when the
    turns are used up, or is aborted by an exception nobody catches. *)
Inductive ThreadEnd (A : Type) :=
| Finished (a : A)
| StillRunning (a : A)
| Aborted.

Arguments Finished {A} a.
Arguments StillRunning {A} a.
Arguments Aborted {A}.

(** [trade_queue_.empty()]. *)
Definition queue_empty (q : TradeQueue) : bool :=
  match queue_items q with [] => true | _ :: _ => false end.

Section Threads.

Context {PatternConfig D : Type} `{!IPatternDetector PatternConfig D}.

(** The loop of [TradePatternDetector::worker_thread_func]: one element of
    [turns] per turn, the duration measured in that turn (not read when the
    queue is empty and the worker yields). *)
Fixpoint worker_loop (thread_id : string) (turns : list Z)
    (e : TradePatternDetector D) : ThreadEnd (TradePatternDetector D) :=
  if running_ e || negb (queue_empty (trade_queue_ e)) then
    match turns with
    | [] => StillRunning e
    | processing_time :: rest =>
        match worker_iteration processing_time e with
        | Some e => worker_loop thread_id rest e
        | None => Aborted
        end
    end
  else
    Finished (log lvl_debug ("Worker thread finished: " +:+ thread_id) e).

(** [TradePatternDetector::worker_thread_func]; [thread_id] is the text of
    [std::this_thread::get_id()]. *)
Definition worker_thread_func (thread_id : string) (turns : list Z)
    (e : TradePatternDetector D) : ThreadEnd (TradePatternDetector D) :=
  worker_loop thread_id turns
    (log lvl_debug ("Worker thread started: " +:+ thread_id) e).

(** No registered detector throws anything but a [std::exception]. *)
Definition well_behaved (e : TradePatternDetector D) : Prop :=
  forall name detector trade context,
    detectors_ e !! name = Some detector ->
    detect_pattern detector trade context <> ThrewOther.

End Threads.

(** ** The alert dispatcher *)

(** What a call of the alert callback can do. *)
Inductive CallbackOutcome :=
| CallbackReturned
| CallbackThrewStd (what : string)
| CallbackThrewOther.

Section Dispatcher.

Context {PatternConfig D : Type} `{!IPatternDetector PatternConfig D}.

(** The callable held by [alert_callback_] acts on a state [Sink] of its own
    (whatever the closure captures or reaches); [None] is the empty
    [std::function]. *)
Context {Sink : Type}.

Definition AlertCallback : Type :=
  Sink -> SurveillanceAlert -> CallbackOutcome * Sink.

(** One turn of the loop of [alert_dispatcher_func]: [try_pop], then the
    callback inside its [try]. With an empty queue the thread sleeps. An
    exception that is not a [std::exception] leaves the thread function. *)
Definition dispatch_iteration (alert_callback_ : option AlertCallback)
    (st : Sink * TradePatternDetector D) : option (Sink * TradePatternDetector D) :=
  let '(s, e) := st in
  match alert_queue_ e with
  | alert :: rest =>
      let e := set_alert_queue_ rest e in
      match alert_callback_ with
      | Some callback =>
          match callback s alert with
          | (CallbackReturned, s) => Some (s, e)
          | (CallbackThrewStd what, s) =>
              Some (s, log lvl_error ("Error in alert callback: " +:+ what) e)
          | (CallbackThrewOther, _) => None
          end
      | None => Some (s, e)
      end
  | [] => Some (s, e)
  end.

Fixpoint dispatcher_loop (alert_callback_ : option AlertCallback) (turns : nat)
    (st : Sink * TradePatternDetector D)
  : ThreadEnd (Sink * TradePatternDetector D) :=
  if running_ (snd st) || negb (bool_decide (alert_queue_ (snd st) = @nil _)) then
    match turns with
    | O => StillRunning st
    | S turns =>
        match dispatch_iteration alert_callback_ st with
        | Some st => dispatcher_loop alert_callback_ turns st
        | None => Aborted
        end
    end
  else
    Finished (fst st, log lvl_debug "Alert dispatcher thread finished" (snd st)).

(** [TradePatternDetector::alert_dispatcher_func]. *)
Definition alert_dispatcher_func (alert_callback_ : option AlertCallback)
    (turns : nat) (st : Sink * TradePatternDetector D)
  : ThreadEnd (Sink * TradePatternDetector D) :=
  dispatcher_loop alert_callback_ turns
    (fst st, log lvl_debug "Alert dispatcher thread started" (snd st)).

(** The callback applied to a list of alerts in order: its final state and
    the error records of the calls that threw a [std::exception]. *)
Fixpoint deliver (callback : AlertCallback) (s : Sink)
    (alerts : list SurveillanceAlert) : Sink * list LogRecord :=
  match alerts with
  | [] => (s, [])
  | alert :: rest =>
      let '(outcome, s) := callback s alert in
      let '(s, records) := deliver callback s rest in
      (s, match outcome with
          | CallbackThrewStd what =>
              (lvl_error, "Error in alert callback: " +:+ what) :: records
          | _ => records
          end)
  end.

End Dispatcher.

(** A callback that records the alerts it is called with; it throws a
    [std::exception] on alerts of severity [LOW]. *)
Definition recording_callback
  : list SurveillanceAlert -> SurveillanceAlert
    -> CallbackOutcome * list SurveillanceAlert :=
  fun seen alert =>
    (match severity alert with
     | LOW => CallbackThrewStd "rejected"
     | _ => CallbackReturned
     end, seen ++ [alert]).

(** The largest of the observed durations, read as unsigned numbers; 0
    when there is none. *)
Definition largest_sample (samples : list Z) : N :=
  foldr (fun d m => N.max (to_u64 d) m) 0%N samples.

(** ** Fixtures of the further properties *)

(** An engine with two detectors: one enabled that always alerts, and one
    registered disabled that would throw something that is not a
    [std::exception] if it were called. *)
Definition mixed_engine : TradePatternDetector TestDetector :=
  register_pattern_detector "alien"
    {| kind := alien_detector; enabled_flag := false; installed_config := None |}
    (register_pattern_detector "always_detector" (fixture always_detector)
       (started 4)).

(** Scenario S6 after its five submits, with the running flag cleared as
    [stop] clears it before joining the threads. *)
Definition draining_engine : TradePatternDetector TestDetector :=
  set_running_ false (snd s6_submitted).

(** A stopped engine with two alerts waiting for the dispatcher. *)
Definition alerts_waiting : TradePatternDetector TestDetector :=
  set_running_ false
    (set_alert_queue_ [alert_X (trade_at "T1" 1); alert_X (trade_at "T2" 2)]
       (started 4)).

(** A key with a window of one minute that retains the trades dated 0 s
    and 30 s. *)
Definition one_minute_cache : gmap string HistoricalContext :=
  {[ "INST1_ACC1" := context_with 1 [trade_at "T0" 0; trade_at "T30" 30] ]}.

(** A batch of three trades; the second has no trade id. *)
Definition mixed_batch : list TradeData :=
  [trade_at "T1" 1; trade_at "" 2; trade_at "T3" 3].


(** ** The registry with shared detectors

    [detectors_] holds [std::shared_ptr<IPatternDetector>]: a caller can
    register one detector object under several names, and [toggle_pattern]
    and [update_pattern_config] change the object in place through the
    pointer. The registry below keeps the objects apart from the names;
    the engine above keeps one detector value per name, which is the same
    as long as every object is registered under one name. *)
Module Shared.

Section Registry.

Context {PatternConfig D : Type} `{!IPatternDetector PatternConfig D}.

(** [names] is [detectors_], from a name to the address its
    [shared_ptr] holds; [objects] are the detector objects by address. *)
Record Registry := {
  names : gmap string N;
  objects : gmap N D
}.

(** [detectors_[pattern_name] = std::move(detector)]. *)
Definition register_pattern_detector (pattern_name : string) (detector : N)
    (r : Registry) : Registry :=
  {| names := <[pattern_name := detector]> (names r); objects := objects r |}.

(** [it->second->set_enabled(enabled)] when [find] succeeds. *)
Definition toggle_pattern (pattern_name : string) (enabled : bool)
    (r : Registry) : Registry :=
  match names r !! pattern_name with
  | Some it =>
      {| names := names r;
         objects := alter (set_enabled enabled) it (objects r) |}
  | None => r
  end.

(** [it->second->update_config(config)] when [find] succeeds. *)
Definition update_pattern_config (pattern_name : string)
    (config : PatternConfig) (r : Registry) : Registry :=
  match names r !! pattern_name with
  | Some it =>
      {| names := names r;
         objects := alter (update_config config) it (objects r) |}
  | None => r
  end.

(** The detector a name leads to. *)
Definition detector_at (pattern_name : string) (r : Registry) : option D :=
  it ← names r !! pattern_name; objects r !! it.

(** The registry as the engine keeps it: each name with the present value
    of its object. *)
Definition view (r : Registry) : gmap string D :=
  omap (fun it => objects r !! it) (names r).

End Registry.

End Shared.

Arguments Shared.Registry : clear implicits.

(** One detector object, at address 7, registered under the names "fast"
    and "slow"; another, at address 8, under "other". *)
Definition aliased_registry : Shared.Registry TestDetector :=
  Shared.register_pattern_detector "other" 8%N
    (Shared.register_pattern_detector "slow" 7%N
       (Shared.register_pattern_detector "fast" 7%N
          {| Shared.names := ∅;
             Shared.objects := {[ 7%N := fixture always_detector;
                                  8%N := fixture null_detector ]} |})).


(** * Properties *)

(** Closed statements about the fixtures are settled by evaluation, one
    conjunct at a time. *)
Ltac compute_all :=
  repeat match goal with |- _ /\ _ => split end; vm_compute; reflexivity.

(** ** Validation at submit *)

Lemma empty_spec (s : string) : empty s = false <-> s <> "".
Proof. destruct s; simpl; split; congruence. Qed.

(** A double that is greater than zero is not less than or equal to it, so
    the second price test of [validate_trade_data] never fires after
    [is_valid]. *)
Lemma double_gt_zero_not_le (x : spec_float) :
  double_gt x zero_double = true -> double_le x zero_double = false.
Proof.
  unfold double_gt, double_le, zero_double, SFltb, SFleb.
  destruct x as [s | s | | s m e]; simpl; try discriminate;
    destruct s; simpl; congruence.
Qed.

Lemma is_valid_spec (t : TradeData) :
  is_valid t = true <->
  trade_id t <> "" /\ instrument_symbol t <> "" /\ (0 < quantity t)%N /\
  double_gt (price t) zero_double = true /\
  double_gt (value t) zero_double = true.
Proof.
  unfold is_valid. rewrite !andb_true_iff, !negb_true_iff, !empty_spec.
  rewrite N.ltb_lt. tauto.
Qed.

Section Validation.

Context {PatternConfig D : Type} `{!IPatternDetector PatternConfig D}.
Implicit Types (e : TradePatternDetector D) (t : TradeData).

Lemma validate_trade_data_spec now t e :
  fst (validate_trade_data now t e) = true <-> spec_is_valid now t.
Proof.
  unfold validate_trade_data, spec_is_valid.
  destruct (is_valid t) eqn:Hv; simpl.
  - apply is_valid_spec in Hv as (Hid & Hin & Hq & Hp & Hval).
    rewrite (double_gt_zero_not_le _ Hp).
    destruct (now <? timestamp t) eqn:Hts; simpl.
    + apply Z.ltb_lt in Hts. split; [discriminate | lia].
    + apply Z.ltb_ge in Hts.
      destruct (quantity t =? 0)%N eqn:Hq0; simpl.
      * apply N.eqb_eq in Hq0. lia.
      * tauto.
  - split; [discriminate |].
    intros (Hid & Hin & Hq & Hp & Hval & _).
    assert (is_valid t = true) by (apply is_valid_spec; tauto). congruence.
Qed.

(** Validation only writes to the log. *)
Lemma validate_trade_data_frame now t e :
  let e' := snd (validate_trade_data now t e) in
  running_ e' = running_ e /\ memory_pool_ e' = memory_pool_ e /\
  trade_queue_ e' = trade_queue_ e /\ counters e' = counters e /\
  detectors_ e' = detectors_ e /\ context_cache_ e' = context_cache_ e.
Proof.
  unfold validate_trade_data.
  repeat (match goal with |- context [if ?b then _ else _] => destruct b end);
    simpl; auto 10.
Qed.

(** C1. While the engine is running, the validation predicate of the
    code is equivalent to the validity invariant of the data model:
    [process_trade] returns true only for a trade with non-empty
    [trade_id] and [instrument_symbol], positive quantity, price and
    value, and a timestamp not after now; a trade failing any conjunct is
    rejected with false, and neither the queue nor the pool is touched. *)
Theorem submit_accepts_only_valid now t e :
  running_ e = true ->
  (fst (validate_trade_data now t e) = true <-> spec_is_valid now t) /\
  (fst (process_trade now t e) = true -> spec_is_valid now t) /\
  (~ spec_is_valid now t ->
     fst (process_trade now t e) = false /\
     trade_queue_ (snd (process_trade now t e)) = trade_queue_ e /\
     memory_pool_ (snd (process_trade now t e)) = memory_pool_ e).
Proof.
  intros Hrun. split; [apply validate_trade_data_spec |].
  pose proof (validate_trade_data_spec now t e) as Hspec.
  pose proof (validate_trade_data_frame now t e) as (_ & Hpool & Hq & _).
  unfold process_trade. rewrite Hrun. simpl.
  destruct (validate_trade_data now t e) as [ok e1]. simpl in *.
  destruct ok; simpl.
  - split; [tauto |]. intros Hn. tauto.
  - split; [discriminate |]. auto.
Qed.

End Validation.

(** ** The context store *)

Lemma remove_if_older (cutoff : Z) (l : list TradeData) :
  remove_if (fun t => timestamp t <? cutoff) l
  = List.filter (fun t => cutoff <=? timestamp t) l.
Proof.
  unfold remove_if. apply List.filter_ext. intros t. symmetry. apply Z.leb_antisym.
Qed.

(** The window after an update, whatever the sign of the stored
    [lookback_window]. *)
Lemma updated_context_recent_trades trade cache :
  let old := stored_context trade cache in
  recent_trades (updated_context trade cache)
  = List.filter (fun t => cutoff_time trade old <=? timestamp t)
                (recent_trades old ++ [trade]).
Proof. simpl. unfold updated_context. simpl. apply remove_if_older. Qed.

(** Only [recent_trades] changes in an update. *)
Lemma updated_context_frame trade cache :
  updated_context trade cache
  = set_recent_trades (recent_trades (updated_context trade cache))
                      (stored_context trade cache).
Proof. reflexivity. Qed.

Lemma updated_context_lookback trade cache :
  lookback_window (updated_context trade cache)
  = lookback_window (stored_context trade cache).
Proof. reflexivity. Qed.

Lemma cutoff_le_timestamp trade context :
  0 <= lookback_window context -> cutoff_time trade context <= timestamp trade.
Proof. unfold cutoff_time, ticks_per_minute. intros H. nia. Qed.

Lemma updated_context_window trade cache :
  let old := stored_context trade cache in
  0 <= lookback_window old ->
  recent_trades (updated_context trade cache)
  = List.filter (fun t => cutoff_time trade old <=? timestamp t) (recent_trades old)
    ++ [trade].
Proof.
  intros old Hw. rewrite updated_context_recent_trades. fold old.
  rewrite List.filter_app. simpl.
  pose proof (cutoff_le_timestamp trade old Hw) as Hle.
  apply Z.leb_le in Hle. rewrite Hle. reflexivity.
Qed.

Lemma default_windows_empty : default_windows ∅.
Proof. intros k c H. rewrite lookup_empty in H. discriminate. Qed.

Lemma default_windows_stored trade cache :
  default_windows cache -> lookback_window (stored_context trade cache) = 5.
Proof.
  intros Hd. unfold stored_context.
  destruct (cache !! context_key trade) as [c |] eqn:Hc; simpl; eauto.
Qed.

Lemma default_windows_update trade cache :
  default_windows cache ->
  default_windows (<[context_key trade := updated_context trade cache]> cache).
Proof.
  intros Hd k c. rewrite lookup_insert. case_decide.
  - intros [= <-]. rewrite updated_context_lookback.
    by apply default_windows_stored.
  - apply Hd.
Qed.

(** The fan-out writes the alert queue, the alert counter and the log, and
    nothing else. *)
Lemma run_detectors_frame {PatternConfig D} `{!IPatternDetector PatternConfig D}
    trade context ds (e e' : TradePatternDetector D) :
  run_detectors trade context ds e = Some e' ->
  context_cache_ e' = context_cache_ e /\ detectors_ e' = detectors_ e /\
  statistics_ e' = statistics_ e /\ trade_queue_ e' = trade_queue_ e /\
  memory_pool_ e' = memory_pool_ e /\ running_ e' = running_ e /\
  trades_processed_ e' = trades_processed_ e /\
  processing_time_ns_ e' = processing_time_ns_ e /\
  peak_processing_time_ns_ e' = peak_processing_time_ns_ e.
Proof.
  revert e. induction ds as [| [name d] rest IH]; intros e; simpl.
  - intros [= <-]. auto 10.
  - destruct (detect_pattern d trade context) as [[alert |] | what |];
      try discriminate; intros Hr; apply IH in Hr; exact Hr.
Qed.

(** What no operation changes: the stored statistics record stays the
    default one, and every cached context keeps the default window. *)
Lemma process_trade_frame {PatternConfig D} `{!IPatternDetector PatternConfig D}
    now t (e : TradePatternDetector D) :
  statistics_ (snd (process_trade now t e)) = statistics_ e /\
  context_cache_ (snd (process_trade now t e)) = context_cache_ e /\
  detectors_ (snd (process_trade now t e)) = detectors_ e /\
  counters (snd (process_trade now t e)) = counters e.
Proof.
  unfold process_trade, validate_trade_data, allocate, push.
  repeat (match goal with
          | |- context [if ?b then _ else _] => destruct b
          | |- context [match pool_free ?p with _ => _ end] =>
              destruct (pool_free p)
          end; simpl); auto.
Qed.

Lemma worker_iteration_frame {PatternConfig D} `{!IPatternDetector PatternConfig D}
    processing_time (e e' : TradePatternDetector D) :
  worker_iteration processing_time e = Some e' ->
  statistics_ e' = statistics_ e /\
  (context_cache_ e' = context_cache_ e \/
   exists trade,
     context_cache_ e'
     = <[context_key trade := updated_context trade (context_cache_ e)]>
         (context_cache_ e)).
Proof.
  unfold worker_iteration.
  destruct (pop (trade_queue_ e)) as [[slot q] |]; [| intros [= <-]; auto].
  simpl. unfold process_trade_internal.
  match goal with |- context [run_detectors ?t ?c ?ds ?e0] =>
    destruct (run_detectors t c ds e0) as [e1 |] eqn:Hr end;
    [| discriminate].
  apply run_detectors_frame in Hr as (Hc & _ & Hs & _). simpl in *.
  intros [= <-]. unfold update_peak. simpl.
  match goal with |- context [if ?b then _ else _] => destruct b end; simpl;
    (split; [exact Hs | right; eexists; exact Hc]).
Qed.

Lemma reachable_invariant {PatternConfig D} `{!IPatternDetector PatternConfig D}
    (e : TradePatternDetector D) :
  reachable e ->
  statistics_ e = default_stats /\ default_windows (context_cache_ e).
Proof.
  induction 1 as [hr n q | e _ [IHs IHw] | name d e _ [IHs IHw]
                  | name b e _ [IHs IHw] | name c e _ [IHs IHw]
                  | now t e _ [IHs IHw] | dt e e' _ [IHs IHw] Hw].
  - split; [reflexivity | apply default_windows_empty].
  - unfold start. destruct (running_ e); simpl; auto.
  - auto.
  - unfold toggle_pattern. destruct (detectors_ e !! name); simpl; auto.
  - unfold update_pattern_config. destruct (detectors_ e !! name); simpl; auto.
  - destruct (process_trade_frame now t e) as (Hs & Hc & _).
    rewrite Hs, Hc. auto.
  - apply worker_iteration_frame in Hw as [Hs [Hc | [trade Hc]]];
      rewrite Hs, Hc; split; auto.
    by apply default_windows_update.
Qed.

(** The fan-out consults a detector at one argument pair only: the trade
    and the context it is given. *)
Lemma run_detectors_only_at {PatternConfig D}
    (I1 I2 : IPatternDetector PatternConfig D) trade context ds
    (e : TradePatternDetector D) :
  (forall d, @detect_pattern _ _ I1 d trade context
             = @detect_pattern _ _ I2 d trade context) ->
  @run_detectors _ _ I1 trade context ds e = @run_detectors _ _ I2 trade context ds e.
Proof.
  intros Hagree. revert e. induction ds as [| [name d] rest IH]; intros e; simpl.
  - reflexivity.
  - rewrite <- Hagree.
    destruct (@detect_pattern _ _ I1 d trade context) as [[alert |] | what |];
      auto.
Qed.

(** C2. Processing a trade T appends T to the window of its key and
    removes exactly the retained trades older than T.timestamp minus the
    lookback window; the cut-off follows T.timestamp, so retained trades
    dated at or after T survive a late T; the snapshot handed to every
    detector is this pruned window and contains T. The window is taken
    non-negative; in every state the engine reaches it is the default of
    five minutes. With a window of 60 s and prior trades at 0 s and 30 s,
    the detectors called for the trade at 90 s see exactly the trades at
    30 s and 90 s. *)
Theorem context_snapshot_window :
  (forall {PatternConfig D} (I : IPatternDetector PatternConfig D)
          (trade : TradeData) (e : TradePatternDetector D),
     let old := stored_context trade (context_cache_ e) in
     let snapshot := updated_context trade (context_cache_ e) in
     0 <= lookback_window old ->
     recent_trades snapshot
     = List.filter (fun t => timestamp trade - lookback_window old * ticks_per_minute
                             <=? timestamp t) (recent_trades old) ++ [trade] /\
     In trade (recent_trades snapshot) /\
     (forall t, In t (recent_trades old) ->
        (In t (recent_trades snapshot) <->
         ~ timestamp t < timestamp trade - lookback_window old * ticks_per_minute)) /\
     (forall t, In t (recent_trades old) -> timestamp trade <= timestamp t ->
        In t (recent_trades snapshot)) /\
     process_trade_internal trade e
     = run_detectors trade snapshot (enabled_detectors e)
         (set_context_cache_ (<[context_key trade := snapshot]> (context_cache_ e)) e) /\
     (forall e', process_trade_internal trade e = Some e' ->
        context_cache_ e' = <[context_key trade := snapshot]> (context_cache_ e)) /\
     (forall I' : IPatternDetector PatternConfig D,
        (forall d, @is_enabled _ _ I' d = @is_enabled _ _ I d) ->
        (forall d, @detect_pattern _ _ I' d trade snapshot
                   = @detect_pattern _ _ I d trade snapshot) ->
        @process_trade_internal _ _ I' trade e = @process_trade_internal _ _ I trade e)) /\
  (forall {PatternConfig D} (I : IPatternDetector PatternConfig D)
          (trade : TradeData) (e : TradePatternDetector D),
     reachable e ->
     lookback_window (stored_context trade (context_cache_ e)) = 5) /\
  ((fun e2 => recent_trades
                (updated_context (trade_at "T90" 90) (context_cache_ e2)))
     <$> s3_after_two
   = Some [trade_at "T30" 30; trade_at "T90" 90] /\
   (fun e3 => last (alert_queue_ e3)) <$> s3_after_three
   = Some (Some (alert_seen (trade_at "T90" 90)
                   (context_with 1 [trade_at "T30" 30; trade_at "T90" 90])))).
Proof.
  split.
  - intros PatternConfig D I trade e old snapshot Hw.
    assert (Hrt : recent_trades snapshot
                  = List.filter (fun t => cutoff_time trade old <=? timestamp t)
                                (recent_trades old) ++ [trade])
      by (apply updated_context_window; exact Hw).
    unfold cutoff_time in Hrt.
    split; [exact Hrt |].
    split; [rewrite Hrt; apply in_or_app; right; left; reflexivity |].
    split; [| split; [| split; [| split]]].
    + intros t Hin. rewrite Hrt, in_app_iff, List.filter_In, Z.leb_le.
      split.
      * intros [[_ Hle] | [<- | []]]; [lia |].
        pose proof (cutoff_le_timestamp trade old Hw) as Hc.
        unfold cutoff_time in Hc. lia.
      * intros Hn. left. split; [exact Hin | lia].
    + intros t Hin Hle. rewrite Hrt, in_app_iff, List.filter_In, Z.leb_le.
      left. split; [exact Hin |].
      pose proof (cutoff_le_timestamp trade old Hw) as Hc.
      unfold cutoff_time in Hc. lia.
    + reflexivity.
    + intros e' He'. unfold process_trade_internal in He'.
      apply run_detectors_frame in He' as (Hc & _). exact Hc.
    + intros I' Hen Hdet. unfold process_trade_internal. fold snapshot.
      rewrite (run_detectors_only_at I' I) by exact Hdet.
      f_equal. unfold enabled_detectors. apply List.filter_ext.
      intros nd. apply Hen.
  - split; [| compute_all].
    intros PatternConfig D I trade e Hr.
    apply default_windows_stored. by apply reachable_invariant.
Qed.

Lemma filter_none {A} (f : A -> bool) (l : list A) :
  (forall x, In x l -> f x = false) -> List.filter f l = [].
Proof.
  induction l as [| x l IH]; intros Hf; [reflexivity |].
  simpl. rewrite (Hf x (or_introl eq_refl)).
  apply IH. intros y Hy. apply Hf. right. exact Hy.
Qed.




(** C8 (as stated) fails: after the first trade of a key, 100 units at
    price 10, the stored averages are still 0.0 while the window's average
    price is 10 and its average volume 100. *)
Lemma avg_price_not_recomputed :
  exists c,
    (fun e => context_cache_ e !! "INST1_ACC1")
      <$> process_trade_internal (trade_at "T1" 10) (started 4)
    = Some (Some c) /\
    recent_trades c = [trade_at "T1" 10] /\
    window_avg_price (recent_trades c) = double_of_Z 10 /\
    window_avg_volume (recent_trades c) = double_of_Z 100 /\
    avg_price c = zero_double /\
    avg_volume c = zero_double /\
    avg_price c <> window_avg_price (recent_trades c) /\
    avg_volume c <> window_avg_volume (recent_trades c).
Proof.
  eexists. split; [vm_compute; reflexivity |].
  do 5 (split; [vm_compute; reflexivity |]).
  split; vm_compute; discriminate.
Qed.

(** C8 (amended). A context update carries [avg_volume], [avg_price] and
    [price_volatility] over from the stored context, unchanged (0.0 for a
    new key); only [recent_trades] is rewritten. *)
Theorem context_update_keeps_statistics (trade : TradeData)
    (cache : gmap string HistoricalContext) :
  let old := stored_context trade cache in
  let new := updated_context trade cache in
  avg_volume new = avg_volume old /\
  avg_price new = avg_price old /\
  price_volatility new = price_volatility old /\
  new = set_recent_trades (recent_trades new) old /\
  let fresh := updated_context trade (delete (context_key trade) cache) in
  avg_volume fresh = zero_double /\ avg_price fresh = zero_double /\
  price_volatility fresh = zero_double.
Proof.
  simpl. repeat split; try reflexivity;
    unfold updated_context, stored_context; rewrite lookup_delete_eq; reflexivity.
Qed.

(** The write of one update is what the next update of the same key
    reads. *)
Lemma stored_after_update t1 t2 (cache : gmap string HistoricalContext) :
  context_key t1 = context_key t2 ->
  stored_context t2 (<[context_key t1 := updated_context t1 cache]> cache)
  = updated_context t1 cache.
Proof.
  intros Hk. unfold stored_context. rewrite <- Hk, lookup_insert_eq. reflexivity.
Qed.

(** C9. Trades with distinct (instrument, account) pairs can share a cache
    key: ("A_B", "C") and ("A", "B_C") both map to "A_B_C". The second
    update reads the entry the first one wrote and writes it back, so one
    entry holds trades of two instruments: no instrument symbol is shared
    by all the trades of that entry. *)
Theorem context_key_collision :
  exists t1 t2 : TradeData,
    (instrument_symbol t1, account_id t1) = ("A_B", "C") /\
    (instrument_symbol t2, account_id t2) = ("A", "B_C") /\
    (instrument_symbol t1, account_id t1) <> (instrument_symbol t2, account_id t2) /\
    context_key t1 = context_key t2 /\
    (forall cache : gmap string HistoricalContext,
       stored_context t2 (<[context_key t1 := updated_context t1 cache]> cache)
       = updated_context t1 cache) /\
    exists c,
      (fun e2 => map_to_list (context_cache_ e2))
        <$> process_each [t1; t2] (started 4)
      = Some [(context_key t1, c)] /\
      recent_trades c = [t1; t2] /\
      ~ (exists symbol, forall t, In t (recent_trades c) ->
                                  instrument_symbol t = symbol).
Proof.
  exists trade_AB_C, trade_A_BC.
  split; [reflexivity |]. split; [reflexivity |].
  split; [discriminate |]. split; [reflexivity |].
  split; [intros cache; by apply stored_after_update |].
  eexists. split; [vm_compute; reflexivity |].
  split; [vm_compute; reflexivity |].
  intros [symbol Hs].
  pose proof (Hs trade_AB_C (or_introl eq_refl)) as H1.
  pose proof (Hs trade_A_BC (or_intror (or_introl eq_refl))) as H2.
  simpl in H1, H2. congruence.
Qed.

(** ** Detector fan-out and the worker *)

Section FanOutProps.

Context {PatternConfig D : Type} `{!IPatternDetector PatternConfig D}.
Implicit Types (e : TradePatternDetector D) (trade : TradeData).

(** Two engine states with the same members are equal. *)
Lemma engine_ext (e1 e2 : TradePatternDetector D) :
  num_threads_ e1 = num_threads_ e2 -> running_ e1 = running_ e2 ->
  shutdown_requested_ e1 = shutdown_requested_ e2 ->
  memory_pool_ e1 = memory_pool_ e2 -> trade_queue_ e1 = trade_queue_ e2 ->
  context_cache_ e1 = context_cache_ e2 -> detectors_ e1 = detectors_ e2 ->
  statistics_ e1 = statistics_ e2 -> alert_queue_ e1 = alert_queue_ e2 ->
  last_stats_update_ e1 = last_stats_update_ e2 ->
  trades_processed_ e1 = trades_processed_ e2 ->
  alerts_generated_ e1 = alerts_generated_ e2 ->
  processing_time_ns_ e1 = processing_time_ns_ e2 ->
  peak_processing_time_ns_ e1 = peak_processing_time_ns_ e2 ->
  spdlog e1 = spdlog e2 -> e1 = e2.
Proof. destruct e1, e2; simpl; intros; subst; reflexivity. Qed.

(** The fan-out runs every detector of the list: an alert is queued and
    counted, a [std::exception] is logged, and the loop goes on. *)
Lemma run_detectors_spec trade context ds e :
  no_foreign trade context ds ->
  let alerts := fan_out_alerts trade context ds in
  run_detectors trade context ds e
  = Some (log_all (fan_out_log trade context ds)
            (set_alerts_generated_
               (match alerts with
                | [] => alerts_generated_ e
                | _ => wrap64 (alerts_generated_ e + N.of_nat (length alerts))
                end)
               (set_alert_queue_ (alert_queue_ e ++ alerts) e))).
Proof.
  intros Hnf. revert e.
  induction ds as [| [name d] rest IH]; intros e.
  - cbn. f_equal. apply engine_ext; cbn; try reflexivity; by rewrite app_nil_r.
  - inversion Hnf as [| ? ? Hd Hrest]; subst. simpl in Hd.
    specialize (IH Hrest). cbv zeta in IH.
    unfold fan_out_alerts, fan_out_log in *.
    cbn [run_detectors flat_map fst snd].
    destruct (detect_pattern d trade context) as [[alert |] | what |] eqn:Ho;
      [| | | congruence]; rewrite IH; clear IH; f_equal;
      apply engine_ext; cbn; try reflexivity; rewrite <- ?app_assoc;
      try reflexivity.
    destruct (flat_map _ rest) as [| a l]; cbn [length].
    + reflexivity.
    + unfold wrap64. rewrite N.Div0.add_mod_idemp_l. f_equal. lia.
Qed.

End FanOutProps.

Lemma in_fan_out_alerts {PatternConfig D} `{!IPatternDetector PatternConfig D}
    trade context (ds : list (string * D)) name d alert :
  In (name, d) ds -> detect_pattern d trade context = Returned (Some alert) ->
  In alert (fan_out_alerts trade context ds).
Proof.
  intros Hin Ho. unfold fan_out_alerts. apply in_flat_map.
  exists (name, d). split; [exact Hin |]. simpl. rewrite Ho. by left.
Qed.

Lemma in_fan_out_log {PatternConfig D} `{!IPatternDetector PatternConfig D}
    trade context (ds : list (string * D)) name d what :
  In (name, d) ds -> detect_pattern d trade context = ThrewStd what ->
  In (lvl_error, "Error in pattern detector " +:+ name +:+ ": " +:+ what)
     (fan_out_log trade context ds).
Proof.
  intros Hin Ho. unfold fan_out_log. apply in_flat_map.
  exists (name, d). split; [exact Hin |]. simpl. rewrite Ho. by left.
Qed.

(** C3 (as stated) fails: a failing detect call leaves every counter of
    the engine and its statistics record as they were; the failure is only
    written to the log. *)
Lemma detector_error_touches_no_counter :
  enabled_detectors throwing_engine = [("throw_detector", fixture throw_detector)] /\
  spdlog <$> throwing_result
  = Some (spdlog throwing_engine
          ++ [(lvl_error, "Error in pattern detector throw_detector: boom")]) /\
  statistics_ <$> throwing_result = Some (statistics_ throwing_engine) /\
  counters throwing_engine = [0; 0; 0; 0]%N /\
  counters <$> throwing_result = Some [1; 0; 700; 700]%N /\
  (fun e' => pattern_alerts_count (get_statistics 0 0 e') !! "throw_detector")
    <$> throwing_result = Some None /\
  (fun e' => pattern_processing_time_ns (get_statistics 0 0 e') !! "throw_detector")
    <$> throwing_result = Some None.
Proof.
  compute_all.
Qed.

(** C3 (amended). When a detect call throws a [std::exception], the error
    is written to the log under the detector's name (no counter records
    it) and the worker goes on with the remaining detectors: every alert
    returned by an enabled detector is queued and counted, the trade
    leaves the queue for good and counts in [trades_processed_]. With an
    always-throwing and an always-alerting detector, 5 submitted trades
    give 5 alerts, 5 processed trades and 5 error records. *)
Theorem detector_errors_are_logged :
  (forall {PatternConfig D} (I : IPatternDetector PatternConfig D)
          (processing_time : Z) (e : TradePatternDetector D) slot rest,
     queue_items (trade_queue_ e) = slot :: rest ->
     let trade := slot_read slot (memory_pool_ e) in
     let context := updated_context trade (context_cache_ e) in
     let ds := enabled_detectors e in
     no_foreign trade context ds ->
     exists e',
       worker_iteration processing_time e = Some e' /\
       alert_queue_ e' = alert_queue_ e ++ fan_out_alerts trade context ds /\
       alerts_generated_ e'
       = match fan_out_alerts trade context ds with
         | [] => alerts_generated_ e
         | _ => wrap64 (alerts_generated_ e
                        + N.of_nat (length (fan_out_alerts trade context ds)))
         end /\
       spdlog e' = spdlog e ++ fan_out_log trade context ds /\
       (forall name d what,
          In (name, d) ds -> detect_pattern d trade context = ThrewStd what ->
          In (lvl_error, "Error in pattern detector " +:+ name +:+ ": " +:+ what)
             (spdlog e')) /\
       (forall name d alert,
          In (name, d) ds -> detect_pattern d trade context = Returned (Some alert) ->
          In alert (alert_queue_ e')) /\
       trades_processed_ e' = wrap64 (trades_processed_ e + 1) /\
       queue_items (trade_queue_ e') = rest /\
       pool_free (memory_pool_ e') = slot :: pool_free (memory_pool_ e) /\
       statistics_ e' = statistics_ e) /\
  (fst s6_submitted = [true; true; true; true; true] /\
   alerts_generated_ <$> s6_result = Some 5%N /\
   trades_processed_ <$> s6_result = Some 5%N /\
   (fun e => length (alert_queue_ e)) <$> s6_result = Some 5%nat /\
   (fun e => length (List.filter is_throw_error (spdlog e))) <$> s6_result
   = Some 5%nat /\
   (fun e => queue_items (trade_queue_ e)) <$> s6_result = Some [] /\
   statistics_ <$> s6_result = Some default_stats).
Proof.
  split.
  - intros PatternConfig D I dt e slot rest Hq trade context ds Hnf.
    unfold worker_iteration, pop. rewrite Hq. simpl.
    unfold process_trade_internal. simpl. fold trade. fold context.
    change (enabled_detectors _) with ds.
    rewrite (run_detectors_spec trade context ds _ Hnf). simpl.
    eexists. split; [reflexivity |].
    unfold update_peak. simpl.
    match goal with |- context [if ?b then _ else _] => destruct b end; simpl.
    all: repeat split; try reflexivity.
    all: try (intros name d what Hin Ho; apply in_or_app; right;
              by eapply in_fan_out_log).
    all: intros name d alert Hin Ho; apply in_or_app; right;
      by eapply in_fan_out_alerts.
  - compute_all.
Qed.

(** ** Resource exhaustion at submit *)

Section Exhaustion.

Context {PatternConfig D : Type} `{!IPatternDetector PatternConfig D}.
Implicit Types (e : TradePatternDetector D) (t : TradeData).

(** A valid trade passes validation without a log record. *)
Lemma validate_trade_data_valid now t e :
  spec_is_valid now t -> validate_trade_data now t e = (true, e).
Proof.
  intros Hv. pose proof Hv as (Hid & Hin & Hq & Hp & Hval & Hts).
  unfold validate_trade_data.
  assert (is_valid t = true) as -> by (apply is_valid_spec; tauto).
  simpl. rewrite (double_gt_zero_not_le _ Hp).
  assert ((now <? timestamp t) = false) as -> by (apply Z.ltb_ge; lia).
  assert ((quantity t =? 0)%N = false) as -> by (apply N.eqb_neq; lia).
  reflexivity.
Qed.

(** C4 (amended). A valid trade submitted while running is rejected with
    false when the pool is exhausted or the queue is full; the drop is
    written to the log and no counter changes. With a full queue the
    slot taken from the pool is put back before returning: the free
    slots are those before the call. *)
Theorem submit_drop_is_logged now t e :
  running_ e = true ->
  spec_is_valid now t ->
  (pool_free (memory_pool_ e) = [] ->
   process_trade now t e
   = (false, log lvl_error
               ("Memory pool exhausted, dropping trade: " +:+ trade_id t) e)) /\
  (forall slot rest,
     pool_free (memory_pool_ e) = slot :: rest ->
     ~ (length (queue_items (trade_queue_ e)) < queue_capacity (trade_queue_ e))%nat ->
     fst (process_trade now t e) = false /\
     pool_free (memory_pool_ (snd (process_trade now t e)))
       = pool_free (memory_pool_ e) /\
     trade_queue_ (snd (process_trade now t e)) = trade_queue_ e /\
     spdlog (snd (process_trade now t e))
       = spdlog e ++ [(lvl_warn, "Trade queue full, dropping trade: "
                                 +:+ trade_id t)] /\
     counters (snd (process_trade now t e)) = counters e /\
     statistics_ (snd (process_trade now t e)) = statistics_ e).
Proof.
  intros Hrun Hv. unfold process_trade. rewrite Hrun.
  rewrite (validate_trade_data_valid now t e Hv). simpl. split.
  - intros Hfree. unfold allocate. rewrite Hfree. reflexivity.
  - intros slot rest Hfree Hfull. unfold allocate. rewrite Hfree. simpl.
    unfold push. simpl. rewrite decide_False by exact Hfull. simpl.
    repeat split; reflexivity.
Qed.

End Exhaustion.

Lemma trade_at_valid : spec_is_valid (seconds 100) (trade_at "T1" 1).
Proof.
  unfold spec_is_valid. simpl. repeat split; solve [discriminate | reflexivity].
Qed.

(** C4 (as stated) fails: a submit rejected for an exhausted pool, or for a
    full queue, returns false and leaves every counter of the engine and
    its statistics record unchanged; there is no drop counter. *)
Lemma submit_drop_touches_no_counter :
  let t := trade_at "T1" 1 in
  let r1 := process_trade (seconds 100) t exhausted_engine in
  let r2 := process_trade (seconds 100) t full_queue_engine in
  spec_is_valid (seconds 100) t /\
  fst r1 = false /\ counters (snd r1) = counters exhausted_engine /\
  statistics_ (snd r1) = statistics_ exhausted_engine /\
  fst r2 = false /\ counters (snd r2) = counters full_queue_engine /\
  statistics_ (snd r2) = statistics_ full_queue_engine.
Proof.
  cbv zeta. split; [apply trade_at_valid |].
  compute_all.
Qed.

(** ** The registry *)

Section Registry.

Context {PatternConfig D : Type} `{!IPatternDetector PatternConfig D}.
Implicit Types (e : TradePatternDetector D).

(** C10. For a name that is not registered, [toggle_pattern] and
    [update_pattern_config] only write a warning to the log: the state
    of the engine is otherwise the same, no entry is created, and no
    registered detector has its enabled flag or configuration changed. *)
Theorem unknown_pattern_is_noop (name : string) (flag : bool)
    (config : PatternConfig) e :
  detectors_ e !! name = None ->
  toggle_pattern name flag e = log lvl_warn ("Pattern not found: " +:+ name) e /\
  update_pattern_config name config e
    = log lvl_warn ("Pattern not found: " +:+ name) e /\
  detectors_ (toggle_pattern name flag e) = detectors_ e /\
  detectors_ (update_pattern_config name config e) = detectors_ e /\
  detectors_ (toggle_pattern name flag e) !! name = None /\
  detectors_ (update_pattern_config name config e) !! name = None /\
  (forall n d, detectors_ e !! n = Some d ->
     detectors_ (toggle_pattern name flag e) !! n = Some d /\
     detectors_ (update_pattern_config name config e) !! n = Some d).
Proof.
  intros Hnone. unfold toggle_pattern, update_pattern_config.
  rewrite Hnone. simpl. auto 10.
Qed.

End Registry.

(** ** Statistics *)

Section Statistics.

Context {PatternConfig D : Type} `{!IPatternDetector PatternConfig D}.
Implicit Types (e : TradePatternDetector D).

(** The snapshot takes its average from the stored record. *)
Lemma get_statistics_avg hr_now sys_now e :
  avg_processing_time_ns (get_statistics hr_now sys_now e)
  = avg_processing_time_ns (statistics_ e).
Proof. reflexivity. Qed.

Lemma run_detectors_statistics trade context ds e e' :
  run_detectors trade context ds e = Some e' -> statistics_ e' = statistics_ e.
Proof. intros Hr. by apply run_detectors_frame in Hr as (_ & _ & Hs & _). Qed.

(** No operation of the engine writes the stored record. *)
Lemma worker_iteration_statistics processing_time e e' :
  worker_iteration processing_time e = Some e' -> statistics_ e' = statistics_ e.
Proof.
  unfold worker_iteration.
  destruct (pop (trade_queue_ e)) as [[slot q] |]; [| by intros [= <-]].
  simpl. unfold process_trade_internal.
  match goal with |- context [run_detectors ?t ?c ?ds ?e0] =>
    destruct (run_detectors t c ds e0) as [e1 |] eqn:Hr end;
    [| discriminate].
  apply run_detectors_statistics in Hr. simpl in *. intros [= <-].
  unfold update_peak. simpl.
  match goal with |- context [if ?b then _ else _] => destruct b end;
    simpl; exact Hr.
Qed.

Lemma process_trade_statistics now t e :
  statistics_ (snd (process_trade now t e)) = statistics_ e.
Proof.
  unfold process_trade, validate_trade_data, allocate, push.
  repeat (match goal with
          | |- context [if ?b then _ else _] => destruct b
          | |- context [match pool_free ?p with _ => _ end] =>
              destruct (pool_free p)
          end; simpl); reflexivity.
Qed.

End Statistics.

(** In every state the engine reaches, the snapshot reports an average of
    zero. *)
Lemma average_is_zero_when_reachable {PatternConfig D}
    `{!IPatternDetector PatternConfig D} hr_now sys_now
    (e : TradePatternDetector D) :
  reachable e -> avg_processing_time_ns (get_statistics hr_now sys_now e) = 0%N.
Proof.
  intros Hr. apply reachable_invariant in Hr as [Hs _].
  rewrite get_statistics_avg, Hs. reflexivity.
Qed.

(** C5: evaluation at the failing input. After two trades processed in
    400 ns and 600 ns the counters hold a total of 1000 ns for 2 trades,
    the snapshot reports 2 trades and an average of 0, where the formula
    of the statistics section gives 500. *)
Theorem average_processing_time_is_not_computed :
  processing_time_ns_ <$> two_processed = Some 1000%N /\
  trades_processed_ <$> two_processed = Some 2%N /\
  (fun e => total_trades_processed (get_statistics (seconds 5) (seconds 5) e))
    <$> two_processed = Some 2%N /\
  (fun e => avg_processing_time_ns (get_statistics (seconds 5) (seconds 5) e))
    <$> two_processed = Some 0%N /\
  (fun e => spec_avg_processing_time_ns (processing_time_ns_ e) (trades_processed_ e))
    <$> two_processed = Some 500%N.
Proof.
  compute_all.
Qed.

(** ** The peak counter *)

Lemma to_u64_int64 (d : Z) : PeakUpdate.in_int64 d = true -> d <= Z.of_N (to_u64 d).
Proof.
  unfold PeakUpdate.in_int64, to_u64. intros H.
  apply andb_true_iff in H as [Hlo Hhi].
  apply Z.leb_le in Hlo. apply Z.ltb_lt in Hhi.
  pose proof (Z.mod_pos_bound d (2 ^ 64) ltac:(lia)) as Hm.
  rewrite Z2N.id by lia.
  destruct (Z_lt_le_dec d 0) as [Hneg | Hpos]; [lia |].
  rewrite Z.mod_small by lia. lia.
Qed.

(** The uncontended update of the sequential worker is a maximum. *)
Lemma update_peak_max {PatternConfig D} `{!IPatternDetector PatternConfig D}
    (processing_time : Z) (e : TradePatternDetector D) :
  peak_processing_time_ns_ (update_peak processing_time e)
  = N.max (peak_processing_time_ns_ e) (to_u64 processing_time).
Proof.
  unfold update_peak.
  destruct (peak_processing_time_ns_ e <? to_u64 processing_time)%N eqn:Hlt; simpl.
  - apply N.ltb_lt in Hlt. lia.
  - apply N.ltb_ge in Hlt. lia.
Qed.

Module PeakProps.
Import PeakUpdate.

(** A worker alone performs the sequential update: load, one test, the
    exchange succeeds or is not needed, and the counter is the maximum
    of its old value and the new duration. *)
Lemma uncontended_update (p : N) (d : Z) (l : list Z) :
  in_int64 d = true ->
  run [Measure 0 d; Load 0; Test 0 false]
      {| peak := p; workers := [Idle]; samples := l |}
  = Some {| peak := N.max p (to_u64 d); workers := [Idle]; samples := d :: l |}.
Proof.
  intros Hd. simpl. rewrite Hd. simpl.
  destruct (p <? to_u64 d)%N eqn:Hlt; simpl.
  - rewrite N.eqb_refl. simpl. unfold finish. simpl.
    apply N.ltb_lt in Hlt. do 2 f_equal. lia.
  - unfold finish. simpl. apply N.ltb_ge in Hlt. do 2 f_equal. lia.
Qed.

Lemma worker_ok_mono (p q : N) (w : Worker) :
  (p <= q)%N -> worker_ok p w -> worker_ok q w.
Proof. destruct w; simpl; intuition lia. Qed.

Lemma exec_peak_mono ev s s' : exec ev s = Some s' -> (peak s <= peak s')%N.
Proof.
  destruct ev as [i pt | i | i spurious]; simpl;
    destruct (workers s !! i) as [[| pt' | pt' cur] |]; try discriminate.
  - destruct (in_int64 pt); [| discriminate]. intros [= <-]. simpl. lia.
  - intros [= <-]. simpl. lia.
  - destruct (cur <? to_u64 pt')%N eqn:Hlt.
    + destruct ((peak s =? cur)%N && negb spurious) eqn:Hcas.
      * intros [= <-]. simpl.
        apply andb_true_iff in Hcas as [Heq _].
        apply N.eqb_eq in Heq. apply N.ltb_lt in Hlt. lia.
      * intros [= <-]. simpl. lia.
    + intros [= <-]. simpl. lia.
Qed.

Lemma exec_consistent ev s s' :
  consistent s -> exec ev s = Some s' -> consistent s'.
Proof.
  intros [Hw Hs].
  destruct ev as [i pt | i | i spurious]; simpl;
    destruct (workers s !! i) as [[| pt' | pt' cur] |] eqn:Hi; try discriminate.
  - destruct (in_int64 pt) eqn:Hr; [| discriminate]. intros [= <-].
    split; simpl; [| exact Hs]. apply Forall_insert; [exact Hw | exact Hr].
  - intros [= <-]. split; simpl; [| exact Hs].
    apply Forall_insert; [exact Hw |].
    pose proof (Forall_lookup_1 _ _ _ _ Hw Hi) as Hm. simpl in *. split; [exact Hm | lia].
  - pose proof (Forall_lookup_1 _ _ _ _ Hw Hi) as [Hr Hcur]. simpl in Hr, Hcur.
    destruct (cur <? to_u64 pt')%N eqn:Hlt.
    + apply N.ltb_lt in Hlt.
      destruct ((peak s =? cur)%N && negb spurious) eqn:Hcas.
      * apply andb_true_iff in Hcas as [Heq _]. apply N.eqb_eq in Heq.
        intros [= <-]. split; simpl.
        -- apply Forall_insert; [| exact I].
           eapply Forall_impl; [exact Hw |].
           intros w. apply worker_ok_mono. lia.
        -- constructor; [split; [exact Hr | lia] |].
           eapply Forall_impl; [exact Hs |].
           intros d [Hd Hle]. split; [exact Hd | lia].
      * intros [= <-]. split; simpl; [| exact Hs].
        apply Forall_insert; [exact Hw |]. simpl. split; [exact Hr | lia].
    + apply N.ltb_ge in Hlt. intros [= <-]. split; simpl.
      * apply Forall_insert; [exact Hw | exact I].
      * constructor; [split; [exact Hr | lia] | exact Hs].
Qed.

Lemma run_peak_mono schedule s s' :
  run schedule s = Some s' -> (peak s <= peak s')%N.
Proof.
  revert s. induction schedule as [| ev rest IH]; intros s; simpl.
  - intros [= <-]. lia.
  - destruct (exec ev s) as [s1 |] eqn:He; [| discriminate]. simpl.
    intros Hr. apply exec_peak_mono in He. apply IH in Hr. lia.
Qed.

Lemma run_consistent schedule s s' :
  consistent s -> run schedule s = Some s' -> consistent s'.
Proof.
  revert s. induction schedule as [| ev rest IH]; intros s Hc; simpl.
  - by intros [= <-].
  - destruct (exec ev s) as [s1 |] eqn:He; [| discriminate]. simpl.
    apply IH. by eapply exec_consistent.
Qed.

Lemma init_consistent n : consistent (init n).
Proof.
  split; simpl; [| constructor]. apply Forall_replicate. exact I.
Qed.

(** C6. The peak counter is a running maximum. Along every schedule of
    the workers' atomic accesses, from the counter at zero, the counter
    never decreases, and at any point it is at least every processing
    duration observed so far, also when exchanges fail and are
    retried. *)
Theorem peak_is_running_maximum (n : nat) (before after : list Event)
    (s1 s2 : State) :
  run before (init n) = Some s1 ->
  run after s1 = Some s2 ->
  (peak s1 <= peak s2)%N /\
  Forall (fun d => d <= Z.of_N (peak s1)) (samples s1) /\
  Forall (fun d => d <= Z.of_N (peak s2)) (samples s2).
Proof.
  intros H1 H2.
  pose proof (run_consistent _ _ _ (init_consistent n) H1) as C1.
  pose proof (run_consistent _ _ _ C1 H2) as C2.
  split; [by eapply run_peak_mono |].
  split.
  - destruct C1 as [_ Hs]. eapply Forall_impl; [exact Hs |].
    intros d [Hd Hle]. simpl in *. pose proof (to_u64_int64 d Hd). lia.
  - destruct C2 as [_ Hs]. eapply Forall_impl; [exact Hs |].
    intros d [Hd Hle]. simpl in *. pose proof (to_u64_int64 d Hd). lia.
Qed.

End PeakProps.

(** * Further properties *)

(** ** Validation *)

Section MoreValidation.

Context {PatternConfig D : Type} `{!IPatternDetector PatternConfig D}.
Implicit Types (e : TradePatternDetector D) (t trade : TradeData).

(** Validation is the validity test followed by the timestamp test. *)
Lemma validate_trade_data_two_tests now t e :
  validate_trade_data now t e
  = (if negb (is_valid t) then (false, e)
     else if now <? timestamp t then
       (false, log lvl_warn ("Trade timestamp is in the future: " +:+ trade_id t) e)
     else (true, e)).
Proof.
  unfold validate_trade_data.
  destruct (is_valid t) eqn:Hv; simpl; [| reflexivity].
  destruct (now <? timestamp t); [reflexivity |].
  apply is_valid_spec in Hv as (_ & _ & Hq & Hp & _).
  rewrite (double_gt_zero_not_le _ Hp).
  assert ((quantity t =? 0)%N = false) as -> by (apply N.eqb_neq; lia).
  reflexivity.
Qed.

Lemma validate_trade_data_valid_at now t e :
  fst (validate_trade_data now t e) = valid_at now t.
Proof.
  rewrite validate_trade_data_two_tests. unfold valid_at.
  destruct (is_valid t); simpl; [| reflexivity].
  destruct (now <? timestamp t); reflexivity.
Qed.

(** X1. The third test of [validate_trade_data] (price <= 0.0 or quantity
    == 0) is dead: after [is_valid] it cannot fire, so validation is the
    validity test followed by the timestamp test, and the warning "Invalid
    price or quantity" is never written. *)
Theorem validate_price_test_is_dead now t e :
  validate_trade_data now t e
  = (if negb (is_valid t) then (false, e)
     else if now <? timestamp t then
       (false, log lvl_warn ("Trade timestamp is in the future: " +:+ trade_id t) e)
     else (true, e)) /\
  ~ In (lvl_warn, "Invalid price or quantity: " +:+ trade_id t)
       (drop (length (spdlog e)) (spdlog (snd (validate_trade_data now t e)))).
Proof.
  split; [apply validate_trade_data_two_tests |].
  rewrite validate_trade_data_two_tests.
  destruct (negb (is_valid t)); simpl.
  - rewrite drop_all. intros [].
  - destruct (now <? timestamp t); simpl.
    + rewrite drop_app_length. intros [Hin | []].
      inversion Hin.
    + rewrite drop_all. intros [].
Qed.

End MoreValidation.

(** ** The registry and the choice of detectors *)

Section MoreRegistry.

Context {PatternConfig D : Type} `{!IPatternDetector PatternConfig D}.
Implicit Types (e : TradePatternDetector D) (t trade : TradeData).

(** X2. [toggle_pattern] and [update_pattern_config] act on the detector
    object the name leads to, in place: every name registered with that
    object sees the detector after [set_enabled] (or [update_config]),
    every name registered with another object sees what it saw before, and
    no name is added or removed. When the object is registered under this
    name only, that is the one-entry update of the engine's registry. *)
Theorem pattern_update_reaches_every_alias name (flag : bool)
    (config : PatternConfig) (it : N) (detector : D) (r : Shared.Registry D) :
  Shared.names r !! name = Some it ->
  Shared.objects r !! it = Some detector ->
  Shared.names (Shared.toggle_pattern name flag r) = Shared.names r /\
  Shared.names (Shared.update_pattern_config name config r) = Shared.names r /\
  (forall n it',
     Shared.names r !! n = Some it' ->
     Shared.detector_at n (Shared.toggle_pattern name flag r)
     = (if decide (it' = it) then Some (set_enabled flag detector)
        else Shared.detector_at n r) /\
     Shared.detector_at n (Shared.update_pattern_config name config r)
     = (if decide (it' = it) then Some (update_config config detector)
        else Shared.detector_at n r)) /\
  ((forall n, Shared.names r !! n = Some it -> n = name) ->
   forall e,
     detectors_ e = Shared.view r ->
     detectors_ (toggle_pattern name flag e)
     = Shared.view (Shared.toggle_pattern name flag r) /\
     detectors_ (update_pattern_config name config e)
     = Shared.view (Shared.update_pattern_config name config r)).
Proof.
  intros Hn Ho. unfold Shared.toggle_pattern, Shared.update_pattern_config.
  rewrite Hn. simpl.
  split; [reflexivity |]. split; [reflexivity |]. split.
  - intros n it' Hn'. unfold Shared.detector_at. simpl. rewrite Hn'. simpl.
    destruct (decide (it' = it)) as [-> | Hne].
    + by rewrite !lookup_alter_eq, Ho.
    + by rewrite !lookup_alter_ne by done.
  - intros Hone e He.
    assert (Hd : detectors_ e !! name = Some detector).
    { rewrite He. unfold Shared.view. rewrite lookup_omap, Hn. exact Ho. }
    unfold toggle_pattern, update_pattern_config. rewrite Hd. simpl.
    split; apply map_eq; intros n; unfold Shared.view; simpl;
      rewrite lookup_omap; destruct (decide (n = name)) as [-> | Hne].
    + rewrite lookup_insert_eq, Hn. simpl. by rewrite lookup_alter_eq, Ho.
    + rewrite lookup_insert_ne by done. rewrite He. unfold Shared.view.
      rewrite lookup_omap.
      destruct (Shared.names r !! n) as [it' |] eqn:Hn'; simpl; [| done].
      rewrite lookup_alter_ne; [done |]. intros <-. apply Hne. by apply Hone.
    + rewrite lookup_insert_eq, Hn. simpl. by rewrite lookup_alter_eq, Ho.
    + rewrite lookup_insert_ne by done. rewrite He. unfold Shared.view.
      rewrite lookup_omap.
      destruct (Shared.names r !! n) as [it' |] eqn:Hn'; simpl; [| done].
      rewrite lookup_alter_ne; [done |]. intros <-. apply Hne. by apply Hone.
Qed.

(** Registration is an insertion that replaces. *)
Lemma register_lookup name (detector : D) e n :
  detectors_ (register_pattern_detector name detector e) !! n
  = if decide (name = n) then Some detector else detectors_ e !! n.
Proof. unfold register_pattern_detector. simpl. apply lookup_insert. Qed.

(** The listing used by the fan-out. *)
Lemma enabled_detectors_spec name (detector : D) e :
  In (name, detector) (enabled_detectors e) <->
  detectors_ e !! name = Some detector /\ is_enabled detector = true.
Proof.
  unfold enabled_detectors. rewrite List.filter_In. simpl.
  rewrite <- list_elem_of_In, elem_of_map_to_list. reflexivity.
Qed.

Lemma enabled_detectors_names_NoDup e : NoDup (fst <$> enabled_detectors e).
Proof.
  unfold enabled_detectors.
  assert (Hnd : NoDup (fst <$> map_to_list (detectors_ e)))
    by apply NoDup_fst_map_to_list.
  induction (map_to_list (detectors_ e)) as [| [n d] l IH]; simpl.
  - constructor.
  - apply NoDup_cons in Hnd as [Hn Hl]. specialize (IH Hl).
    destruct (is_enabled d); simpl; [| exact IH].
    apply NoDup_cons. split; [| exact IH].
    intros Hin. apply Hn.
    apply list_elem_of_fmap in Hin as ([n' d'] & -> & Hin).
    apply list_elem_of_fmap. exists (n', d'). split; [reflexivity |].
    apply list_elem_of_In. apply list_elem_of_In in Hin.
    apply List.filter_In in Hin as [Hin _]. exact Hin.
Qed.

(** The fan-out works on the list it is given and does not read the
    registry. *)
Lemma run_detectors_registry trade context (ds : list (string * D))
    (registry : gmap string D) e :
  run_detectors trade context ds (set_detectors_ registry e)
  = set_detectors_ registry <$> run_detectors trade context ds e.
Proof.
  revert e. induction ds as [| [name d] rest IH]; intros e; [reflexivity |].
  cbn [run_detectors].
  destruct (detect_pattern d trade context) as [[alert |] | what |];
    [| apply IH | | reflexivity]; rewrite <- IH; f_equal;
    apply engine_ext; reflexivity.
Qed.

(** X3. Processing a trade consults exactly the detectors that are
    registered and enabled, each name once, and nothing of a disabled
    one: provided no enabled detector throws something that is not a
    [std::exception], the trade is processed, the alerts added to the
    queue are those the enabled detectors return on the trade and its
    snapshot, and the log records added are theirs. What the disabled
    detectors would return or throw has no influence: a registry with the
    same enabled detectors gives the same result, and with every detector
    disabled processing only writes the context cache. *)
Theorem disabled_detectors_are_skipped trade e :
  let context := updated_context trade (context_cache_ e) in
  (forall name detector,
     In (name, detector) (enabled_detectors e) <->
     detectors_ e !! name = Some detector /\ is_enabled detector = true) /\
  NoDup (fst <$> enabled_detectors e) /\
  ((forall name detector,
      detectors_ e !! name = Some detector -> is_enabled detector = true ->
      detect_pattern detector trade context <> ThrewOther) ->
   exists e',
     process_trade_internal trade e = Some e' /\
     alert_queue_ e'
     = alert_queue_ e ++ fan_out_alerts trade context (enabled_detectors e) /\
     (forall alert,
        In alert (alert_queue_ e') <->
        In alert (alert_queue_ e) \/
        exists name detector,
          detectors_ e !! name = Some detector /\ is_enabled detector = true /\
          detect_pattern detector trade context = Returned (Some alert)) /\
     (forall record,
        In record (spdlog e') <->
        In record (spdlog e) \/
        exists name detector,
          detectors_ e !! name = Some detector /\ is_enabled detector = true /\
          In record (outcome_log name trade
                       (detect_pattern detector trade context)))) /\
  (forall registry : gmap string D,
     enabled_detectors (set_detectors_ registry e) = enabled_detectors e ->
     process_trade_internal trade (set_detectors_ registry e)
     = set_detectors_ registry <$> process_trade_internal trade e) /\
  ((forall name detector,
      detectors_ e !! name = Some detector -> is_enabled detector = false) ->
   process_trade_internal trade e
   = Some (set_context_cache_
             (<[context_key trade := context]> (context_cache_ e)) e)).
Proof.
  intros context.
  split; [intros; apply enabled_detectors_spec |].
  split; [apply enabled_detectors_names_NoDup |].
  split; [| split].
  - intros Hwb.
    assert (Hnf : no_foreign trade context (enabled_detectors e)).
    { unfold no_foreign. apply List.Forall_forall. intros [n d] Hin.
      apply enabled_detectors_spec in Hin as [Hd Hen]. simpl. eauto. }
    unfold process_trade_internal. fold context.
    change (enabled_detectors (set_context_cache_ _ e))
      with (enabled_detectors e).
    rewrite run_detectors_spec by exact Hnf.
    eexists. split; [reflexivity |]. cbn.
    split; [reflexivity |]. split.
    + intros alert. rewrite in_app_iff. unfold fan_out_alerts.
      rewrite in_flat_map. split.
      * intros [Hold | ([n d] & Hin & Ho)]; [by left | right].
        apply enabled_detectors_spec in Hin as [Hd Hen]. exists n, d.
        simpl in Ho.
        destruct (detect_pattern d trade context) as [[a |] | what |];
          simpl in Ho; try done.
        by destruct Ho as [<- | []].
      * intros [Hold | (n & d & Hd & Hen & Ho)]; [by left | right].
        exists (n, d). split; [by apply enabled_detectors_spec |].
        simpl. rewrite Ho. by left.
    + intros record. rewrite in_app_iff. unfold fan_out_log.
      rewrite in_flat_map. split.
      * intros [Hold | ([n d] & Hin & Ho)]; [by left | right].
        apply enabled_detectors_spec in Hin as [Hd Hen]. by exists n, d.
      * intros [Hold | (n & d & Hd & Hen & Ho)]; [by left | right].
        exists (n, d). split; [by apply enabled_detectors_spec | exact Ho].
  - intros registry Heq. unfold process_trade_internal.
    change (context_cache_ (set_detectors_ registry e)) with (context_cache_ e).
    fold context.
    set (cache := <[context_key trade := context]> (context_cache_ e)).
    replace (set_context_cache_ cache (set_detectors_ registry e))
      with (set_detectors_ registry (set_context_cache_ cache e))
      by (apply engine_ext; reflexivity).
    change (enabled_detectors (set_detectors_ registry (set_context_cache_ cache e)))
      with (enabled_detectors (set_detectors_ registry e)).
    rewrite Heq.
    change (enabled_detectors (set_context_cache_ cache e))
      with (enabled_detectors e).
    apply run_detectors_registry.
  - intros Hoff. unfold process_trade_internal. fold context.
    assert (Hnone : enabled_detectors e = []).
    { unfold enabled_detectors. apply filter_none. intros [n d] Hin. simpl.
      apply list_elem_of_In, elem_of_map_to_list in Hin. eauto. }
    change (enabled_detectors (set_context_cache_ _ e)) with (enabled_detectors e).
    rewrite Hnone. reflexivity.
Qed.

End MoreRegistry.

(** ** What a step does to each member *)

Section StepEffects.

Context {PatternConfig D : Type} `{!IPatternDetector PatternConfig D}.
Implicit Types (e : TradePatternDetector D) (t trade : TradeData).

Lemma run_detectors_keeps trade context ds e e' :
  run_detectors trade context ds e = Some e' ->
  num_threads_ e' = num_threads_ e /\
  shutdown_requested_ e' = shutdown_requested_ e /\
  last_stats_update_ e' = last_stats_update_ e.
Proof.
  revert e. induction ds as [| [name d] rest IH]; intros e; simpl.
  - intros [= <-]. auto.
  - destruct (detect_pattern d trade context) as [[alert |] | what |];
      try discriminate; intros Hr; apply IH in Hr; exact Hr.
Qed.

(** One turn of the worker, member by member. *)
Lemma worker_iteration_effect processing_time e e' :
  worker_iteration processing_time e = Some e' ->
  match queue_items (trade_queue_ e) with
  | [] => e' = e
  | slot :: rest =>
      let trade := slot_read slot (memory_pool_ e) in
      queue_items (trade_queue_ e') = rest /\
      queue_capacity (trade_queue_ e') = queue_capacity (trade_queue_ e) /\
      pool_free (memory_pool_ e') = slot :: pool_free (memory_pool_ e) /\
      pool_slots (memory_pool_ e') = pool_slots (memory_pool_ e) /\
      context_cache_ e'
      = <[context_key trade := updated_context trade (context_cache_ e)]>
          (context_cache_ e) /\
      detectors_ e' = detectors_ e /\
      statistics_ e' = statistics_ e /\
      running_ e' = running_ e /\
      shutdown_requested_ e' = shutdown_requested_ e /\
      last_stats_update_ e' = last_stats_update_ e /\
      num_threads_ e' = num_threads_ e /\
      trades_processed_ e' = wrap64 (trades_processed_ e + 1) /\
      processing_time_ns_ e'
      = wrap64 (processing_time_ns_ e + to_u64 processing_time) /\
      peak_processing_time_ns_ e'
      = N.max (peak_processing_time_ns_ e) (to_u64 processing_time)
  end.
Proof.
  unfold worker_iteration, pop.
  destruct (queue_items (trade_queue_ e)) as [| slot rest] eqn:Hq;
    [by intros [= <-] |].
  simpl. unfold process_trade_internal.
  match goal with |- context [run_detectors ?t ?c ?ds ?e0] =>
    destruct (run_detectors t c ds e0) as [e1 |] eqn:Hr end;
    [| discriminate].
  pose proof (run_detectors_frame _ _ _ _ _ Hr)
    as (Hc & Hd & Hs & Htq & Hmp & Hrun & Htp & Hpt & Hpk).
  pose proof (run_detectors_keeps _ _ _ _ _ Hr) as (Hnt & Hsh & Hls).
  simpl in *. intros [= <-].
  unfold update_peak. simpl.
  match goal with |- context [if ?b then _ else _] => destruct b eqn:Hlt end;
    simpl;
    rewrite ?Htq, ?Hmp, ?Hc, ?Hd, ?Hs, ?Hrun, ?Htp, ?Hpt, ?Hpk, ?Hnt, ?Hsh, ?Hls;
    simpl; repeat split; try reflexivity.
  - apply N.ltb_lt in Hlt. rewrite Hpk in Hlt. lia.
  - apply N.ltb_ge in Hlt. rewrite Hpk in Hlt. lia.
Qed.

(** What a submit leaves alone. *)
Lemma process_trade_keeps now t e :
  num_threads_ (snd (process_trade now t e)) = num_threads_ e /\
  running_ (snd (process_trade now t e)) = running_ e /\
  last_stats_update_ (snd (process_trade now t e)) = last_stats_update_ e /\
  alert_queue_ (snd (process_trade now t e)) = alert_queue_ e /\
  queue_capacity (trade_queue_ (snd (process_trade now t e)))
  = queue_capacity (trade_queue_ e).
Proof.
  unfold process_trade, validate_trade_data, allocate, push.
  repeat (match goal with
          | |- context [if ?b then _ else _] => destruct b
          | |- context [match pool_free ?p with _ => _ end] =>
              destruct (pool_free p)
          end; simpl); auto.
Qed.

End StepEffects.

(** ** Invariants of the steps *)

Section StepInvariants.

Context {PatternConfig D : Type} `{!IPatternDetector PatternConfig D}.
Implicit Types (e : TradePatternDetector D) (t trade : TradeData).

Lemma process_trade_slots now t e :
  slots_in_use_or_free (snd (process_trade now t e)) ≡ₚ slots_in_use_or_free e.
Proof.
  unfold process_trade, slots_in_use_or_free.
  destruct (negb (running_ e)); [reflexivity |].
  pose proof (validate_trade_data_frame now t e) as (_ & Hp & Hq & _).
  destruct (validate_trade_data now t e) as [ok e1]. simpl in Hp, Hq.
  destruct (negb ok); simpl; [by rewrite Hp, Hq |].
  unfold allocate. rewrite Hp.
  destruct (pool_free (memory_pool_ e)) as [| slot rest] eqn:Hfree; simpl;
    [by rewrite Hp, Hq, Hfree |].
  unfold push. simpl. rewrite Hq. case_decide; simpl; rewrite ?Hq.
  - rewrite app_assoc. symmetry. apply Permutation_cons_append.
  - reflexivity.
Qed.

Lemma engine_step_slots e e' :
  engine_step e e' -> slots_in_use_or_free e' ≡ₚ slots_in_use_or_free e.
Proof.
  intros [e0 | name d e0 | name b e0 | name c e0 | now t e0 | dt e0 e1 Hw].
  - unfold start. destruct (running_ e0); reflexivity.
  - reflexivity.
  - unfold toggle_pattern. destruct (detectors_ e0 !! name); reflexivity.
  - unfold update_pattern_config. destruct (detectors_ e0 !! name); reflexivity.
  - apply process_trade_slots.
  - apply worker_iteration_effect in Hw. unfold slots_in_use_or_free.
    destruct (queue_items (trade_queue_ e0)) as [| slot rest] eqn:Hq0;
      [subst e1; by rewrite Hq0 |].
    destruct Hw as (Hq & _ & Hf & _). rewrite Hq, Hf.
    simpl. apply Permutation_middle.
Qed.

Lemma NoDup_slots_from first count : NoDup (slots_from first count).
Proof.
  assert (Hlt : forall count first s,
             s ∈ slots_from first count -> (first <= s)%N).
  { clear. induction count as [| count IH]; intros first s; simpl.
    - intros Hin. by apply elem_of_nil in Hin.
    - intros [-> | Hin]%elem_of_cons; [lia |]. apply IH in Hin. lia. }
  revert first. induction count as [| count IH]; intros first; simpl.
  - constructor.
  - apply NoDup_cons. split; [| apply IH].
    intros Hin. apply Hlt in Hin. lia.
Qed.

Lemma length_slots_from first count : length (slots_from first count) = count.
Proof.
  revert first. induction count as [| count IH]; intros first; simpl;
    [reflexivity | by rewrite IH].
Qed.

Lemma rtc_engine_step_slots e e' :
  rtc engine_step e e' -> slots_in_use_or_free e' ≡ₚ slots_in_use_or_free e.
Proof.
  induction 1 as [| e1 e2 e3 Hs _ IH]; [reflexivity |].
  rewrite IH. by apply engine_step_slots.
Qed.

Lemma reachable_slots e :
  reachable e -> slots_in_use_or_free e ≡ₚ slots_from 0 (N.to_nat 1000000).
Proof.
  induction 1 as [hr n q | e _ IH | name d e _ IH | name b e _ IH
                  | name c e _ IH | now t e _ IH | dt e e' _ IH Hw].
  - change (slots_from 0 (N.to_nat 1000000) ++ []
            ≡ₚ slots_from 0 (N.to_nat 1000000)).
    by rewrite app_nil_r.
  - rewrite <- IH. apply engine_step_slots. constructor.
  - rewrite <- IH. apply engine_step_slots. constructor.
  - rewrite <- IH. apply engine_step_slots. constructor.
  - rewrite <- IH. apply engine_step_slots. constructor.
  - rewrite <- IH. apply engine_step_slots. constructor.
  - rewrite <- IH. apply engine_step_slots. by econstructor.
Qed.

Lemma reachable_slots_NoDup e :
  reachable e -> NoDup (slots_in_use_or_free e).
Proof. intros Hr. rewrite (reachable_slots e Hr). apply NoDup_slots_from. Qed.

(** X4. No step loses or duplicates a pool slot: along any sequence of
    operations and worker turns, the free slots together with the queued
    ones are a rearrangement of what they were. From the constructor on,
    they are the 1000000 slots of the pool, each once: a slot is never
    both free and queued, nor queued twice. *)
Theorem slots_are_conserved :
  (forall e e',
     rtc engine_step e e' ->
     slots_in_use_or_free e' ≡ₚ slots_in_use_or_free e /\
     (NoDup (slots_in_use_or_free e) -> NoDup (slots_in_use_or_free e'))) /\
  (forall e,
     reachable e ->
     slots_in_use_or_free e ≡ₚ slots_from 0 (N.to_nat 1000000) /\
     NoDup (slots_in_use_or_free e) /\
     (length (pool_free (memory_pool_ e))
      + length (queue_items (trade_queue_ e)) = N.to_nat 1000000)%nat).
Proof.
  split.
  - intros e e' Hr. split; [by apply rtc_engine_step_slots |].
    intros Hnd. by rewrite (rtc_engine_step_slots _ _ Hr).
  - intros e Hr. pose proof (reachable_slots e Hr) as Hperm.
    split; [exact Hperm |]. split; [by apply reachable_slots_NoDup |].
    rewrite <- length_app. fold (slots_in_use_or_free e).
    rewrite Hperm. apply length_slots_from.
Qed.

Lemma engine_step_grows e e' :
  engine_step e e' ->
  dom (detectors_ e) ⊆ dom (detectors_ e') /\
  dom (context_cache_ e) ⊆ dom (context_cache_ e') /\
  last_stats_update_ e' = last_stats_update_ e /\
  statistics_ e' = statistics_ e /\
  num_threads_ e' = num_threads_ e /\
  queue_capacity (trade_queue_ e') = queue_capacity (trade_queue_ e).
Proof.
  intros [e0 | name d e0 | name b e0 | name c e0 | now t e0 | dt e0 e1 Hw].
  - unfold start. destruct (running_ e0); simpl; auto 10.
  - simpl. split; [apply dom_insert_subseteq | auto 10].
  - unfold toggle_pattern. destruct (detectors_ e0 !! name); simpl;
      (split; [try apply dom_insert_subseteq; reflexivity | auto 10]).
  - unfold update_pattern_config. destruct (detectors_ e0 !! name); simpl;
      (split; [try apply dom_insert_subseteq; reflexivity | auto 10]).
  - destruct (process_trade_frame now t e0) as (Hs & Hc & Hd & _).
    destruct (process_trade_keeps now t e0) as (Hn & _ & Hl & _ & Hq).
    rewrite Hs, Hc, Hd, Hn, Hl, Hq. auto 10.
  - apply worker_iteration_effect in Hw.
    destruct (queue_items (trade_queue_ e0)) as [| slot rest]; [by subst |].
    destruct Hw as (_ & Hq & _ & _ & Hc & Hd & Hs & _ & _ & Hl & Hn & _).
    rewrite Hq, Hc, Hd, Hs, Hl, Hn.
    split; [reflexivity |]. split; [apply dom_insert_subseteq | auto 10].
Qed.

Lemma rtc_engine_step_grows e e' :
  rtc engine_step e e' ->
  dom (detectors_ e) ⊆ dom (detectors_ e') /\
  dom (context_cache_ e) ⊆ dom (context_cache_ e') /\
  last_stats_update_ e' = last_stats_update_ e /\
  statistics_ e' = statistics_ e /\
  num_threads_ e' = num_threads_ e /\
  queue_capacity (trade_queue_ e') = queue_capacity (trade_queue_ e).
Proof.
  induction 1 as [| e1 e2 e3 Hs _ IH]; [auto 10 |].
  apply engine_step_grows in Hs.
  destruct Hs as (Hd & Hc & Hl & Hst & Hn & Hq).
  destruct IH as (Hd' & Hc' & Hl' & Hst' & Hn' & Hq').
  rewrite Hl', Hst', Hn', Hq'.
  split; [by etrans |]. split; [by etrans |]. auto.
Qed.

(** X5. Nothing is ever removed: along any sequence of operations and
    worker turns, every registered pattern name stays registered and every
    key of the context cache stays cached (there is no unregistration and
    no eviction); the reference instant of the throughput and the stored
    statistics record are never written. *)
Theorem registry_and_cache_only_grow e e' :
  rtc engine_step e e' ->
  dom (detectors_ e) ⊆ dom (detectors_ e') /\
  dom (context_cache_ e) ⊆ dom (context_cache_ e') /\
  last_stats_update_ e' = last_stats_update_ e /\
  statistics_ e' = statistics_ e /\
  num_threads_ e' = num_threads_ e /\
  queue_capacity (trade_queue_ e') = queue_capacity (trade_queue_ e).
Proof. apply rtc_engine_step_grows. Qed.

End StepInvariants.

(** ** The hand-over of trades through pool and queue *)

Section HandOver.

Context {PatternConfig D : Type} `{!IPatternDetector PatternConfig D}.
Implicit Types (e : TradePatternDetector D) (t trade : TradeData).

Lemma slot_read_write_eq slot t pool :
  slot_read slot (slot_write slot t pool) = t.
Proof. unfold slot_read, slot_write. simpl. by rewrite lookup_insert_eq. Qed.

Lemma slot_read_write_ne slot slot' t pool :
  slot <> slot' -> slot_read slot' (slot_write slot t pool) = slot_read slot' pool.
Proof.
  intros Hne. unfold slot_read, slot_write. simpl. by rewrite lookup_insert_ne.
Qed.

Lemma slot_read_deallocate slot slot' pool :
  slot_read slot' (deallocate slot pool) = slot_read slot' pool.
Proof. reflexivity. Qed.

Lemma queued_reads_unchanged slot t pool pool' (queue : list N) :
  pool_slots pool = pool_slots pool' ->
  slot ∉ queue ->
  (fun s => slot_read s (slot_write slot t pool)) <$> queue
  = (fun s => slot_read s pool') <$> queue.
Proof.
  intros Hslots Hnotin. apply list_fmap_ext. intros i s Hs.
  rewrite slot_read_write_ne.
  - unfold slot_read. by rewrite Hslots.
  - intros ->. apply Hnotin. by eapply list_elem_of_lookup_2.
Qed.

(** The effect of a submit on the waiting trades. *)
Lemma process_trade_waiting now t e :
  NoDup (slots_in_use_or_free e) ->
  queued_trades (snd (process_trade now t e))
  = (if fst (process_trade now t e) then queued_trades e ++ [t]
     else queued_trades e) /\
  length (queue_items (trade_queue_ (snd (process_trade now t e))))
  = (if fst (process_trade now t e)
     then S (length (queue_items (trade_queue_ e)))
     else length (queue_items (trade_queue_ e))).
Proof.
  intros Hnd. unfold process_trade, queued_trades, slots_in_use_or_free in *.
  destruct (negb (running_ e)); [done |].
  pose proof (validate_trade_data_frame now t e) as (_ & Hp & Hq & _).
  destruct (validate_trade_data now t e) as [ok e1]. simpl in Hp, Hq.
  destruct (negb ok); simpl; [by rewrite Hp, Hq |].
  unfold allocate. rewrite Hp.
  destruct (pool_free (memory_pool_ e)) as [| slot rest] eqn:Hfree; simpl;
    [by rewrite Hp, Hq |].
  assert (Hnotin : slot ∉ queue_items (trade_queue_ e)).
  { simpl in Hnd. apply NoDup_cons in Hnd as [Hn _].
    intros Hin. apply Hn. apply elem_of_app. by right. }
  unfold push. simpl. rewrite Hq. case_decide; simpl.
  - rewrite fmap_app, length_app. simpl. split; [| lia]. f_equal.
    + by apply queued_reads_unchanged.
    + by rewrite slot_read_write_eq.
  - rewrite Hq. split; [| reflexivity].
    by apply (queued_reads_unchanged slot t
                {| pool_free := rest; pool_slots := pool_slots (memory_pool_ e) |}
                (memory_pool_ e)).
Qed.

(** X6. A submit adds the trade to the waiting ones and overwrites none:
    when no slot is both free and queued (which holds from the constructor
    on), after an accepted submit the waiting trades are the former ones
    and the new trade, whatever their order in the queue; a rejected
    submit leaves the waiting trades as they were; and the submit returns
    true exactly when the queue has grown by one. *)
Theorem submit_adds_to_waiting_trades now t e :
  NoDup (slots_in_use_or_free e) ->
  (if fst (process_trade now t e)
   then queued_trades (snd (process_trade now t e)) ≡ₚ t :: queued_trades e
   else queued_trades (snd (process_trade now t e)) = queued_trades e) /\
  length (queue_items (trade_queue_ (snd (process_trade now t e))))
  = (if fst (process_trade now t e)
     then S (length (queue_items (trade_queue_ e)))
     else length (queue_items (trade_queue_ e))).
Proof.
  intros Hnd. destruct (process_trade_waiting now t e Hnd) as [Hq Hlen].
  split; [| exact Hlen].
  destruct (fst (process_trade now t e)); [| exact Hq].
  rewrite Hq. symmetry. apply Permutation_cons_append.
Qed.

(** X7. A turn of the worker takes one waiting trade and leaves the
    others waiting: on a non-empty queue some waiting trade is processed
    (its context is updated and stored under its key, and it is counted),
    and the trades waiting afterwards are the former ones without it; on
    an empty queue the turn changes nothing. *)
Theorem worker_takes_one_waiting_trade processing_time e e' :
  worker_iteration processing_time e = Some e' ->
  (queue_items (trade_queue_ e) = [] -> e' = e) /\
  (queue_items (trade_queue_ e) <> [] ->
   exists trade,
     queued_trades e ≡ₚ trade :: queued_trades e' /\
     length (queue_items (trade_queue_ e'))
     = pred (length (queue_items (trade_queue_ e))) /\
     context_cache_ e'
     = <[context_key trade := updated_context trade (context_cache_ e)]>
         (context_cache_ e) /\
     trades_processed_ e' = wrap64 (trades_processed_ e + 1)).
Proof.
  intros Hw. apply worker_iteration_effect in Hw. unfold queued_trades.
  destruct (queue_items (trade_queue_ e)) as [| slot rest];
    [split; [by intros _ | by intros []] |].
  split; [discriminate |]. intros _.
  destruct Hw as (Hq & _ & _ & Hs & Hc & _ & _ & _ & _ & _ & _ & Htp & _).
  exists (slot_read slot (memory_pool_ e)). rewrite Hq. simpl.
  split; [| split; [reflexivity | split; [exact Hc | exact Htp]]].
  apply Permutation_cons; [reflexivity |].
  assert (Heq : (fun s => slot_read s (memory_pool_ e)) <$> rest
                = (fun s => slot_read s (memory_pool_ e')) <$> rest).
  { apply list_fmap_ext. intros i s _. unfold slot_read. by rewrite Hs. }
  change ((fun s => slot_read s (memory_pool_ e)) <$> rest
          ≡ₚ (fun s => slot_read s (memory_pool_ e')) <$> rest).
  by rewrite Heq.
Qed.

End HandOver.

(** ** Batch submission *)

Section BatchProps.

Context {PatternConfig D : Type} `{!IPatternDetector PatternConfig D}.
Implicit Types (e : TradePatternDetector D) (t trade : TradeData).

(** A submit moves at most one slot from the pool to the queue. *)
Lemma process_trade_accounting now t e :
  let r := process_trade now t e in
  length (queue_items (trade_queue_ (snd r)))
  = (length (queue_items (trade_queue_ e)) + (if fst r then 1 else 0))%nat /\
  (length (pool_free (memory_pool_ (snd r))) + (if fst r then 1 else 0))%nat
  = length (pool_free (memory_pool_ e)).
Proof.
  unfold process_trade.
  destruct (negb (running_ e)); simpl; [lia |].
  pose proof (validate_trade_data_frame now t e) as (_ & Hp & Hq & _).
  destruct (validate_trade_data now t e) as [ok e1]. simpl in Hp, Hq.
  destruct (negb ok); simpl; [rewrite Hp, Hq; lia |].
  unfold allocate. rewrite Hp.
  destruct (pool_free (memory_pool_ e)) as [| slot rest] eqn:Hfree; simpl;
    [rewrite Hp, Hq, Hfree; simpl; lia |].
  unfold push. simpl. rewrite Hq. case_decide; simpl.
  - rewrite length_app. simpl. lia.
  - rewrite Hq. lia.
Qed.

Lemma validate_each_frame validate_now i trades e :
  let r := validate_each validate_now i trades e in
  running_ (snd r) = running_ e /\ memory_pool_ (snd r) = memory_pool_ e /\
  trade_queue_ (snd r) = trade_queue_ e /\ length (fst r) = length trades.
Proof.
  revert i e. induction trades as [| t rest IH]; intros i e; simpl; [auto |].
  pose proof (validate_trade_data_frame (validate_now i) t e)
    as (Hr & Hp & Hq & _).
  destruct (validate_trade_data (validate_now i) t e) as [ok e1]. simpl in *.
  specialize (IH (S i) e1).
  destruct (validate_each validate_now (S i) rest e1) as [oks e2]. simpl in *.
  destruct IH as (Hr' & Hp' & Hq' & Hl).
  rewrite Hr', Hp', Hq', Hr, Hp, Hq, Hl. auto.
Qed.

Lemma queue_validated_accounting submit_now i trades results count e :
  let r := queue_validated submit_now i trades results count e in
  (N.to_nat (fst r) + length (queue_items (trade_queue_ e)))%nat
  = (N.to_nat count + length (queue_items (trade_queue_ (snd r))))%nat /\
  (length (pool_free (memory_pool_ (snd r)))
   + length (queue_items (trade_queue_ (snd r))))%nat
  = (length (pool_free (memory_pool_ e))
     + length (queue_items (trade_queue_ e)))%nat /\
  (count <= fst r <= count + N.of_nat (length trades))%N.
Proof.
  revert i results count e.
  induction trades as [| t rest IH]; intros i results count e; simpl;
    [split; [reflexivity | split; [reflexivity | lia]] |].
  destruct results as [| ok oks]; simpl;
    [split; [reflexivity | split; [reflexivity | lia]] |].
  destruct ok.
  - pose proof (process_trade_accounting (submit_now i) t e) as [Hq Hf].
    destruct (process_trade (submit_now i) t e) as [queued e1]. simpl in Hq, Hf.
    specialize (IH (S i) oks (if queued then count + 1 else count)%N e1).
    simpl in IH. destruct IH as (H1 & H2 & H3).
    destruct queued; (split; [lia | split; lia]).
  - specialize (IH (S i) oks count e). simpl in IH.
    destruct IH as (H1 & H2 & H3). split; [lia | split; lia].
Qed.

(** X8. A batch returns how many trades entered the queue, never more
    than it was given: the queue is longer by exactly the returned count
    and the pool has that many fewer free slots. While the engine is not
    running the batch returns 0 and does nothing. *)
Theorem batch_count_is_queue_growth validate_now submit_now trades e :
  let r := process_trades_batch validate_now submit_now trades e in
  (fst r <= N.of_nat (length trades))%N /\
  length (queue_items (trade_queue_ (snd r)))
  = (length (queue_items (trade_queue_ e)) + N.to_nat (fst r))%nat /\
  (length (pool_free (memory_pool_ (snd r))) + N.to_nat (fst r))%nat
  = length (pool_free (memory_pool_ e)) /\
  (running_ e = false -> r = (0%N, e)).
Proof.
  unfold process_trades_batch.
  destruct (running_ e) eqn:Hrun; simpl;
    [| split; [lia | split; [lia | split; [lia | reflexivity]]]].
  pose proof (validate_each_frame validate_now 0 trades e) as (_ & Hp & Hq & _).
  destruct (validate_each validate_now 0 trades e) as [results e1].
  simpl in Hp, Hq.
  pose proof (queue_validated_accounting submit_now 0 trades results 0 e1)
    as (H1 & H2 & H3).
  simpl in H1, H2, H3. rewrite Hp, Hq in *.
  split; [lia |]. split; [lia |]. split; [lia | discriminate].
Qed.

(** An accepted submit, written out. *)
Lemma process_trade_accepts now t e slot rest :
  running_ e = true ->
  valid_at now t = true ->
  pool_free (memory_pool_ e) = slot :: rest ->
  (length (queue_items (trade_queue_ e)) < queue_capacity (trade_queue_ e))%nat ->
  process_trade now t e
  = (true,
     set_trade_queue_
       {| queue_capacity := queue_capacity (trade_queue_ e);
          queue_items := queue_items (trade_queue_ e) ++ [slot] |}
       (set_memory_pool_
          (slot_write slot t
             {| pool_free := rest; pool_slots := pool_slots (memory_pool_ e) |})
          e)).
Proof.
  intros Hrun Hv Hfree Hroom. unfold process_trade. rewrite Hrun. simpl.
  rewrite validate_trade_data_two_tests.
  unfold valid_at in Hv. apply andb_true_iff in Hv as [Hv Hts].
  rewrite Hv. simpl. apply negb_true_iff in Hts. rewrite Hts. simpl.
  unfold allocate. rewrite Hfree. simpl. unfold push. simpl.
  rewrite decide_True by exact Hroom. reflexivity.
Qed.

(** A submit of a trade that fails validation is refused. *)
Lemma process_trade_rejects now t e :
  valid_at now t = false -> fst (process_trade now t e) = false.
Proof.
  intros Hv. unfold process_trade. destruct (negb (running_ e)); [done |].
  pose proof (validate_trade_data_valid_at now t e) as Hok.
  destruct (validate_trade_data now t e) as [ok e1]. simpl in Hok. subst ok.
  rewrite Hv. reflexivity.
Qed.

Lemma queue_validated_selected submit_now trades :
  forall validation_results i count e,
    running_ e = true ->
    NoDup (slots_in_use_or_free e) ->
    (length (batch_selected submit_now i trades validation_results)
     <= length (pool_free (memory_pool_ e)))%nat ->
    (length (batch_selected submit_now i trades validation_results)
     <= queue_room (trade_queue_ e))%nat ->
    let r := queue_validated submit_now i trades validation_results count e in
    fst r
    = (count
       + N.of_nat (length (batch_selected submit_now i trades validation_results)))%N /\
    queued_trades (snd r)
    = queued_trades e ++ batch_selected submit_now i trades validation_results.
Proof.
  induction trades as [| t rest IH];
    intros validation_results i count e Hrun Hnd Hpool Hroom.
  - simpl. split; [lia | by rewrite app_nil_r].
  - destruct validation_results as [| ok oks];
      [simpl; split; [lia | by rewrite app_nil_r] |].
    destruct ok; [| by apply IH].
    cbn [batch_selected queue_validated andb] in *.
    destruct (valid_at (submit_now i) t) eqn:Hv.
    + destruct (pool_free (memory_pool_ e)) as [| slot free] eqn:Hfree;
        [simpl in Hpool; lia |].
      assert (Hlt : (length (queue_items (trade_queue_ e))
                     < queue_capacity (trade_queue_ e))%nat)
        by (unfold queue_room in Hroom; simpl in Hroom; lia).
      pose proof (process_trade_waiting (submit_now i) t e Hnd) as [Hwait _].
      pose proof (process_trade_slots (submit_now i) t e) as Hperm.
      rewrite (process_trade_accepts _ _ _ _ _ Hrun Hv Hfree Hlt) in *.
      simpl in Hwait.
      match goal with |- context [queue_validated _ _ _ _ _ ?e1] =>
        specialize (IH oks (S i) (count + 1)%N e1) end.
      simpl in IH. destruct IH as [IH1 IH2].
      * exact Hrun.
      * rewrite Hperm. exact Hnd.
      * simpl in Hpool. lia.
      * unfold queue_room in *. simpl in *. rewrite length_app. simpl. lia.
      * split; [rewrite IH1; simpl; lia |].
        rewrite IH2, Hwait, <- app_assoc. reflexivity.
    + pose proof (process_trade_rejects (submit_now i) t e Hv) as Hno.
      pose proof (process_trade_waiting (submit_now i) t e Hnd) as [Hwait Hlen].
      pose proof (process_trade_slots (submit_now i) t e) as Hperm.
      pose proof (process_trade_accounting (submit_now i) t e) as [_ Hfree].
      pose proof (process_trade_keeps (submit_now i) t e)
        as (_ & Hrun' & _ & _ & Hcap).
      destruct (process_trade (submit_now i) t e) as [queued e1].
      simpl in *. subst queued.
      specialize (IH oks (S i) count e1). simpl in IH.
      destruct IH as [IH1 IH2].
      * by rewrite Hrun'.
      * by rewrite Hperm.
      * lia.
      * unfold queue_room in *. lia.
      * split; [exact IH1 | by rewrite IH2, Hwait].
Qed.

(** X9. The second loop of a batch queues exactly the trades that the
    first loop has marked valid and that pass the validation of the submit
    itself, whatever verdicts [validation_results] holds: with room for
    them in the pool and the queue, the count returned is their number and
    they are added to the waiting trades, each once. A trade whose verdict
    is false is not queued, valid or not. *)
Theorem batch_queues_marked_valid_trades submit_now trades validation_results e :
  running_ e = true ->
  NoDup (slots_in_use_or_free e) ->
  (length (batch_selected submit_now 0 trades validation_results)
   <= length (pool_free (memory_pool_ e)))%nat ->
  (length (batch_selected submit_now 0 trades validation_results)
   <= queue_room (trade_queue_ e))%nat ->
  fst (queue_validated submit_now 0 trades validation_results 0 e)
  = N.of_nat (length (batch_selected submit_now 0 trades validation_results)) /\
  queued_trades (snd (queue_validated submit_now 0 trades validation_results 0 e))
  ≡ₚ queued_trades e ++ batch_selected submit_now 0 trades validation_results /\
  (forall t, In t (batch_selected submit_now 0 trades validation_results) ->
     exists i, trades !! i = Some t /\ validation_results !! i = Some true /\
               valid_at (submit_now i) t = true).
Proof.
  intros Hrun Hnd Hpool Hroom.
  pose proof (queue_validated_selected submit_now trades validation_results
                0 0%N e Hrun Hnd Hpool Hroom) as [Hn Hq].
  simpl in Hn, Hq. split; [exact Hn |]. split; [by rewrite Hq |].
  clear. intros t.
  assert (Hgen : forall k results l,
             In t (batch_selected submit_now k l results) ->
             exists j : nat,
               l !! j = Some t /\ results !! j = Some true /\
               valid_at (submit_now (k + j)%nat) t = true).
  { intros k results l. revert k results.
    induction l as [| t' rest IH]; intros k results Hin; [destruct Hin |].
    destruct results as [| ok oks]; [destruct Hin |].
    cbn [batch_selected] in Hin.
    destruct (ok && valid_at (submit_now k) t') eqn:Hsel.
    - apply andb_true_iff in Hsel as [-> Hv].
      destruct Hin as [<- | Hin].
      + exists 0%nat. by rewrite Nat.add_0_r.
      + destruct (IH (S k) oks Hin) as (j & H1 & H2 & H3).
        exists (S j). by rewrite Nat.add_succ_r.
    - destruct (IH (S k) oks Hin) as (j & H1 & H2 & H3).
      exists (S j). by rewrite Nat.add_succ_r. }
  intros Hin. destruct (Hgen 0%nat validation_results trades Hin)
    as (j & H1 & H2 & H3).
  by exists j.
Qed.

End BatchProps.

(** ** More on the context store *)

Lemma filter_StronglySorted {A} (R : A -> A -> Prop) (f : A -> bool) l :
  StronglySorted R l -> StronglySorted R (List.filter f l).
Proof.
  induction 1 as [| x l Hs IH Hx]; simpl; [constructor |].
  destruct (f x); [| exact IH].
  constructor; [exact IH |].
  apply List.Forall_forall. intros y Hy. apply List.filter_In in Hy as [Hy _].
  rewrite List.Forall_forall in Hx. by apply Hx.
Qed.

Lemma filter_idempotent_app {A} (f : A -> bool) l x :
  f x = true ->
  List.filter f (List.filter f l ++ [x]) = List.filter f l ++ [x].
Proof.
  intros Hx. rewrite List.filter_app. simpl. rewrite Hx. f_equal.
  induction l as [| y l IH]; simpl; [reflexivity |].
  destruct (f y) eqn:Hy; simpl; [rewrite Hy; by f_equal | exact IH].
Qed.

(** X10. Keys do not interfere: processing a trade rewrites the cache
    entry of the trade's own key and no other, and leaves the pool, the
    queue, the registry and the processing counters as they were. *)
Theorem other_keys_are_untouched {PatternConfig D}
    `{!IPatternDetector PatternConfig D}
    (trade : TradeData) (e e' : TradePatternDetector D) :
  process_trade_internal trade e = Some e' ->
  context_cache_ e' !! context_key trade
    = Some (updated_context trade (context_cache_ e)) /\
  (forall key, key <> context_key trade ->
     context_cache_ e' !! key = context_cache_ e !! key) /\
  memory_pool_ e' = memory_pool_ e /\
  trade_queue_ e' = trade_queue_ e /\
  detectors_ e' = detectors_ e /\
  trades_processed_ e' = trades_processed_ e /\
  processing_time_ns_ e' = processing_time_ns_ e /\
  peak_processing_time_ns_ e' = peak_processing_time_ns_ e.
Proof.
  unfold process_trade_internal. intros Hr.
  apply run_detectors_frame in Hr
    as (Hc & Hd & _ & Hq & Hp & _ & Htp & Hpt & Hpk).
  simpl in *. rewrite Hc.
  split; [apply lookup_insert_eq |].
  split; [intros key Hk; by rewrite lookup_insert_ne |].
  auto 10.
Qed.

(** X11. For a stream that arrives in time order the window stays in time
    order and inside the lookback: if the stored window is sorted by
    timestamp and the new trade is not older than any of it, then after
    the update the window is sorted, ends with the new trade, and every
    trade in it is dated between the new trade's timestamp minus the
    window and the new trade's timestamp. *)
Theorem in_order_stream_keeps_window_sorted (trade : TradeData)
    (cache : gmap string HistoricalContext) :
  let old := stored_context trade cache in
  let new := updated_context trade cache in
  0 <= lookback_window old ->
  in_time_order (recent_trades old) ->
  (forall t, In t (recent_trades old) -> timestamp t <= timestamp trade) ->
  in_time_order (recent_trades new) /\
  last (recent_trades new) = Some trade /\
  (forall t, In t (recent_trades new) ->
     timestamp trade - lookback_window old * ticks_per_minute <= timestamp t
     /\ timestamp t <= timestamp trade).
Proof.
  intros old new Hw Hsorted Hnewest. subst new.
  rewrite updated_context_window by exact Hw. fold old.
  pose proof (cutoff_le_timestamp trade old Hw) as Hcut.
  unfold cutoff_time in *.
  split; [| split].
  - unfold in_time_order. apply StronglySorted_app. split; [| split].
    + intros a b Ha Hb. apply list_elem_of_In, List.filter_In in Ha as [Ha _].
      apply list_elem_of_singleton in Hb as ->. by apply Hnewest.
    + by apply filter_StronglySorted.
    + repeat constructor.
  - apply last_snoc.
  - intros t Hin. apply in_app_iff in Hin as [Hin | [<- | []]].
    + apply List.filter_In in Hin as [Hin Hle]. apply Z.leb_le in Hle.
      split; [exact Hle | by apply Hnewest].
    + lia.
Qed.

(** X12. The window does not deduplicate: processing the same trade a
    second time (a redelivery) appends a second copy and changes nothing
    else in the window. *)
Theorem redelivered_trade_is_kept_twice (trade : TradeData)
    (cache : gmap string HistoricalContext) :
  0 <= lookback_window (stored_context trade cache) ->
  recent_trades
    (updated_context trade
       (<[context_key trade := updated_context trade cache]> cache))
  = recent_trades (updated_context trade cache) ++ [trade].
Proof.
  intros Hw.
  rewrite (updated_context_window trade (<[_ := _]> cache));
    rewrite (stored_after_update trade trade cache eq_refl);
    [| by rewrite updated_context_lookback].
  f_equal. unfold cutoff_time. rewrite updated_context_lookback.
  rewrite updated_context_window by exact Hw.
  apply filter_idempotent_app. apply Z.leb_le.
  pose proof (cutoff_le_timestamp trade _ Hw) as Hc. unfold cutoff_time in Hc.
  exact Hc.
Qed.

(** ** More on the statistics *)

Section MoreStatistics.

Context {PatternConfig D : Type} `{!IPatternDetector PatternConfig D}.
Implicit Types (e : TradePatternDetector D).

(** X13. The throughput is an average over the whole life of the engine,
    in whole seconds: in any state reached from the constructor called at
    [hr0], a snapshot taken at [hr_now] divides the processed trades by
    the seconds elapsed since [hr0], truncated; during the first second
    (or if the clock reads earlier than [hr0]) the throughput is 0.0. The
    other refreshed fields are the two counters, the queue length and the
    time of the snapshot. *)
Theorem throughput_is_since_construction hr0 num_threads capacity e
    hr_now sys_now :
  rtc engine_step (new_engine hr0 num_threads capacity) e ->
  let stats := get_statistics hr_now sys_now e in
  let elapsed := (hr_now - hr0) ÷ 1000000000 in
  throughput_trades_per_second stats
  = (if 0 <? elapsed
     then double_div (double_of_Z (Z.of_N (trades_processed_ e)))
                     (double_of_Z elapsed)
     else zero_double) /\
  (hr_now - hr0 < 1000000000 -> throughput_trades_per_second stats = zero_double) /\
  total_trades_processed stats = trades_processed_ e /\
  total_alerts_generated stats = alerts_generated_ e /\
  queue_size stats = N.of_nat (length (queue_items (trade_queue_ e))) /\
  last_updated stats = sys_now.
Proof.
  intros Hr stats elapsed.
  apply rtc_engine_step_grows in Hr as (_ & _ & Hl & Hs & _).
  change (last_stats_update_ (new_engine hr0 num_threads capacity))
    with hr0 in Hl.
  change (statistics_ (new_engine hr0 num_threads capacity))
    with default_stats in Hs.
  assert (Ht : throughput_trades_per_second stats
               = if 0 <? elapsed
                 then double_div (double_of_Z (Z.of_N (trades_processed_ e)))
                                 (double_of_Z elapsed)
                 else zero_double).
  { subst stats elapsed. unfold get_statistics. simpl. rewrite Hl, Hs.
    reflexivity. }
  split; [exact Ht |]. split; [| by repeat split].
  intros Hlt. rewrite Ht.
  assert (Hq : elapsed <= 0).
  { subst elapsed. destruct (Z_lt_le_dec (hr_now - hr0) 0) as [Hn | Hp].
    - pose proof (Z.quot_le_mono (hr_now - hr0) 0 1000000000 ltac:(lia)
                    ltac:(lia)) as Hm.
      rewrite Z.quot_0_l in Hm by lia. exact Hm.
    - rewrite Z.quot_small by lia. lia. }
  destruct (0 <? elapsed) eqn:Hpos; [apply Z.ltb_lt in Hpos; lia | reflexivity].
Qed.

(** X14. A snapshot never reports what the engine measured beyond the two
    totals: in any state reached from the constructor, the peak, the
    memory and CPU figures and the per-pattern maps of the snapshot are
    the defaults (0 and empty), whatever the peak counter of the engine
    holds. *)
Theorem snapshot_keeps_default_fields hr0 num_threads capacity e
    hr_now sys_now :
  rtc engine_step (new_engine hr0 num_threads capacity) e ->
  let stats := get_statistics hr_now sys_now e in
  peak_processing_time_ns stats = 0%N /\
  memory_usage_bytes stats = 0%N /\
  cpu_utilization_percent stats = zero_double /\
  pattern_alerts_count stats = ∅ /\
  pattern_processing_time_ns stats = ∅.
Proof.
  intros Hr stats.
  apply rtc_engine_step_grows in Hr as (_ & _ & _ & Hs & _).
  change (statistics_ (new_engine hr0 num_threads capacity))
    with default_stats in Hs.
  subst stats. unfold get_statistics. simpl. rewrite Hs. by repeat split.
Qed.

Lemma to_u64_nonneg (d : Z) : 0 <= d < 2 ^ 63 -> to_u64 d = Z.to_N d.
Proof. intros Hd. unfold to_u64. rewrite Z.mod_small by lia. reflexivity. Qed.

Lemma to_u64_negative (d : Z) :
  - 2 ^ 63 <= d < 0 -> to_u64 d = Z.to_N (2 ^ 64 + d).
Proof.
  intros Hd. unfold to_u64. f_equal.
  rewrite <- (Z.mod_add d 1 (2 ^ 64)) by lia.
  rewrite Z.mod_small by lia. lia.
Qed.

(** X15. The counters after one processed trade: the trade count goes up
    by one and the total time by the measured duration, both modulo 2^64,
    and the peak becomes the larger of the old peak and the duration read
    as an unsigned number. A duration in 0 .. 2^63-1 is taken as it is; a
    negative one (the clock stepped back) is read as 2^64 plus itself, so
    the peak is then at least 2^63. *)
Theorem worker_turn_updates_counters processing_time e e' slot rest :
  queue_items (trade_queue_ e) = slot :: rest ->
  worker_iteration processing_time e = Some e' ->
  - 2 ^ 63 <= processing_time < 2 ^ 63 ->
  trades_processed_ e' = wrap64 (trades_processed_ e + 1) /\
  processing_time_ns_ e'
  = wrap64 (processing_time_ns_ e + to_u64 processing_time) /\
  peak_processing_time_ns_ e'
  = N.max (peak_processing_time_ns_ e) (to_u64 processing_time) /\
  (0 <= processing_time -> to_u64 processing_time = Z.to_N processing_time) /\
  (processing_time < 0 ->
     to_u64 processing_time = Z.to_N (2 ^ 64 + processing_time) /\
     (2 ^ 63 <= peak_processing_time_ns_ e')%N).
Proof.
  intros Hq Hw Hrange. apply worker_iteration_effect in Hw. rewrite Hq in Hw.
  destruct Hw as (_ & _ & _ & _ & _ & _ & _ & _ & _ & _ & _ & Htp & Hpt & Hpk).
  split; [exact Htp |]. split; [exact Hpt |]. split; [exact Hpk |].
  split.
  - intros Hpos. apply to_u64_nonneg. lia.
  - intros Hneg. pose proof (to_u64_negative processing_time ltac:(lia)) as Hu.
    split; [exact Hu |]. rewrite Hpk, Hu. lia.
Qed.

End MoreStatistics.

(** ** The worker thread *)

Section WorkerThread.

Context {PatternConfig D : Type} `{!IPatternDetector PatternConfig D}.
Implicit Types (e : TradePatternDetector D).

Lemma well_behaved_no_foreign trade context e :
  well_behaved e -> no_foreign trade context (enabled_detectors e).
Proof.
  intros Hwb. unfold no_foreign. apply List.Forall_forall.
  intros [name d] Hin. simpl. apply enabled_detectors_spec in Hin as [Hd _].
  by eapply Hwb.
Qed.

(** With such detectors a turn of the worker always completes. *)
Lemma worker_iteration_total processing_time e :
  well_behaved e -> exists e', worker_iteration processing_time e = Some e'.
Proof.
  intros Hwb. unfold worker_iteration.
  destruct (pop (trade_queue_ e)) as [[slot q] |]; [| by eexists].
  simpl. unfold process_trade_internal.
  match goal with |- context [run_detectors ?t ?c ?ds ?e0] =>
    rewrite (run_detectors_spec t c ds e0) end.
  - simpl. by eexists.
  - change (enabled_detectors (set_context_cache_ _ (set_trade_queue_ q e)))
      with (enabled_detectors e).
    by apply well_behaved_no_foreign.
Qed.

Lemma worker_loop_drains thread_id :
  forall (n : nat) (turns : list Z) e,
    length (queue_items (trade_queue_ e)) = n ->
    running_ e = false ->
    well_behaved e ->
    (n <= length turns)%nat ->
    (trades_processed_ e < two64)%N ->
    exists e',
      worker_loop thread_id turns e
      = Finished (log lvl_debug ("Worker thread finished: " +:+ thread_id) e') /\
      queue_items (trade_queue_ e') = [] /\
      pool_free (memory_pool_ e')
      = rev (queue_items (trade_queue_ e)) ++ pool_free (memory_pool_ e) /\
      trades_processed_ e' = wrap64 (trades_processed_ e + N.of_nat n) /\
      running_ e' = false /\
      detectors_ e' = detectors_ e.
Proof.
  induction n as [| n IH]; intros turns e Hn Hrun Hwb Hturns Htp.
  - apply nil_length_inv in Hn. exists e.
    assert (Hloop : worker_loop thread_id turns e
                    = Finished (log lvl_debug
                                  ("Worker thread finished: " +:+ thread_id) e)).
    { destruct turns; simpl; unfold queue_empty; by rewrite Hrun, Hn. }
    rewrite Hn. simpl.
    split; [exact Hloop |]. split; [reflexivity |].
    split; [reflexivity |].
    split; [| auto]. unfold wrap64. rewrite N.add_0_r.
    symmetry. apply N.mod_small. exact Htp.
  - destruct (queue_items (trade_queue_ e)) as [| slot rest] eqn:Hq;
      [discriminate |].
    destruct turns as [| d turns]; [simpl in Hturns; lia |].
    destruct (worker_iteration_total d e Hwb) as [e1 Hw].
    pose proof (worker_iteration_effect d e e1 Hw) as Heff.
    rewrite Hq in Heff.
    destruct Heff as (Hq1 & _ & Hf1 & _ & _ & Hd1 & _ & Hr1 & _ & _ & _
                      & Htp1 & _).
    destruct (IH turns e1) as (e' & Hloop & Hqe & Hfe & Htpe & Hre & Hde).
    + rewrite Hq1. simpl in Hn. lia.
    + by rewrite Hr1.
    + intros name detector trade context Hl. rewrite Hd1 in Hl. by eapply Hwb.
    + simpl in Hturns. lia.
    + rewrite Htp1. unfold wrap64, two64. apply N.mod_lt. lia.
    + exists e'. split.
      * simpl. unfold queue_empty. rewrite Hq, Hrun. simpl. rewrite Hw.
        exact Hloop.
      * split; [exact Hqe |]. split.
        { rewrite Hfe, Hq1, Hf1. simpl. by rewrite <- app_assoc. }
        split; [| split; [exact Hre | by rewrite Hde]].
        rewrite Htpe, Htp1. unfold wrap64.
        rewrite N.Div0.add_mod_idemp_l. f_equal. lia.
Qed.

Lemma worker_loop_while_running thread_id turns e e' :
  running_ e = true -> worker_loop thread_id turns e <> Finished e'.
Proof.
  revert e. induction turns as [| d turns IH]; intros e Hrun; simpl;
    rewrite Hrun; simpl; [discriminate |].
  destruct (worker_iteration d e) as [e1 |] eqn:Hw; [| discriminate].
  apply IH. apply worker_iteration_effect in Hw.
  destruct (queue_items (trade_queue_ e)) as [| slot rest]; [by subst |].
  destruct Hw as (_ & _ & _ & _ & _ & _ & _ & Hr & _). by rewrite Hr.
Qed.

(** X16. A worker leaves its loop only after the running flag is cleared,
    and then it first drains the queue: if the flag is clear and the
    detectors throw nothing but [std::exception], then within as many
    turns as there are queued trades the worker finishes with the queue
    empty, every waiting trade counted in [trades_processed_] and every
    slot returned to the pool, and its last log record says so. While the
    flag is set the worker never finishes, whatever the number of
    turns. *)
Theorem worker_drains_queue_then_ends thread_id turns e :
  (running_ e = true ->
   forall e', worker_thread_func thread_id turns e <> Finished e') /\
  (running_ e = false ->
   well_behaved e ->
   (length (queue_items (trade_queue_ e)) <= length turns)%nat ->
   (trades_processed_ e < two64)%N ->
   exists e',
     worker_thread_func thread_id turns e = Finished e' /\
     queue_items (trade_queue_ e') = [] /\
     pool_free (memory_pool_ e')
     ≡ₚ queue_items (trade_queue_ e) ++ pool_free (memory_pool_ e) /\
     trades_processed_ e'
     = wrap64 (trades_processed_ e
               + N.of_nat (length (queue_items (trade_queue_ e)))) /\
     last (spdlog e')
     = Some (lvl_debug, "Worker thread finished: " +:+ thread_id)).
Proof.
  split.
  - intros Hrun e'. unfold worker_thread_func.
    by apply worker_loop_while_running.
  - intros Hrun Hwb Hturns Htp. unfold worker_thread_func.
    destruct (worker_loop_drains thread_id
                (length (queue_items (trade_queue_ e))) turns
                (log lvl_debug ("Worker thread started: " +:+ thread_id) e))
      as (e' & Hloop & Hq & Hf & Htp' & _); try done.
    eexists. split; [exact Hloop |]. simpl.
    split; [exact Hq |]. split.
    { rewrite Hf. apply Permutation_app_tail. symmetry. apply Permutation_rev. }
    split; [exact Htp' |]. apply last_snoc.
Qed.

End WorkerThread.

(** ** The alert dispatcher *)

Section DispatcherProps.

Context {PatternConfig D : Type} `{!IPatternDetector PatternConfig D}.
Context {Sink : Type}.
Implicit Types (e : TradePatternDetector D) (s : Sink)
  (callback : @AlertCallback Sink).

Lemma deliver_cons callback s alert rest :
  deliver callback s (alert :: rest)
  = (fst (deliver callback (snd (callback s alert)) rest),
     match fst (callback s alert) with
     | CallbackThrewStd what =>
         (lvl_error, "Error in alert callback: " +:+ what)
         :: snd (deliver callback (snd (callback s alert)) rest)
     | _ => snd (deliver callback (snd (callback s alert)) rest)
     end).
Proof.
  simpl. destruct (callback s alert) as [outcome s1]. simpl.
  destruct (deliver callback s1 rest) as [s2 records]. reflexivity.
Qed.

Lemma dispatcher_loop_drains callback :
  (forall s alert, fst (callback s alert) <> CallbackThrewOther) ->
  forall alerts turns s e,
    alert_queue_ e = alerts ->
    running_ e = false ->
    (length alerts <= turns)%nat ->
    dispatcher_loop (Some callback) turns (s, e)
    = Finished
        (fst (deliver callback s alerts),
         log_all (snd (deliver callback s alerts)
                  ++ [(lvl_debug, "Alert dispatcher thread finished")])
                 (set_alert_queue_ [] e)).
Proof.
  intros Hcb. induction alerts as [| alert rest IH]; intros turns s e Hq Hrun Hlen.
  - assert (Hloop : dispatcher_loop (Some callback) turns (s, e)
                    = Finished (s, log lvl_debug "Alert dispatcher thread finished" e)).
    { destruct turns; simpl; rewrite Hrun, Hq; reflexivity. }
    rewrite Hloop. simpl. do 2 f_equal.
    apply engine_ext; cbn; try reflexivity. exact Hq.
  - destruct turns as [| turns]; [simpl in Hlen; lia |].
    rewrite deliver_cons. simpl. rewrite Hrun, Hq. simpl.
    specialize (Hcb s alert).
    destruct (callback s alert) as [outcome s1]. simpl in *.
    destruct outcome as [| what |]; [| | congruence].
    + rewrite (IH turns s1 (set_alert_queue_ rest e))
        by (try done; simpl in Hlen; lia).
      reflexivity.
    + rewrite (IH turns s1 (log lvl_error ("Error in alert callback: " +:+ what)
                              (set_alert_queue_ rest e)))
        by (try done; simpl in Hlen; lia).
      do 2 f_equal. apply engine_ext; cbn; try reflexivity.
      by rewrite <- app_assoc.
Qed.

Lemma dispatcher_loop_discards :
  forall (alerts : list SurveillanceAlert) turns s e,
    alert_queue_ e = alerts ->
    running_ e = false ->
    (length alerts <= turns)%nat ->
    dispatcher_loop None turns (s, e)
    = Finished (s, log lvl_debug "Alert dispatcher thread finished"
                     (set_alert_queue_ [] e)).
Proof.
  induction alerts as [| alert rest IH]; intros turns s e Hq Hrun Hlen.
  - assert (Hloop : dispatcher_loop None turns (s, e)
                    = Finished (s, log lvl_debug "Alert dispatcher thread finished" e)).
    { destruct turns; simpl; rewrite Hrun, Hq; reflexivity. }
    rewrite Hloop. do 2 f_equal.
    apply engine_ext; cbn; try reflexivity. by rewrite Hq.
  - destruct turns as [| turns]; [simpl in Hlen; lia |].
    simpl. rewrite Hrun, Hq. simpl.
    rewrite (IH turns s (set_alert_queue_ rest e))
      by (try done; simpl in Hlen; lia).
    reflexivity.
Qed.

Lemma dispatcher_loop_while_running (cb : option (@AlertCallback Sink))
    turns s e st :
  running_ e = true -> dispatcher_loop cb turns (s, e) <> Finished st.
Proof.
  revert s e. induction turns as [| turns IH]; intros s e Hrun; simpl;
    rewrite Hrun; simpl; [discriminate |].
  destruct (alert_queue_ e) as [| alert rest]; [by apply IH |].
  destruct cb as [callback |]; [| by apply IH].
  destruct (callback s alert) as [[| what |] s1]; [| | discriminate];
    by apply IH.
Qed.

End DispatcherProps.

Lemma deliver_recording seen alerts :
  fst (deliver recording_callback seen alerts) = seen ++ alerts.
Proof.
  revert seen. induction alerts as [| alert rest IH]; intros seen.
  - simpl. by rewrite app_nil_r.
  - rewrite deliver_cons. simpl. rewrite IH. by rewrite <- app_assoc.
Qed.

(** X17. The dispatcher hands every queued alert to the callback exactly
    once, in queue order, and never retries: after the running flag is
    cleared, within as many turns as there are queued alerts it finishes
    with an empty alert queue; the callback has been applied to the alerts
    in order, each call that threw a [std::exception] has left one error
    record, and nothing else in the engine has changed. When no callback is
    installed the queued alerts are dropped without a trace. While the flag
    is set the dispatcher never finishes. *)
Theorem dispatcher_delivers_each_alert_once :
  (forall {PatternConfig D} (I : IPatternDetector PatternConfig D) {Sink}
          (callback : @AlertCallback Sink) turns s (e : TradePatternDetector D),
     running_ e = false ->
     (forall s alert, fst (callback s alert) <> CallbackThrewOther) ->
     (length (alert_queue_ e) <= turns)%nat ->
     alert_dispatcher_func (Some callback) turns (s, e)
     = Finished
         (fst (deliver callback s (alert_queue_ e)),
          log_all ([(lvl_debug, "Alert dispatcher thread started")]
                   ++ snd (deliver callback s (alert_queue_ e))
                   ++ [(lvl_debug, "Alert dispatcher thread finished")])
                  (set_alert_queue_ [] e))) /\
  (forall {PatternConfig D} (I : IPatternDetector PatternConfig D) {Sink}
          turns (s : Sink) (e : TradePatternDetector D),
     running_ e = false ->
     (length (alert_queue_ e) <= turns)%nat ->
     alert_dispatcher_func None turns (s, e)
     = Finished
         (s, log_all [(lvl_debug, "Alert dispatcher thread started");
                      (lvl_debug, "Alert dispatcher thread finished")]
                     (set_alert_queue_ [] e))) /\
  (forall {PatternConfig D} (I : IPatternDetector PatternConfig D) {Sink}
          (cb : option (@AlertCallback Sink)) turns s
          (e : TradePatternDetector D) st,
     running_ e = true -> alert_dispatcher_func cb turns (s, e) <> Finished st) /\
  (forall seen alerts,
     fst (deliver recording_callback seen alerts) = seen ++ alerts).
Proof.
  split; [| split; [| split]].
  - intros PatternConfig D I Sink callback turns s e Hrun Hcb Hlen.
    unfold alert_dispatcher_func. simpl.
    rewrite (dispatcher_loop_drains callback Hcb (alert_queue_ e)) by done.
    do 2 f_equal. apply engine_ext; cbn; try reflexivity.
    by rewrite <- app_assoc.
  - intros PatternConfig D I Sink turns s e Hrun Hlen.
    unfold alert_dispatcher_func. simpl.
    rewrite (dispatcher_loop_discards (alert_queue_ e)) by done.
    do 2 f_equal. apply engine_ext; cbn; try reflexivity.
    by rewrite <- app_assoc.
  - intros PatternConfig D I Sink cb turns s e st Hrun.
    unfold alert_dispatcher_func. by apply dispatcher_loop_while_running.
  - apply deliver_recording.
Qed.

(** ** More on the peak counter *)

Module PeakExact.
Import PeakUpdate.

Definition exact (s : State) : Prop :=
  peak s = largest_sample (samples s) /\
  Forall (worker_ok (peak s)) (workers s).

Lemma exec_exact ev s s' : exact s -> exec ev s = Some s' -> exact s'.
Proof.
  intros [Hp Hw].
  destruct ev as [i pt | i | i spurious]; simpl;
    destruct (workers s !! i) as [[| pt' | pt' cur] |] eqn:Hi; try discriminate.
  - destruct (in_int64 pt) eqn:Hr; [| discriminate]. intros [= <-].
    split; simpl; [exact Hp |]. apply Forall_insert; [exact Hw | exact Hr].
  - intros [= <-]. split; simpl; [exact Hp |].
    apply Forall_insert; [exact Hw |].
    pose proof (Forall_lookup_1 _ _ _ _ Hw Hi) as Hm. simpl in *.
    split; [exact Hm | lia].
  - pose proof (Forall_lookup_1 _ _ _ _ Hw Hi) as [Hr Hcur]. simpl in Hr, Hcur.
    destruct (cur <? to_u64 pt')%N eqn:Hlt.
    + apply N.ltb_lt in Hlt.
      destruct ((peak s =? cur)%N && negb spurious) eqn:Hcas.
      * apply andb_true_iff in Hcas as [Heq _]. apply N.eqb_eq in Heq.
        intros [= <-]. split; simpl.
        -- rewrite <- Hp. lia.
        -- apply Forall_insert; [| exact I].
           eapply Forall_impl; [exact Hw |].
           intros w. apply PeakProps.worker_ok_mono. lia.
      * intros [= <-]. split; simpl; [exact Hp |].
        apply Forall_insert; [exact Hw |]. simpl. split; [exact Hr | lia].
    + apply N.ltb_ge in Hlt. intros [= <-]. split; simpl.
      * rewrite <- Hp. lia.
      * apply Forall_insert; [exact Hw | exact I].
Qed.

Lemma run_exact schedule s s' : exact s -> run schedule s = Some s' -> exact s'.
Proof.
  revert s. induction schedule as [| ev rest IH]; intros s Hc; simpl.
  - by intros [= <-].
  - destruct (exec ev s) as [s1 |] eqn:He; [| discriminate]. simpl.
    apply IH. by eapply exec_exact.
Qed.

(** X18. The peak counter is exactly the largest duration observed, never
    more: along every schedule of the workers' atomic accesses, from the
    counter at zero, the counter equals the maximum of the durations of the
    trades processed so far, read as unsigned 64-bit numbers (0 when none
    has been processed). *)
Theorem peak_is_exactly_the_largest_sample (n : nat) (schedule : list Event)
    (s : State) :
  run schedule (init n) = Some s ->
  peak s = largest_sample (samples s).
Proof.
  intros Hr. apply (run_exact schedule (init n)); [| exact Hr].
  split; [reflexivity |]. simpl. apply Forall_replicate. exact I.
Qed.

End PeakExact.

(** ** Shutdown: the dispatcher against the workers *)

Section Shutdown.

Context {PatternConfig D : Type} `{!IPatternDetector PatternConfig D}.
Context {Sink : Type}.
Implicit Types (e : TradePatternDetector D) (s : Sink).

(** What a turn of the worker adds to the alert queue is what it adds to
    the alert counter. *)
Lemma worker_iteration_alerts processing_time e e' :
  well_behaved e ->
  (alerts_generated_ e < two64)%N ->
  worker_iteration processing_time e = Some e' ->
  exists raised,
    alert_queue_ e' = alert_queue_ e ++ raised /\
    alerts_generated_ e'
    = wrap64 (alerts_generated_ e + N.of_nat (length raised)).
Proof.
  intros Hwb Hlt. unfold worker_iteration.
  destruct (pop (trade_queue_ e)) as [[slot q] |].
  - simpl. unfold process_trade_internal.
    match goal with |- context [run_detectors ?t ?c ?ds ?e0] =>
      rewrite (run_detectors_spec t c ds e0) end.
    + simpl. intros [= <-]. unfold update_peak.
      match goal with |- context [if ?b then _ else _] => destruct b end;
        match goal with |- context [fan_out_alerts ?t ?c ?ds] =>
          exists (fan_out_alerts t c ds); destruct (fan_out_alerts t c ds) end;
        (split; [reflexivity |]); cbn; try reflexivity;
        unfold wrap64; rewrite N.add_0_r; symmetry; apply N.mod_small;
        exact Hlt.
    + change (enabled_detectors (set_context_cache_ _ (set_trade_queue_ q e)))
        with (enabled_detectors e).
      by apply well_behaved_no_foreign.
  - intros [= <-]. exists []. rewrite app_nil_r. split; [reflexivity |].
    simpl. unfold wrap64. rewrite N.add_0_r. symmetry. by apply N.mod_small.
Qed.

Lemma worker_loop_alerts thread_id :
  forall (turns : list Z) e e',
    well_behaved e ->
    (alerts_generated_ e < two64)%N ->
    worker_loop thread_id turns e = Finished e' ->
    exists raised,
      alert_queue_ e' = alert_queue_ e ++ raised /\
      alerts_generated_ e'
      = wrap64 (alerts_generated_ e + N.of_nat (length raised)).
Proof.
  induction turns as [| d turns IH]; intros e e' Hwb Hlt.
  - simpl. destruct (running_ e || negb (queue_empty (trade_queue_ e)));
      [discriminate |].
    intros [= <-]. exists []. rewrite app_nil_r. split; [reflexivity |].
    simpl. unfold wrap64. rewrite N.add_0_r. symmetry. by apply N.mod_small.
  - simpl. destruct (running_ e || negb (queue_empty (trade_queue_ e))).
    + destruct (worker_iteration d e) as [e1 |] eqn:Hw; [| discriminate].
      intros Hloop.
      destruct (worker_iteration_alerts d e e1 Hwb Hlt Hw) as (r1 & Hq1 & Hg1).
      assert (Hd1 : detectors_ e1 = detectors_ e).
      { apply worker_iteration_effect in Hw.
        destruct (queue_items (trade_queue_ e)); [by subst |].
        by destruct Hw as (_ & _ & _ & _ & _ & Hd & _). }
      destruct (IH e1 e') as (r2 & Hq2 & Hg2); [| | exact Hloop |].
      * intros name detector trade context Hl. rewrite Hd1 in Hl.
        by eapply Hwb.
      * rewrite Hg1. unfold wrap64, two64. apply N.mod_lt. lia.
      * exists (r1 ++ r2). rewrite Hq2, Hq1, <- app_assoc.
        split; [reflexivity |]. rewrite Hg2, Hg1, length_app.
        unfold wrap64. rewrite N.Div0.add_mod_idemp_l. f_equal. lia.
    + intros [= <-]. exists []. rewrite app_nil_r. split; [reflexivity |].
      simpl. unfold wrap64. rewrite N.add_0_r. symmetry. by apply N.mod_small.
Qed.

(** X19. Alerts raised after the dispatcher has left are never delivered.
    Once the running flag is cleared, the dispatcher leaves its loop the
    first time it finds the alert queue empty, whatever still waits in the
    trade queue and without calling the callback; the workers then drain
    the trade queue, and every alert they raise and count stays in the
    alert queue, where no thread is left to take it. *)
Theorem alerts_after_dispatcher_exit_stay_queued thread_id
    (cb : option (@AlertCallback Sink)) s dispatcher_turns worker_turns e :
  running_ e = false ->
  alert_queue_ e = [] ->
  well_behaved e ->
  (length (queue_items (trade_queue_ e)) <= length worker_turns)%nat ->
  (trades_processed_ e < two64)%N ->
  (alerts_generated_ e < two64)%N ->
  exists e',
    dispatcher_loop cb dispatcher_turns (s, e)
    = Finished (s, log lvl_debug "Alert dispatcher thread finished" e) /\
    worker_loop thread_id worker_turns
      (log lvl_debug "Alert dispatcher thread finished" e)
    = Finished e' /\
    queue_items (trade_queue_ e') = [] /\
    trades_processed_ e'
    = wrap64 (trades_processed_ e
              + N.of_nat (length (queue_items (trade_queue_ e)))) /\
    alerts_generated_ e'
    = wrap64 (alerts_generated_ e + N.of_nat (length (alert_queue_ e'))).
Proof.
  intros Hrun Hq Hwb Hturns Htp Hag.
  set (e1 := log lvl_debug "Alert dispatcher thread finished" e).
  assert (Hd : dispatcher_loop cb dispatcher_turns (s, e) = Finished (s, e1)).
  { destruct dispatcher_turns; simpl; rewrite Hrun, Hq; reflexivity. }
  destruct (worker_loop_drains thread_id
              (length (queue_items (trade_queue_ e))) worker_turns e1)
    as (e2 & Hloop & Hq2 & _ & Htp2 & _); try done.
  destruct (worker_loop_alerts thread_id worker_turns e1 _ Hwb Hag Hloop)
    as (raised & Hr1 & Hr2).
  eexists. split; [exact Hd |]. split; [exact Hloop |].
  split; [exact Hq2 |]. split; [exact Htp2 |].
  rewrite Hr2, Hr1. change (alert_queue_ e1) with (alert_queue_ e).
  rewrite Hq. reflexivity.
Qed.

End Shutdown.

(** * The theorems at concrete inputs *)

(** C1 at a running engine and a well-formed trade: the trade is accepted
    and satisfies the invariant. *)
Lemma submit_accepts_only_valid_witness :
  running_ (started 4) = true /\
  fst (process_trade (seconds 100) (trade_at "T1" 1) (started 4)) = true /\
  spec_is_valid (seconds 100) (trade_at "T1" 1).
Proof.
  split; [reflexivity |]. split; [vm_compute; reflexivity |].
  apply (proj1 (proj2 (submit_accepts_only_valid
                         (seconds 100) (trade_at "T1" 1) (started 4) eq_refl))).
  vm_compute. reflexivity.
Defined.

(** C2 at the first trade of scenario S3. *)
Lemma context_snapshot_window_witness :
  0 <= lookback_window (stored_context (trade_at "T0" 0) (context_cache_ s3_engine)) /\
  In (trade_at "T0" 0)
     (recent_trades (updated_context (trade_at "T0" 0) (context_cache_ s3_engine))).
Proof.
  assert (H : 0 <= lookback_window
                     (stored_context (trade_at "T0" 0) (context_cache_ s3_engine)))
    by (vm_compute; discriminate).
  split; [exact H |].
  exact (proj1 (proj2 (proj1 context_snapshot_window nat TestDetector test_detector
                         (trade_at "T0" 0) s3_engine H))).
Defined.

(** C3 (amended) at the engine whose only detector throws. *)
Lemma detector_errors_are_logged_witness :
  exists e',
    worker_iteration 700 throwing_engine = Some e' /\
    trades_processed_ e' = wrap64 (trades_processed_ throwing_engine + 1) /\
    queue_items (trade_queue_ e') = [].
Proof.
  assert (Hq : queue_items (trade_queue_ throwing_engine) = [0%N])
    by (vm_compute; reflexivity).
  assert (Hnf : no_foreign
                  (slot_read 0%N (memory_pool_ throwing_engine))
                  (updated_context (slot_read 0%N (memory_pool_ throwing_engine))
                     (context_cache_ throwing_engine))
                  (enabled_detectors throwing_engine)).
  { unfold no_foreign. vm_compute. repeat constructor. discriminate. }
  destruct (proj1 detector_errors_are_logged nat TestDetector test_detector
              700 throwing_engine 0%N [] Hq Hnf)
    as (e' & Hrun & _ & _ & _ & _ & _ & Htp & Hrest & _).
  exists e'. auto.
Defined.

(** C4 (amended) at a full queue with free slots 2 and 3 in the pool. *)
Lemma submit_drop_is_logged_witness :
  running_ full_queue_small = true /\
  spec_is_valid (seconds 100) (trade_at "T1" 1) /\
  fst (process_trade (seconds 100) (trade_at "T1" 1) full_queue_small) = false /\
  pool_free (memory_pool_
               (snd (process_trade (seconds 100) (trade_at "T1" 1) full_queue_small)))
  = pool_free (memory_pool_ full_queue_small).
Proof.
  assert (Hrun : running_ full_queue_small = true) by (vm_compute; reflexivity).
  split; [exact Hrun |]. split; [apply trade_at_valid |].
  assert (Hfree : pool_free (memory_pool_ full_queue_small) = [2%N; 3%N])
    by (vm_compute; reflexivity).
  assert (Hfull : ~ (length (queue_items (trade_queue_ full_queue_small))
                     < queue_capacity (trade_queue_ full_queue_small))%nat)
    by (vm_compute; lia).
  pose proof (proj2 (submit_drop_is_logged (seconds 100) (trade_at "T1" 1)
                       full_queue_small Hrun trade_at_valid)
                2%N [3%N] Hfree Hfull) as (Hr & Hp & _).
  split; [exact Hr | exact Hp].
Defined.

(** C6 at two workers whose updates overlap, then a shorter trade. *)
Lemma peak_is_running_maximum_witness :
  let s1 := {| PeakUpdate.peak := 1200;
               PeakUpdate.workers := [PeakUpdate.Idle; PeakUpdate.Idle];
               PeakUpdate.samples := [1200; 900] |} in
  let s2 := {| PeakUpdate.peak := 1200;
               PeakUpdate.workers := [PeakUpdate.Idle; PeakUpdate.Idle];
               PeakUpdate.samples := [300; 1200; 900] |} in
  PeakUpdate.run overlapping_schedule (PeakUpdate.init 2) = Some s1 /\
  PeakUpdate.run later_schedule s1 = Some s2 /\
  (PeakUpdate.peak s1 <= PeakUpdate.peak s2)%N /\
  Forall (fun d => d <= Z.of_N (PeakUpdate.peak s2)) (PeakUpdate.samples s2).
Proof.
  intros s1 s2.
  assert (H1 : PeakUpdate.run overlapping_schedule (PeakUpdate.init 2) = Some s1).
  { vm_compute. reflexivity. }
  assert (H2 : PeakUpdate.run later_schedule s1 = Some s2).
  { vm_compute. reflexivity. }
  split; [exact H1 |]. split; [exact H2 |].
  pose proof (PeakProps.peak_is_running_maximum
                2 overlapping_schedule later_schedule s1 s2 H1 H2) as (Hm & _ & Hs).
  split; [exact Hm | exact Hs].
Defined.


(** C10 at a registry of two detectors and the name "ghost". *)
Lemma unknown_pattern_is_noop_witness :
  detectors_ two_detectors !! "ghost" = None /\
  toggle_pattern "ghost" false two_detectors
  = log lvl_warn "Pattern not found: ghost" two_detectors /\
  detectors_ (update_pattern_config "ghost" 7%nat two_detectors)
  = detectors_ two_detectors.
Proof.
  assert (H : detectors_ two_detectors !! "ghost" = None) by (vm_compute; reflexivity).
  split; [exact H |].
  pose proof (unknown_pattern_is_noop "ghost" false 7%nat two_detectors H)
    as (Ht & _ & _ & Hu & _).
  split; [exact Ht | exact Hu].
Defined.

(** X2 at one detector registered as "fast" and as "slow": disabling
    "fast" disables "slow", and "other" keeps its detector. *)
Lemma pattern_update_reaches_every_alias_witness :
  Shared.names aliased_registry !! "fast" = Some 7%N /\
  Shared.objects aliased_registry !! 7%N = Some (fixture always_detector) /\
  Shared.detector_at "slow" (Shared.toggle_pattern "fast" false aliased_registry)
  = Some (set_enabled false (fixture always_detector)) /\
  Shared.detector_at "other" (Shared.toggle_pattern "fast" false aliased_registry)
  = Shared.detector_at "other" aliased_registry.
Proof.
  assert (Hn : Shared.names aliased_registry !! "fast" = Some 7%N)
    by (vm_compute; reflexivity).
  assert (Ho : Shared.objects aliased_registry !! 7%N
               = Some (fixture always_detector)) by (vm_compute; reflexivity).
  split; [exact Hn |]. split; [exact Ho |].
  pose proof (pattern_update_reaches_every_alias
                "fast" false 0%nat 7%N (fixture always_detector)
                aliased_registry Hn Ho) as (_ & _ & Hall & _).
  assert (Hs : Shared.names aliased_registry !! "slow" = Some 7%N)
    by (vm_compute; reflexivity).
  assert (Hx : Shared.names aliased_registry !! "other" = Some 8%N)
    by (vm_compute; reflexivity).
  pose proof (proj1 (Hall "slow" 7%N Hs)) as H1.
  pose proof (proj1 (Hall "other" 8%N Hx)) as H2.
  rewrite decide_True in H1 by reflexivity.
  rewrite decide_False in H2 by discriminate.
  split; [exact H1 | exact H2].
Defined.

(** X3 at an engine with an enabled detector that always alerts and a
    disabled one that would throw a foreign exception: the trade is
    processed and the one alert is queued. *)
Lemma disabled_detectors_are_skipped_witness :
  detectors_ mixed_engine !! "alien"
  = Some {| kind := alien_detector; enabled_flag := false;
            installed_config := None |} /\
  exists e',
    process_trade_internal (trade_at "T1" 1) mixed_engine = Some e' /\
    alert_queue_ e' = [alert_X (trade_at "T1" 1)].
Proof.
  split; [vm_compute; reflexivity |].
  destruct (proj1 (proj2 (proj2 (disabled_detectors_are_skipped
                                   (trade_at "T1" 1) mixed_engine))))
    as (e' & Hp & Hq & _).
  { intros name detector Hd Hen.
    apply elem_of_map_to_list in Hd. vm_compute in Hd.
    apply list_elem_of_In in Hd.
    destruct Hd as [[= <- <-] | [[= <- <-] | []]];
      [try discriminate Hen; cbn; discriminate ..]. }
  exists e'. split; [exact Hp |]. rewrite Hq.
  vm_compute. reflexivity.
Defined.

(** X4 at a started engine after one submit. *)
Lemma slots_are_conserved_witness :
  reachable (snd (process_trade (seconds 100) (trade_at "T1" 1) (started 4))) /\
  NoDup (slots_in_use_or_free
           (snd (process_trade (seconds 100) (trade_at "T1" 1) (started 4)))).
Proof.
  assert (H : reachable
                (snd (process_trade (seconds 100) (trade_at "T1" 1) (started 4)))).
  { apply reach_submit. unfold started. apply reach_start, reach_new. }
  split; [exact H |].
  exact (proj1 (proj2 (proj2 slots_are_conserved _ H))).
Defined.

(** X5 at the registry of two detectors, one of them then disabled. *)
Lemma registry_and_cache_only_grow_witness :
  rtc engine_step two_detectors (toggle_pattern "null_detector" false two_detectors) /\
  dom (detectors_ two_detectors)
  ⊆ dom (detectors_ (toggle_pattern "null_detector" false two_detectors)).
Proof.
  assert (H : rtc engine_step two_detectors
                (toggle_pattern "null_detector" false two_detectors))
    by apply rtc_once, step_toggle.
  split; [exact H |].
  exact (proj1 (registry_and_cache_only_grow _ _ H)).
Defined.

(** X6 at an engine with one trade waiting. *)
Lemma submit_adds_to_waiting_trades_witness :
  queued_trades throwing_engine = [trade_at "T1" 1] /\
  NoDup (slots_in_use_or_free throwing_engine) /\
  queued_trades (snd (process_trade (seconds 100) (trade_at "T2" 2) throwing_engine))
  ≡ₚ trade_at "T2" 2 :: queued_trades throwing_engine.
Proof.
  split; [vm_compute; reflexivity |].
  assert (H : NoDup (slots_in_use_or_free throwing_engine)).
  { apply reachable_slots_NoDup. unfold throwing_engine.
    apply reach_submit, reach_start, reach_register, reach_new. }
  split; [exact H |].
  pose proof (submit_adds_to_waiting_trades
                (seconds 100) (trade_at "T2" 2) throwing_engine H) as [Hq _].
  assert (Hok : fst (process_trade (seconds 100) (trade_at "T2" 2) throwing_engine)
                = true) by (vm_compute; reflexivity).
  rewrite Hok in Hq. exact Hq.
Defined.

(** X7 at a queue of two waiting trades. *)
Lemma worker_takes_one_waiting_trade_witness :
  queued_trades full_queue_small = [trade_at "T1" 1; trade_at "T2" 2] /\
  exists e' trade,
    worker_iteration 700 full_queue_small = Some e' /\
    queued_trades full_queue_small ≡ₚ trade :: queued_trades e' /\
    length (queue_items (trade_queue_ e')) = 1%nat.
Proof.
  split; [vm_compute; reflexivity |].
  assert (Hs : from_option (fun _ => true) false
                 (worker_iteration 700 full_queue_small) = true)
    by (vm_compute; reflexivity).
  destruct (worker_iteration 700 full_queue_small) as [e' |] eqn:Hw;
    [| discriminate Hs].
  assert (Hne : queue_items (trade_queue_ full_queue_small) <> [])
    by (vm_compute; discriminate).
  assert (Hlen : pred (length (queue_items (trade_queue_ full_queue_small)))
                 = 1%nat) by (vm_compute; reflexivity).
  destruct (proj2 (worker_takes_one_waiting_trade 700 full_queue_small e' Hw) Hne)
    as (trade & Hp & Hl & _).
  exists e', trade. split; [reflexivity |]. split; [exact Hp |].
  rewrite Hl. exact Hlen.
Defined.

(** X9 at a batch of three trades with the verdicts true, true, false: the
    second trade has no id and is refused by the submit, the third is
    valid but its verdict is false. *)
Lemma batch_queues_marked_valid_trades_witness :
  running_ (started 4) = true /\
  fst (queue_validated (fun _ => seconds 100) 0 mixed_batch [true; true; false]
         0 (started 4)) = 1%N /\
  queued_trades
    (snd (queue_validated (fun _ => seconds 100) 0 mixed_batch [true; true; false]
            0 (started 4)))
  ≡ₚ queued_trades (started 4) ++ [trade_at "T1" 1].
Proof.
  assert (Hrun : running_ (started 4) = true) by (vm_compute; reflexivity).
  split; [exact Hrun |].
  assert (Hnd : NoDup (slots_in_use_or_free (started 4))).
  { apply reachable_slots_NoDup. unfold started. apply reach_start, reach_new. }
  assert (Hb : batch_selected (fun _ => seconds 100) 0 mixed_batch
                 [true; true; false]
               = [trade_at "T1" 1]) by (vm_compute; reflexivity).
  assert (Hpool : (length (batch_selected (fun _ => seconds 100) 0 mixed_batch
                             [true; true; false])
                   <= length (pool_free (memory_pool_ (started 4))))%nat).
  { apply Nat.leb_le. vm_compute. reflexivity. }
  assert (Hroom : (length (batch_selected (fun _ => seconds 100) 0 mixed_batch
                             [true; true; false])
                   <= queue_room (trade_queue_ (started 4)))%nat).
  { apply Nat.leb_le. vm_compute. reflexivity. }
  pose proof (batch_queues_marked_valid_trades
                (fun _ => seconds 100) mixed_batch [true; true; false]
                (started 4) Hrun Hnd Hpool Hroom)
    as (Hn & Hq & _).
  rewrite Hb in Hn, Hq. split; [exact Hn | exact Hq].
Defined.

(** X10 at a started engine and a first trade of its key. *)
Lemma other_keys_are_untouched_witness :
  exists e',
    process_trade_internal (trade_at "T1" 1) (started 4) = Some e' /\
    context_cache_ e' !! context_key (trade_at "T1" 1)
    = Some (updated_context (trade_at "T1" 1) (context_cache_ (started 4))) /\
    trade_queue_ e' = trade_queue_ (started 4).
Proof.
  assert (Hs : from_option (fun _ => true) false (process_trade_internal (trade_at "T1" 1) (started 4)) = true)
    by (vm_compute; reflexivity).
  destruct (process_trade_internal (trade_at "T1" 1) (started 4)) as [e' |] eqn:Hp;
    [| discriminate Hs].
  exists e'. split; [reflexivity |].
  pose proof (other_keys_are_untouched (trade_at "T1" 1) (started 4) e' Hp)
    as (H1 & _ & _ & H4 & _).
  split; [exact H1 | exact H4].
Defined.

(** X11 at a window holding the trades of 0 s and 30 s and a trade of
    45 s. *)
Lemma in_order_stream_keeps_window_sorted_witness :
  0 <= lookback_window (stored_context (trade_at "T45" 45) one_minute_cache) /\
  in_time_order (recent_trades (stored_context (trade_at "T45" 45) one_minute_cache)) /\
  in_time_order (recent_trades (updated_context (trade_at "T45" 45) one_minute_cache)) /\
  last (recent_trades (updated_context (trade_at "T45" 45) one_minute_cache))
  = Some (trade_at "T45" 45).
Proof.
  assert (Hw : 0 <= lookback_window
                      (stored_context (trade_at "T45" 45) one_minute_cache))
    by (vm_compute; discriminate).
  assert (Hold : recent_trades (stored_context (trade_at "T45" 45) one_minute_cache)
                 = [trade_at "T0" 0; trade_at "T30" 30])
    by (vm_compute; reflexivity).
  assert (Hs : in_time_order
                 (recent_trades (stored_context (trade_at "T45" 45) one_minute_cache))).
  { rewrite Hold. unfold in_time_order.
    repeat constructor; vm_compute; discriminate. }
  assert (Hn : forall t,
             In t (recent_trades (stored_context (trade_at "T45" 45) one_minute_cache)) ->
             timestamp t <= timestamp (trade_at "T45" 45)).
  { rewrite Hold. intros t [<- | [<- | []]]; vm_compute; discriminate. }
  split; [exact Hw |]. split; [exact Hs |].
  pose proof (in_order_stream_keeps_window_sorted
                (trade_at "T45" 45) one_minute_cache Hw Hs Hn) as (H1 & H2 & _).
  split; [exact H1 | exact H2].
Defined.

(** X12 at the same window and trade. *)
Lemma redelivered_trade_is_kept_twice_witness :
  0 <= lookback_window (stored_context (trade_at "T45" 45) one_minute_cache) /\
  recent_trades
    (updated_context (trade_at "T45" 45)
       (<[context_key (trade_at "T45" 45)
          := updated_context (trade_at "T45" 45) one_minute_cache]>
          one_minute_cache))
  = recent_trades (updated_context (trade_at "T45" 45) one_minute_cache)
    ++ [trade_at "T45" 45].
Proof.
  assert (Hw : 0 <= lookback_window
                      (stored_context (trade_at "T45" 45) one_minute_cache))
    by (vm_compute; discriminate).
  split; [exact Hw |].
  exact (redelivered_trade_is_kept_twice (trade_at "T45" 45) one_minute_cache Hw).
Defined.

(** X13 at an engine that has processed one trade, ten seconds after the
    constructor: the throughput is 1 / 10. *)
Lemma throughput_is_since_construction_witness :
  exists e : TradePatternDetector TestDetector,
    rtc engine_step (new_engine 0 1 4) e /\
    trades_processed_ e = 1%N /\
    throughput_trades_per_second (get_statistics (seconds 10) 77 e)
    = double_div (double_of_Z 1) (double_of_Z 10).
Proof.
  assert (Htp : trades_processed_
                  <$> worker_iteration 400
                        (snd (process_trade (seconds 100) (trade_at "T1" 1)
                                (snd (start (new_engine 0 1 4)))))
                = Some 1%N) by (vm_compute; reflexivity).
  destruct (worker_iteration 400
              (snd (process_trade (seconds 100) (trade_at "T1" 1)
                      (snd (start (new_engine 0 1 4))))))
    as [e |] eqn:Hw; [| discriminate Htp].
  simpl in Htp. injection Htp as Htp.
  assert (H : rtc engine_step (new_engine 0 1 4) e).
  { eapply rtc_l; [apply step_start |].
    eapply rtc_l; [apply step_submit |].
    apply rtc_once. exact (step_worker 400 _ _ Hw). }
  exists e. split; [exact H |]. split; [exact Htp |].
  pose proof (throughput_is_since_construction
                0 1%nat 4%nat e (seconds 10) 77 H) as Ht.
  cbv zeta in Ht. destruct Ht as (Hf & _).
  rewrite Hf, Htp. vm_compute. reflexivity.
Defined.

(** X14 at the same engine, whose peak counter holds 400. *)
Lemma snapshot_keeps_default_fields_witness :
  exists e : TradePatternDetector TestDetector,
    rtc engine_step (new_engine 0 1 4) e /\
    peak_processing_time_ns_ e = 400%N /\
    peak_processing_time_ns (get_statistics (seconds 10) 77 e) = 0%N.
Proof.
  assert (Hpk : peak_processing_time_ns_
                  <$> worker_iteration 400
                        (snd (process_trade (seconds 100) (trade_at "T1" 1)
                                (snd (start (new_engine 0 1 4)))))
                = Some 400%N) by (vm_compute; reflexivity).
  destruct (worker_iteration 400
              (snd (process_trade (seconds 100) (trade_at "T1" 1)
                      (snd (start (new_engine 0 1 4))))))
    as [e |] eqn:Hw; [| discriminate Hpk].
  simpl in Hpk. injection Hpk as Hpk.
  assert (H : rtc engine_step (new_engine 0 1 4) e).
  { eapply rtc_l; [apply step_start |].
    eapply rtc_l; [apply step_submit |].
    apply rtc_once. exact (step_worker 400 _ _ Hw). }
  exists e. split; [exact H |]. split; [exact Hpk |].
  pose proof (snapshot_keeps_default_fields
                0 1%nat 4%nat e (seconds 10) 77 H) as Ht.
  cbv zeta in Ht. exact (proj1 Ht).
Defined.

(** X15 at one queued trade and a clock that stepped back by 5 ns. *)
Lemma worker_turn_updates_counters_witness :
  exists e',
    worker_iteration (-5) throwing_engine = Some e' /\
    (2 ^ 63 <= peak_processing_time_ns_ e')%N.
Proof.
  assert (Hq : queue_items (trade_queue_ throwing_engine) = [0%N])
    by (vm_compute; reflexivity).
  assert (Hs : from_option (fun _ => true) false (worker_iteration (-5) throwing_engine) = true)
    by (vm_compute; reflexivity).
  destruct (worker_iteration (-5) throwing_engine) as [e' |] eqn:Hw;
    [| discriminate Hs].
  exists e'. split; [reflexivity |].
  assert (Hr : - 2 ^ 63 <= -5 < 2 ^ 63) by lia.
  pose proof (worker_turn_updates_counters (-5) throwing_engine e' 0%N [] Hq Hw Hr)
    as (_ & _ & _ & _ & Hneg).
  apply Hneg. lia.
Defined.

(** The detectors of scenario S6 throw nothing but [std::exception]. *)
Lemma draining_engine_well_behaved : well_behaved draining_engine.
Proof.
  intros name detector trade context Hd.
  apply elem_of_map_to_list in Hd. vm_compute in Hd.
  apply list_elem_of_In in Hd.
  destruct Hd as [[= <- <-] | [[= <- <-] | []]]; cbn; discriminate.
Qed.

(** X16 at scenario S6 with the flag cleared: five trades wait. *)
Lemma worker_drains_queue_then_ends_witness :
  running_ draining_engine = false /\
  exists e',
    worker_thread_func "w1" [100; 200; 300; 400; 500] draining_engine
    = Finished e' /\
    queue_items (trade_queue_ e') = [] /\
    trades_processed_ e'
    = wrap64 (trades_processed_ draining_engine
              + N.of_nat (length (queue_items (trade_queue_ draining_engine)))).
Proof.
  assert (Hrun : running_ draining_engine = false) by (vm_compute; reflexivity).
  split; [exact Hrun |].
  assert (Hlen : (length (queue_items (trade_queue_ draining_engine))
                  <= length [100; 200; 300; 400; 500])%nat).
  { apply Nat.leb_le. vm_compute. reflexivity. }
  assert (Htp : (trades_processed_ draining_engine < two64)%N)
    by (vm_compute; reflexivity).
  destruct (proj2 (worker_drains_queue_then_ends
                     "w1" [100; 200; 300; 400; 500] draining_engine)
              Hrun draining_engine_well_behaved Hlen Htp)
    as (e' & Hf & Hq & _ & Hn & _).
  exists e'. split; [exact Hf |]. split; [exact Hq | exact Hn].
Defined.

(** X17 at two waiting alerts and the recording callback, which throws on
    both. *)
Lemma dispatcher_delivers_each_alert_once_witness :
  running_ alerts_waiting = false /\
  alert_dispatcher_func (Some recording_callback) 5 ([], alerts_waiting)
  = Finished
      (fst (deliver recording_callback [] (alert_queue_ alerts_waiting)),
       log_all ([(lvl_debug, "Alert dispatcher thread started")]
                ++ snd (deliver recording_callback [] (alert_queue_ alerts_waiting))
                ++ [(lvl_debug, "Alert dispatcher thread finished")])
               (set_alert_queue_ [] alerts_waiting)).
Proof.
  assert (Hrun : running_ alerts_waiting = false) by (vm_compute; reflexivity).
  split; [exact Hrun |].
  assert (Hcb : forall s alert,
             fst (recording_callback s alert) <> CallbackThrewOther).
  { intros s alert. unfold recording_callback. simpl.
    destruct (severity alert); discriminate. }
  assert (Hlen : (length (alert_queue_ alerts_waiting) <= 5)%nat).
  { apply Nat.leb_le. vm_compute. reflexivity. }
  exact (proj1 dispatcher_delivers_each_alert_once
           nat TestDetector test_detector (list SurveillanceAlert)
           recording_callback 5%nat [] alerts_waiting Hrun Hcb Hlen).
Defined.

(** X18 at two workers whose updates overlap. *)
Lemma peak_is_exactly_the_largest_sample_witness :
  let s1 := {| PeakUpdate.peak := 1200;
               PeakUpdate.workers := [PeakUpdate.Idle; PeakUpdate.Idle];
               PeakUpdate.samples := [1200; 900] |} in
  PeakUpdate.run overlapping_schedule (PeakUpdate.init 2) = Some s1 /\
  PeakUpdate.peak s1 = largest_sample (PeakUpdate.samples s1).
Proof.
  intros s1.
  assert (H1 : PeakUpdate.run overlapping_schedule (PeakUpdate.init 2) = Some s1).
  { vm_compute. reflexivity. }
  split; [exact H1 |].
  exact (PeakExact.peak_is_exactly_the_largest_sample 2 overlapping_schedule s1 H1).
Defined.

(** X19 at scenario S6 with the flag cleared: the five alerts of the drain
    stay in the queue. *)
Lemma alerts_after_dispatcher_exit_stay_queued_witness :
  running_ draining_engine = false /\
  alert_queue_ draining_engine = [] /\
  exists e',
    dispatcher_loop (Some recording_callback) 3 ([], draining_engine)
    = Finished ([], log lvl_debug "Alert dispatcher thread finished" draining_engine) /\
    worker_loop "w1" [100; 200; 300; 400; 500]
      (log lvl_debug "Alert dispatcher thread finished" draining_engine)
    = Finished e' /\
    length (alert_queue_ e') = 5%nat /\
    alerts_generated_ e'
    = wrap64 (alerts_generated_ draining_engine
              + N.of_nat (length (alert_queue_ e'))).
Proof.
  assert (Hrun : running_ draining_engine = false) by (vm_compute; reflexivity).
  assert (Hq : alert_queue_ draining_engine = []) by (vm_compute; reflexivity).
  split; [exact Hrun |]. split; [exact Hq |].
  assert (Hlen : (length (queue_items (trade_queue_ draining_engine))
                  <= length [100; 200; 300; 400; 500])%nat).
  { apply Nat.leb_le. vm_compute. reflexivity. }
  assert (Htp : (trades_processed_ draining_engine < two64)%N)
    by (vm_compute; reflexivity).
  assert (Hag : (alerts_generated_ draining_engine < two64)%N)
    by (vm_compute; reflexivity).
  destruct (alerts_after_dispatcher_exit_stay_queued
              "w1" (Some recording_callback) [] 3%nat [100; 200; 300; 400; 500]
              draining_engine Hrun Hq draining_engine_well_behaved Hlen Htp Hag)
    as (e' & Hd & Hw & _ & _ & Hg).
  assert (Hfive :
            match worker_loop "w1" [100; 200; 300; 400; 500]
                    (log lvl_debug "Alert dispatcher thread finished"
                       draining_engine) with
            | Finished e' => length (alert_queue_ e')
            | _ => 0%nat
            end = 5%nat) by (vm_compute; reflexivity).
  rewrite Hw in Hfive.
  exists e'. split; [exact Hd |]. split; [exact Hw |].
  split; [exact Hfive | exact Hg].
Defined.
